(* ===== verification/_CoqProject ===== *)
-Q . S2P
Prelude.v
PyDict.v
PyNum.v
DateTime.v
Calendar.v
IsoFormat.v
OsPath.v
GitHub.v
Stats.v
TopRepos.v
Collaborators.v
CollabScore.v
StarTimeline.v
Activity.v
Languages.v
Summary.v
Profile.v
Charts.v
ChartLabels.v
ChartWait.v
Service.v
App.v
