(* ===== verification/Prelude.v ===== *)
(** * GitFolio-AI: a verification development of the profile analyzer

    GitFolio-AI ([src/backend]) analyses a GitHub profile and serves the
    result over HTTP.  [github_analyzer.py] fetches a user and their
    repositories through PyGithub and reduces them to one profile dict:
    statistics, languages, ranked repositories, a star timeline, an
    activity summary, a collaboration score, a collaborator registry and a
    narrative summary ([GitHubAnalyzer.analyze_profile]).  [main.py] runs
    the analysis, writes charts ([charts.py]) and the profile into a file
    store, and serves the stored profiles back with a 24-hour freshness
    rule.  Data flows one way: fetches -> analyses -> assembled profile ->
    file store -> readers.

    ** Files, in dependency order

    - [Prelude] (this file): [sum_by], Python's stable [sorted] as
      insertion sort ([sort_stable], [sorted_desc], [sorted_asc]) with its
      permutation, order and stability lemmas, and generic list lemmas; the
      hint databases [gitfolio] and [gitfolio_rw].
    - [PyDict]: insertion-ordered dicts as association lists ([dict_get],
      [dict_set], [dict_setdefault], [dict_modify]), refined to stdpp's
      [gmap] by [dict_to_map]; [Counter] ([counter_add], [most_common]).
    - [PyNum]: floats as exact rationals [Q]; [round(x, n)] half to even
      ([py_round]), [min(100, .)], [max(1, .)], division.
    - [DateTime]: the CPython [datetime] routines the code uses: comparison,
      subtraction and [.days], ordinals ([ymd2ord], [ord2ymd]),
      [now - timedelta(days=n)] with its [OverflowError], [strftime("%A")],
      [strftime("%Y-%m")], [isoformat].
    - [Calendar]: CPython's optimised [_ord2ymd] is correct against
      [_ymd2ord] on the whole [datetime] range: the two are inverse
      bijections between ordinals and valid dates, later
      ordinals give later dates, [dt_ltb] is transitive; hence
      [now - timedelta(days=n)] computes valid, ordered datetimes.
    - [IsoFormat]: [datetime.fromisoformat] on the strings [isoformat]
      prints ([isoformat_parses]: the program reads back what it writes).
    - [OsPath]: [os.path.join] and [os.path.basename] (POSIX).
    - [GitHub]: the PyGithub objects as records and every fetch as a method
      of the class [GithubApi] returning [Ok v] or [Raise e]; [result] is a
      monad.  Theorems in a section with [Context `{GithubApi}] hold for
      every behaviour of GitHub, failures included; [analyzer_client] is
      the authenticated or anonymous client of [__init__]; [fixture_api] builds
      concrete APIs from tables for the examples.
    - [Stats] ([_calculate_stats], [_estimate_total_commits]),
      [TopRepos] ([_get_top_repositories]), [Collaborators]
      ([_get_collaborators]), [CollabScore]
      ([_calculate_collaboration_score]), [StarTimeline]
      ([_get_star_timeline]), [Activity] ([_get_most_active_day],
      [_estimate_streak], [_get_contribution_summary]), [Languages]
      ([_get_top_languages]), [Summary] ([_generate_ai_summary]): one Module
      per method, one definition per loop body or guarded fetch, composed
      as the source composes them.
    - [Profile] ([analyze_profile]): the pipeline in the source's order and
      the two [except] clauses; [profile_wf], what the components promise
      of the assembled dict.
    - [Charts] ([charts.py]: [ChartGenerator] and its four generators,
      [generate_all_charts]): each chart as its path and the data it plots
      ([Chart]); the heatmap's 7x24 activity matrix; whether [scipy] is
      installed is the class [PyEnv].
    - [ChartLabels] ([charts.py], lines 103, 119, 154-157, 228-235): the
      text the charts draw: the star axis formatter [f'{int(x):,}'], the
      heatmap's day and hour labels, the bar value labels.
    - [ChartWait] ([main.py], lines 73-82): the wait loop of
      [analyze_and_save] over IEEE binary64 floats (Rocq's primitive
      floats), as a [Fixpoint] with fuel.
    - [Service] ([main.py]: [analyze_and_save], the two analysis
      endpoints [analyze_profile_get] and [analyze_profile_post], [get_data],
      [get_user_data], [get_chart], [clear_data]): the file store as a
      [gmap] from path to file (profiles and chart images), each endpoint as
      a function of the store, and the runs of the service as a step
      relation [step] with [reachable] stores and its induction principle
      [reachable_ind], from which each store invariant follows.
    - [App] ([main.py], lines 19-39 and the route decorators): the route
      table in registration order with Starlette's first-match dispatch,
      the root and health endpoints, the start-up token and [analyzer]
      (lines 42-43), and [handle] / [run], which answer
      requests with the endpoints above.

    ** What the theorems show

    - Deduplication ([Collaborators]): the registry has unique logins and
      never the owner; [repo_count] counts the scanned repositories that
      list the person; the totals partition the registry; [top_people] is
      bounded, sorted, and keeps the people with the most repositories
      (nobody left out has more than anybody listed).  The proofs go
      through an abstract specification (the list of sightings) that the
      loop refines.
    - Scoring ([CollabScore]): all sub-scores and the overall score lie in
      [0, 100] (a loop invariant on the counters); the review count never
      exceeds the pull-request count; a failing issue listing also drops
      the pull-request and review counts of its [try].
    - Timeline ([StarTimeline]): every entry is the total of the stars up to
      its month (the loop invariant of the month dict); the timeline is
      bounded and increasing.
    - Ranking and languages ([TopRepos], [Languages]): ties keep the fetch
      order; the five repositories and the five languages reported are
      maximal (a left-out repository or language has at most the stars or
      bytes of every reported one); percentages lie in [0, 100].
    - Activity ([Activity]): the most active day is a weekday of largest
      tally, or "Unknown" exactly when nothing was tallied; the streak
      lies in [0, 30] ([streak_bounds]) and, through [Calendar], fewer
      repositories are updated in the last month than in the last year
      ([recent_repos_le_year_repos]).
    - Pipeline ([Profile]): the analysis succeeds exactly when the top-level
      fetches and the unguarded [get_topics] calls succeed; every profile
      it builds is well formed ([analyze_profile_wf]): the bounds and
      orders of the components above, carried to the assembled dict.
    - Service ([Service]): by rule induction over [step], in every
      reachable store [/data/{username}] serves only the user's own file;
      a saved profile is served exactly while younger than 24 hours; a
      failed analysis leaves the store unchanged and answers 500 with the
      status code repeated in the detail; a user name holding a separator
      is never saved (the write of [data/<dir>/<name>.json] fails after
      the charts are written); the star chart served after an analysis
      plots the saved timeline; [DELETE /data] removes
      [data/profile.json] and every file directly under [charts/].  User
      names are plain ([plain_name]) where a theorem needs them to be:
      non-empty, without separator, and neither ["."] nor [".."].
    - Application ([App]): every profile the app answers with is well
      formed (the components' guarantees reach the HTTP response); from
      every reachable store one [POST /analyze] of a plainly named user
      that GitHub lets succeed makes [GET /data/{username}] serve the
      analysis for 24 hours (liveness of the cache); every chart URL of a
      saved profile is served; the route [/charts/{username}/{chart_name}]
      is shadowed by the static mount, which matches only the paths below
      [/charts/] and answers 405 to methods other than GET; [/health]
      reports the token configured exactly when the analyzer built at
      start-up is an authenticated client.
    - Charts ([Charts], [ChartWait]): each cell of the heatmap matrix
      holds the weight of the repositories updated at its weekday and
      hour; with [scipy] installed the flat placeholder is drawn exactly
      when no top repository has an update time; the wait loop terminates
      within 52 rounds of fuel for every file system.
    - Concrete theorems evaluated by [vm_compute] on fixtures record what
      the model shows about the code: the level is taken from the unrounded
      score, percentages can add up to more than 100, the streak counts
      repositories and accepts 47-hour gaps, a commit without author
      truncates the weekday tally, the "Python developer" branch is dead,
      [GET /data] misses a fresh analysis.

    ** Modelling choices, bounds and limits

    - Floats are exact rationals: the theorems hold for exact arithmetic;
      where IEEE rounding could differ (exact decimal ties) the concrete
      fixtures were chosen away from ties.  The one loop whose behaviour
      depends on float rounding, the chart wait loop, uses binary64.
    - The slice bounds of the source (20, 50, 100, 15, 30, 10, 5, 12) are
      definitions named after their use ([MAX_COMMIT_REPOS], ...); every
      loop of the source but one is a [fold_left] over a finite list.  The
      chart wait loop runs on fuel [WAIT_FUEL = 52], proved enough for
      every file system ([chart_wait_terminates]).  The calendar proof
      evaluates one 400-year cycle (146097 days) twice, from its ordinals
      and from its dates (about 25 seconds of [vm_compute] together);
      every other ordinal and date reduces to it by periodicity.
    - A paginated PyGithub call is one outcome; laziness, rate limits and
      the contents of exception messages are not modelled (a message is
      kept as its prefix).  The three [datetime.now] calls of one analysis
      are one parameter [now].
    - Not modelled, because nothing of the program's own logic is in it
      or it lies in a library the code only calls: CORS headers, the
      contents of FastAPI's documentation pages, [load_dotenv],
      [os.makedirs] (a directory is not an entry of the store) and the
      [uvicorn] start-up, logging and tracebacks, the unused
      [AnalyzeResponse] model (main.py 52-56), the matplotlib rendering
      itself (layout, fonts, colours, the tick positions matplotlib
      chooses) and scipy's [gaussian_filter] (the chart records its
      input), PyGithub's rate limits and the lazy completion of attributes
      (which only makes an attribute read a request), and JSON encoding
      (the identity on the stored dict).  [GitHubAnalyzer.__init__] is
      modelled by the client it builds ([analyzer_client]); which client
      is used only changes rate limits, so the analyses do not depend on
      it. *)

From stdpp Require Export base list.
From Stdlib Require Export ZArith Lia Sorted.
Import ListNotations.

Declare Scope gitfolio_scope.
Delimit Scope gitfolio_scope with gf.

Create HintDb gitfolio.
Create Rewrite HintDb gitfolio_rw.

(** ** Python slicing and summing *)

(** [l[:n]] in Python is stdpp's [take n l] (no error when [n] exceeds the
    length); [sum(f(x) for x in l)] is [sum_by f l]. *)
Definition sum_by {A} (f : A -> Z) (l : list A) : Z :=
  fold_right (fun x acc => (f x + acc)%Z) 0%Z l.

Notation "l [: n ]" := (take n l) (at level 1, n at level 200, format "l [: n ]") : gitfolio_scope.

(** ** Python's [sorted]: a stable sort on a key

    CPython's [sorted(xs, key=k)] and [sorted(xs, key=k, reverse=True)] are
    both stable: items whose keys compare equal keep their input order.  We
    model them as insertion sort, where [before x y] says that [x] must be
    placed strictly before [y]; a new item goes after every item it is not
    strictly before, so equal keys keep their order. *)
Fixpoint insert_stable {A} (before : A -> A -> bool) (x : A) (l : list A) : list A :=
  match l with
  | [] => [x]
  | y :: r => if before x y then x :: y :: r else y :: insert_stable before x r
  end.

Definition sort_stable {A} (before : A -> A -> bool) (l : list A) : list A :=
  fold_left (fun acc x => insert_stable before x acc) l [].

(** [x] may precede [y] in the output: [y] is not strictly before [x]. *)
Definition may_precede {A} (before : A -> A -> bool) (x y : A) : Prop := before y x = false.

(** A sort on a key [key] with a strict order [ltK] on keys: this is how
    the source calls [sorted(..., key=...)]. *)
Definition key_before {A K} (key : A -> K) (ltK : K -> K -> bool) (x y : A) : bool := ltK (key x) (key y).

(** [sorted(xs, key=k)] and [sorted(xs, key=k, reverse=True)] on an
    integer key. *)
Definition sorted_asc {A} (k : A -> Z) (l : list A) : list A :=
  sort_stable (key_before k Z.ltb) l.
Definition sorted_desc {A} (k : A -> Z) (l : list A) : list A :=
  sort_stable (key_before k (fun a b => Z.ltb b a)) l.

(** ** Lemmas *)

Lemma sum_by_app {A} (f : A -> Z) l1 l2 :
  sum_by f (l1 ++ l2) = (sum_by f l1 + sum_by f l2)%Z.
Proof. induction l1; simpl; lia. Qed.

Lemma sum_by_nonneg {A} (f : A -> Z) l :
  Forall (fun x => 0 <= f x)%Z l -> (0 <= sum_by f l)%Z.
Proof. induction 1; simpl; lia. Qed.

Lemma sum_by_01 {A} (f : A -> Z) l :
  (forall x, 0 <= f x <= 1)%Z -> (0 <= sum_by f l <= Z.of_nat (length l))%Z.
Proof. intros Hf. induction l as [|x l IH]; simpl; [lia|]. specialize (Hf x). lia. Qed.

Lemma fold_left_map_fuse {A B C} (f : C -> B -> C) (g : A -> B) (l : list A) (c : C) :
  fold_left f (map g l) c = fold_left (fun acc a => f acc (g a)) l c.
Proof. revert c. induction l; simpl; auto. Qed.

#[export] Hint Rewrite @sum_by_app : gitfolio_rw.
#[export] Hint Resolve sum_by_nonneg : gitfolio.

(** Stable insertion sort: permutation, sortedness. *)
Section StableSort.
Context {A : Type} (before : A -> A -> bool).
Local Notation insert_stable := (insert_stable before).
Local Notation sort_stable := (sort_stable before).
Local Notation may_precede := (may_precede before).

Lemma insert_stable_perm x l : insert_stable x l ≡ₚ x :: l.
Proof.
  induction l as [|y r IH]; simpl; [done|].
  destruct (before x y); [done|]. rewrite IH. constructor.
Qed.

Lemma sort_stable_app l x : sort_stable (l ++ [x]) = insert_stable x (sort_stable l).
Proof. unfold sort_stable. by rewrite fold_left_app. Qed.

Lemma sort_stable_perm l : sort_stable l ≡ₚ l.
Proof.
  induction l as [|x l IH] using rev_ind; [done|].
  rewrite sort_stable_app, insert_stable_perm, IH. by rewrite Permutation_app_comm.
Qed.

Lemma length_sort_stable l : length (sort_stable l) = length l.
Proof. apply Permutation_length, sort_stable_perm. Qed.

Lemma elem_of_sort_stable x l : x ∈ sort_stable l <-> x ∈ l.
Proof. apply elem_of_Permutation_proper, sort_stable_perm. Qed.

Hypothesis before_asym : forall x y, before x y = true -> before y x = false.

Lemma insert_stable_sorted x l :
  Sorted may_precede l -> Sorted may_precede (insert_stable x l).
Proof.
  induction 1 as [|y r Hr IH Hhd]; simpl; [repeat constructor|].
  destruct (before x y) eqn:Hxy.
  - constructor; [by constructor|]. constructor. by apply before_asym.
  - constructor; [done|]. destruct r as [|z r]; simpl.
    + by repeat constructor.
    + inversion Hhd; subst. destruct (before x z); by constructor.
Qed.

Lemma sort_stable_sorted l : Sorted may_precede (sort_stable l).
Proof.
  induction l as [|x l IH] using rev_ind; [constructor|].
  rewrite sort_stable_app. by apply insert_stable_sorted.
Qed.
End StableSort.

#[export] Hint Resolve sort_stable_sorted sort_stable_perm : gitfolio.

Lemma filter_none {A} (P : A -> Prop) `{!forall x, Decision (P x)} (l : list A) :
  (forall x, x ∈ l -> ¬ P x) -> filter P l = [].
Proof.
  induction l as [|y l IH]; intros Hno; [done|].
  rewrite filter_cons_False by (apply Hno; left). apply IH. intros x Hx. apply Hno. by right.
Qed.

(** A sort on a key [key] with a strict order [ltK] on keys: this is how
    the source calls [sorted(..., key=...)].  [ltK] is irreflexive and its
    negation (the "not after" relation) is transitive, which holds for
    [<] and [>] on integers and on datetimes. *)
Section KeySort.
Context {A K : Type} `{!EqDecision K} (key : A -> K) (ltK : K -> K -> bool).
Local Notation key_before := (key_before key ltK).

Hypothesis ltK_irrefl : forall k, ltK k k = false.
Hypothesis ltK_asym : forall a b, ltK a b = true -> ltK b a = false.
Hypothesis ltK_notafter_trans :
  forall a b c, ltK b a = false -> ltK c b = false -> ltK c a = false.

Lemma key_before_asym x y : key_before x y = true -> key_before y x = false.
Proof. apply ltK_asym. Qed.

Lemma key_sort_strongly_sorted l :
  StronglySorted (may_precede key_before) (sort_stable key_before l).
Proof.
  apply Sorted_StronglySorted; [|apply sort_stable_sorted, key_before_asym].
  intros x y z. unfold may_precede, key_before. eauto.
Qed.

(** Filtering the items of one key commutes with the insertion. *)
Lemma insert_stable_filter_key k x s :
  StronglySorted (may_precede key_before) s ->
  filter (fun y => key y = k) (insert_stable key_before x s)
  = filter (fun y => key y = k) s ++ filter (fun y => key y = k) [x].
Proof.
  induction 1 as [|y r Hr IH Hall]; [done|]. simpl.
  destruct (key_before x y) eqn:Hxy.
  - rewrite filter_cons. case_decide as Hx.
    + assert (filter (fun y => key y = k) (y :: r) = []) as ->; [|by rewrite filter_cons_True].
      apply filter_none. intros z Hz <-. unfold key_before in Hxy.
      apply elem_of_cons in Hz as [->|Hz].
      * by rewrite Hx, ltK_irrefl in Hxy.
      * rewrite Forall_forall in Hall. specialize (Hall z Hz).
        unfold may_precede, key_before in Hall. congruence.
    + by rewrite filter_singleton_False, app_nil_r.
  - rewrite !filter_cons, IH. by case_decide.
Qed.

(** Stability: for every key, the items with that key appear in the
    sorted output in the same relative order as in the input. *)
Lemma key_sort_stable k l :
  filter (fun y => key y = k) (sort_stable key_before l) = filter (fun y => key y = k) l.
Proof.
  induction l as [|x l IH] using rev_ind; [done|].
  rewrite sort_stable_app, insert_stable_filter_key by apply key_sort_strongly_sorted.
  by rewrite IH, filter_app.
Qed.
End KeySort.

Lemma Sorted_weaken {A} (R1 R2 : A -> A -> Prop) (l : list A) :
  (forall x y, R1 x y -> R2 x y) -> Sorted R1 l -> Sorted R2 l.
Proof.
  intros Himp. induction 1 as [|x l _ IH Hd]; constructor; [done|].
  destruct Hd; constructor. by apply Himp.
Qed.

(** In a strongly sorted list, what is kept by [take n] precedes what
    [drop n] leaves. *)
Lemma strongly_sorted_take_drop {A} (R : A -> A -> Prop) (l : list A) n x y :
  StronglySorted R l -> y ∈ take n l -> x ∈ drop n l -> R y x.
Proof.
  intros Hs. revert n. induction Hs as [|a l Hs IH Hall]; intros [|n] Hy Hx; simpl in *;
    try by apply elem_of_nil in Hy.
  apply elem_of_cons in Hy as [->|Hy]; [|by apply (IH n)].
  rewrite Forall_forall in Hall. apply Hall.
  rewrite <- (take_drop n l). apply elem_of_app. by right.
Qed.

Section ZKeySort.
Context {A : Type} (k : A -> Z).

Lemma sorted_desc_perm l : sorted_desc k l ≡ₚ l.
Proof. apply sort_stable_perm. Qed.

Lemma sorted_asc_perm l : sorted_asc k l ≡ₚ l.
Proof. apply sort_stable_perm. Qed.

Lemma sorted_desc_stable z l :
  filter (fun y => k y = z) (sorted_desc k l) = filter (fun y => k y = z) l.
Proof. apply key_sort_stable; intros; rewrite ?Z.ltb_irrefl, ?Z.ltb_lt, ?Z.ltb_ge in *; lia. Qed.

Lemma sorted_asc_stable z l :
  filter (fun y => k y = z) (sorted_asc k l) = filter (fun y => k y = z) l.
Proof. apply key_sort_stable; intros; rewrite ?Z.ltb_irrefl, ?Z.ltb_lt, ?Z.ltb_ge in *; lia. Qed.

Lemma sorted_desc_sorted l : Sorted (fun x y => k y <= k x)%Z (sorted_desc k l).
Proof.
  eapply Sorted_weaken; [|apply sort_stable_sorted].
  - unfold may_precede, key_before. intros x y H. by apply Z.ltb_ge.
  - unfold key_before. intros x y. rewrite Z.ltb_lt, Z.ltb_ge. lia.
Qed.

Lemma sorted_asc_sorted l : Sorted (fun x y => k x <= k y)%Z (sorted_asc k l).
Proof.
  eapply Sorted_weaken; [|apply sort_stable_sorted].
  - unfold may_precede, key_before. intros x y H. by apply Z.ltb_ge.
  - unfold key_before. intros x y. rewrite Z.ltb_lt, Z.ltb_ge. lia.
Qed.

(** [sorted(l, key=k, reverse=True)[:n]] keeps the [n] largest keys: an
    element of [l] left out has a key at most that of every element kept. *)
Lemma sorted_desc_take_max n l x y :
  x ∈ l -> x ∉ take n (sorted_desc k l) -> y ∈ take n (sorted_desc k l) -> (k x <= k y)%Z.
Proof.
  intros Hx Hnx Hy. pose proof (sorted_desc_sorted l) as Hs.
  apply Sorted_StronglySorted in Hs; [|intros a b c; lia].
  assert (Hd : x ∈ drop n (sorted_desc k l)).
  { rewrite <- (sorted_desc_perm l), <- (take_drop n (sorted_desc k l)) in Hx.
    apply elem_of_app in Hx as [|]; [contradiction|done]. }
  exact (strongly_sorted_take_drop _ _ n x y Hs Hy Hd).
Qed.
End ZKeySort.

#[export] Hint Resolve sorted_desc_perm sorted_asc_perm : gitfolio.

Lemma Sorted_take {A} (R : A -> A -> Prop) (l : list A) (n : nat) :
  Sorted R l -> Sorted R (take n l).
Proof.
  intros Hs. revert n. induction Hs as [|x l Hl IH Hd]; intros [|n]; simpl; try constructor.
  - apply IH.
  - destruct n, Hd; simpl; constructor; done.
Qed.

#[export] Hint Resolve Sorted_take : gitfolio.

Lemma sublist_map {A B} (f : A -> B) (l1 l2 : list A) :
  l1 `sublist_of` l2 -> map f l1 `sublist_of` map f l2.
Proof. induction 1; simpl; by constructor. Qed.

Lemma prefix_map {A B} (f : A -> B) (l1 l2 : list A) :
  l1 `prefix_of` l2 -> map f l1 `prefix_of` map f l2.
Proof. intros [k ->]. exists (map f k). by rewrite map_app. Qed.

Lemma sum_by_filter_perm {A} (f : A -> Z) (p : A -> bool) (l1 l2 : list A) :
  l1 ≡ₚ l2 -> sum_by f (List.filter p l1) = sum_by f (List.filter p l2).
Proof.
  induction 1 as [|x l1 l2 _ IH|x y l|l1 l2 l3 _ IH1 _ IH2]; simpl; try lia.
  - destruct (p x); simpl; lia.
  - destruct (p x), (p y); simpl; lia.
Qed.

(** Summing over a weaker filter gives more, when the summands are nonnegative. *)
Lemma sum_by_filter_mono {A} (f : A -> Z) (p q : A -> bool) (l : list A) :
  (forall x, In x l -> (0 <= f x)%Z) -> (forall x, p x = true -> q x = true) ->
  (sum_by f (List.filter p l) <= sum_by f (List.filter q l))%Z.
Proof.
  intros Hf Hpq. induction l as [|x l IH]; simpl; [lia|].
  assert (0 <= f x)%Z by (apply Hf; by left).
  specialize (IH (fun y Hy => Hf y (or_intror Hy))).
  destruct (p x) eqn:Hp; [rewrite (Hpq x Hp); simpl; lia|]. destruct (q x); simpl; lia.
Qed.

Lemma filter_length_mono {A} (p q : A -> bool) (l : list A) :
  (forall x, p x = true -> q x = true) -> (length (List.filter p l) <= length (List.filter q l))%nat.
Proof.
  intros Hpq. induction l as [|x l IH]; simpl; [lia|].
  destruct (p x) eqn:Hp; [rewrite (Hpq x Hp); simpl; lia|]. destruct (q x); simpl; lia.
Qed.

Lemma Sorted_drop {A} (R : A -> A -> Prop) (l : list A) (n : nat) :
  Sorted R l -> Sorted R (drop n l).
Proof.
  revert l. induction n as [|n IH]; intros l Hs; [done|].
  destruct l as [|x l]; [constructor|]. simpl. apply IH. by apply Sorted_inv in Hs as [].
Qed.

Lemma Sorted_map {A B} (R : B -> B -> Prop) (f : A -> B) (l : list A) :
  Sorted (fun x y => R (f x) (f y)) l -> Sorted R (map f l).
Proof.
  induction 1 as [|x l _ IH Hd]; simpl; constructor; [done|].
  destruct Hd; simpl; by constructor.
Qed.

(** A sorted list without duplicates is sorted for the strict relation. *)
Lemma Sorted_NoDup_strict {A} (R : A -> A -> Prop) (l : list A) :
  Sorted R l -> NoDup l -> Sorted (fun x y => R x y /\ x <> y) l.
Proof.
  induction 1 as [|x l _ IH Hd]; intros Hnd; constructor.
  - apply IH. by apply NoDup_cons in Hnd as [].
  - destruct Hd as [|y l' Hxy]; constructor. split; [done|].
    apply NoDup_cons in Hnd as [Hx _]. intros ->. apply Hx. by left.
Qed.
