(* ===== verification/PyDict.v ===== *)
(** * Python dictionaries and counters

    The analyzer keeps three dictionaries ([all_people] in
    [_get_collaborators], [month_stars] in [_get_star_timeline], the
    [Counter]s [language_bytes] and [day_counter]).  Python dicts remember
    insertion order, and the source depends on it: [Counter.most_common]
    breaks ties by insertion order and [sorted(all_people.values(), ...)]
    is stable.  So a dict is modelled as an association list in insertion
    order with unique keys; [d[k] = v] updates in place or appends.  The
    abstract view is stdpp's [gmap]: [dict_to_map] is a refinement map and
    the lemmas below show that every dict operation implements the
    corresponding finite-map operation. *)

From S2P Require Import Prelude.
From stdpp Require Import gmap.
Import ListNotations.

Section Dict.
Context {K V : Type} `{!EqDecision K}.

Definition dict := list (K * V).

(** [d.get(k)] *)
Fixpoint dict_get (k : K) (d : dict) : option V :=
  match d with
  | [] => None
  | (k', v) :: r => if decide (k = k') then Some v else dict_get k r
  end.

(** [k in d] *)
Definition dict_mem (k : K) (d : dict) : bool := bool_decide (is_Some (dict_get k d)).

(** [d[k] = v]: overwrite in place, or append a new entry at the end. *)
Fixpoint dict_set (k : K) (v : V) (d : dict) : dict :=
  match d with
  | [] => [(k, v)]
  | (k', v') :: r => if decide (k = k') then (k, v) :: r else (k', v') :: dict_set k v r
  end.

(** [d[k] = f(d[k])] on a present key (the [+= 1] updates of the source);
    no change when [k] is absent. *)
Fixpoint dict_modify (k : K) (f : V -> V) (d : dict) : dict :=
  match d with
  | [] => []
  | (k', v') :: r => if decide (k = k') then (k', f v') :: r else (k', v') :: dict_modify k f r
  end.

(** [if k not in d: d[k] = v] *)
Definition dict_setdefault (k : K) (v : V) (d : dict) : dict :=
  if dict_mem k d then d else dict_set k v d.

Definition dict_keys (d : dict) : list K := map fst d.
Definition dict_values (d : dict) : list V := map snd d.

(** Two dicts with the same entries, in whatever order. *)
Definition dict_equiv (d1 d2 : dict) : Prop := forall k, dict_get k d1 = dict_get k d2.

(** The dict invariant: keys are unique. *)
Definition dict_wf (d : dict) : Prop := NoDup (dict_keys d).

(** The refinement map: a dict denotes a finite map. *)
Context `{!Countable K}.

Definition dict_to_map (d : dict) : gmap K V :=
  fold_right (fun kv m => <[kv.1 := kv.2]> m) ∅ d.

End Dict.

Arguments dict : clear implicits.

(** ** [collections.Counter] *)
Section Counter.
Context {K : Type} `{!EqDecision K}.

Definition counter := dict K Z.

(** [c[k] += n]: a missing key reads as 0 and is then inserted. *)
Definition counter_add (k : K) (n : Z) (c : counter) : counter :=
  dict_set k (default 0%Z (dict_get k c) + n)%Z c.

(** [c.most_common(n)]: CPython computes [heapq.nlargest(n, ...)], which is
    documented (and implemented) as [sorted(c.items(), key=itemgetter(1),
    reverse=True)[:n]]: ties keep insertion order. *)
Definition most_common (n : nat) (c : counter) : list (K * Z) :=
  take n (sorted_desc snd c).

End Counter.

(** ** Lemmas on dicts *)
Section DictLemmas.
Context {K V : Type} `{!EqDecision K}.
Implicit Types (k : K) (v : V) (d : dict K V) (f : V -> V).

Lemma dict_get_set_eq k v d : dict_get k (dict_set k v d) = Some v.
Proof. induction d as [|[k' v'] r IH]; simpl; repeat (case_decide; simpl); by try case_decide. Qed.

Lemma dict_get_set_ne k k' v d : k <> k' -> dict_get k' (dict_set k v d) = dict_get k' d.
Proof.
  intros Hne. induction d as [|[k'' v''] r IH]; simpl; repeat case_decide; simpl;
    repeat case_decide; subst; congruence.
Qed.

Lemma dict_get_modify_eq k f d : dict_get k (dict_modify k f d) = f <$> dict_get k d.
Proof. induction d as [|[k' v'] r IH]; simpl; [done|]. repeat (case_decide; simpl); done. Qed.

Lemma dict_get_modify_ne k k' f d : k <> k' -> dict_get k' (dict_modify k f d) = dict_get k' d.
Proof.
  intros Hne. induction d as [|[k'' v''] r IH]; simpl; [done|].
  repeat case_decide; simpl; repeat case_decide; subst; congruence.
Qed.

Lemma dict_get_elem_of k d : is_Some (dict_get k d) <-> k ∈ dict_keys d.
Proof.
  induction d as [|[k' v'] r IH]; simpl; [split; [by intros []|intros ?%elem_of_nil; done]|].
  case_decide; subst; rewrite elem_of_cons; [naive_solver|]. rewrite IH. naive_solver.
Qed.

Lemma dict_get_In k v d : dict_get k d = Some v -> (k, v) ∈ d.
Proof.
  induction d as [|[k' v'] r IH]; simpl; [done|].
  case_decide; [intros [= <-]; subst; by left|]. intros. right. by apply IH.
Qed.

Lemma dict_keys_set k v d :
  dict_keys (dict_set k v d) = if dict_mem k d then dict_keys d else dict_keys d ++ [k].
Proof.
  unfold dict_mem. induction d as [|[k' v'] r IH]; simpl; [done|].
  case_decide; subst; simpl; [done|]. rewrite IH. by case_bool_decide.
Qed.

Lemma dict_keys_modify k f d : dict_keys (dict_modify k f d) = dict_keys d.
Proof. induction d as [|[k' v'] r IH]; simpl; [done|]. case_decide; simpl; by f_equal. Qed.

Lemma dict_set_wf k v d : dict_wf d -> dict_wf (dict_set k v d).
Proof.
  unfold dict_wf. rewrite dict_keys_set. unfold dict_mem. case_bool_decide as Hk; [done|].
  intros Hnd. apply NoDup_app. split_and!; [done| |by apply NoDup_singleton].
  intros x Hx ->%list_elem_of_singleton. apply Hk, dict_get_elem_of, Hx.
Qed.

Lemma dict_modify_wf k f d : dict_wf d -> dict_wf (dict_modify k f d).
Proof. unfold dict_wf. by rewrite dict_keys_modify. Qed.

Lemma dict_get_setdefault_eq k v d : dict_get k (dict_setdefault k v d) = Some (default v (dict_get k d)).
Proof.
  unfold dict_setdefault, dict_mem. case_bool_decide as Hk.
  - destruct Hk as [w ->]. done.
  - rewrite dict_get_set_eq. destruct (dict_get k d); [|done]. by destruct Hk.
Qed.

Lemma dict_get_setdefault_ne k k' v d : k <> k' -> dict_get k' (dict_setdefault k v d) = dict_get k' d.
Proof. intros. unfold dict_setdefault. destruct (dict_mem k d); [done|]. by apply dict_get_set_ne. Qed.

Lemma dict_setdefault_wf k v d : dict_wf d -> dict_wf (dict_setdefault k v d).
Proof. intros. unfold dict_setdefault. destruct (dict_mem k d); [done|]. by apply dict_set_wf. Qed.

Lemma dict_set_Forall (P : K * V -> Prop) k v d :
  Forall P d -> P (k, v) -> Forall P (dict_set k v d).
Proof.
  induction 1 as [|[k' v'] r Hkv Hr IH]; simpl; intros Hp; [by repeat constructor|].
  case_decide; constructor; auto.
Qed.

Lemma dict_modify_Forall (P : K * V -> Prop) k f d :
  Forall P d -> (forall v, P (k, v) -> P (k, f v)) -> Forall P (dict_modify k f d).
Proof.
  induction 1 as [|[k' v'] r Hkv Hr IH]; simpl; intros Hf; [done|].
  case_decide; subst; constructor; auto.
Qed.

Lemma dict_setdefault_Forall (P : K * V -> Prop) k v d :
  Forall P d -> P (k, v) -> Forall P (dict_setdefault k v d).
Proof. intros. unfold dict_setdefault. destruct (dict_mem k d); auto using dict_set_Forall. Qed.

Lemma length_dict_set k v d :
  length (dict_set k v d) = if dict_mem k d then length d else S (length d).
Proof.
  rewrite <- !(length_map fst). fold (dict_keys d) (dict_keys (dict_set k v d)).
  rewrite dict_keys_set. destruct (dict_mem k d); [done|]. rewrite length_app. simpl. lia.
Qed.

(** *** Dicts up to entry order *)

#[export] Instance dict_equiv_equivalence : Equivalence (@dict_equiv K V _).
Proof. split; intros d1; [done|intros d2 H k; by rewrite H|intros d2 d3 H1 H2 k; by rewrite H1, H2]. Qed.

#[export] Instance dict_get_proper k : Proper (@dict_equiv K V _ ==> eq) (dict_get k).
Proof. intros d1 d2 H. apply H. Qed.

#[export] Instance dict_set_proper k v : Proper (@dict_equiv K V _ ==> @dict_equiv K V _) (dict_set k v).
Proof.
  intros d1 d2 H k'. destruct (decide (k = k')) as [->|Hne]; [by rewrite !dict_get_set_eq|].
  by rewrite !dict_get_set_ne.
Qed.

#[export] Instance dict_modify_proper k f : Proper (@dict_equiv K V _ ==> @dict_equiv K V _) (dict_modify k f).
Proof.
  intros d1 d2 H k'. destruct (decide (k = k')) as [->|Hne]; [by rewrite !dict_get_modify_eq, H|].
  by rewrite !dict_get_modify_ne.
Qed.

#[export] Instance dict_setdefault_proper k v : Proper (@dict_equiv K V _ ==> @dict_equiv K V _) (dict_setdefault k v).
Proof.
  intros d1 d2 H. unfold dict_setdefault, dict_mem. rewrite (H k).
  destruct (bool_decide _); [done|by rewrite H].
Qed.

Context `{!Countable K}.

Lemma dict_to_map_lookup d k : dict_to_map d !! k = dict_get k d.
Proof.
  induction d as [|[k' v'] r IH]; simpl; [apply lookup_empty|].
  case_decide; subst; [apply lookup_insert_eq|]. by rewrite lookup_insert_ne.
Qed.

Lemma dict_set_refines k v d : dict_to_map (dict_set k v d) = <[k := v]> (dict_to_map d).
Proof.
  apply map_eq. intros k'. rewrite dict_to_map_lookup.
  destruct (decide (k = k')) as [->|Hne].
  - by rewrite dict_get_set_eq, lookup_insert_eq.
  - by rewrite dict_get_set_ne, lookup_insert_ne, dict_to_map_lookup.
Qed.

Lemma dict_modify_refines k f d : dict_to_map (dict_modify k f d) = alter f k (dict_to_map d).
Proof.
  apply map_eq. intros k'. rewrite dict_to_map_lookup.
  destruct (decide (k = k')) as [->|Hne].
  - by rewrite dict_get_modify_eq, lookup_alter_eq, dict_to_map_lookup.
  - by rewrite dict_get_modify_ne, lookup_alter_ne, dict_to_map_lookup.
Qed.

Lemma dict_setdefault_refines k v d :
  dict_to_map (dict_setdefault k v d) =
  match dict_to_map d !! k with Some _ => dict_to_map d | None => <[k := v]> (dict_to_map d) end.
Proof.
  unfold dict_setdefault, dict_mem. rewrite dict_to_map_lookup.
  destruct (dict_get k d) eqn:E; rewrite ?bool_decide_true, ?bool_decide_false by (rewrite ?E; eauto; by intros []);
    [done|apply dict_set_refines].
Qed.

(** Equivalent dicts are exactly those denoting the same finite map. *)
Lemma dict_equiv_to_map d1 d2 : dict_equiv d1 d2 <-> dict_to_map d1 = dict_to_map d2.
Proof.
  split.
  - intros H. apply map_eq. intros k. by rewrite !dict_to_map_lookup.
  - intros H k. by rewrite <- !dict_to_map_lookup, H.
Qed.

#[export] Instance dict_to_map_proper : Proper (@dict_equiv K V _ ==> eq) dict_to_map.
Proof. intros d1 d2 H. by apply dict_equiv_to_map. Qed.

Lemma dict_wf_size d : dict_wf d -> size (dict_to_map d) = length d.
Proof.
  unfold dict_wf, dict_keys. induction d as [|[k v] r IH]; simpl; intros Hnd; [apply map_size_empty|].
  apply NoDup_cons in Hnd as [Hk Hnd].
  rewrite map_size_insert_None, IH by (done || (rewrite dict_to_map_lookup;
    destruct (dict_get k r) eqn:E; [|done]; exfalso; apply Hk, dict_get_elem_of; by eexists)).
  done.
Qed.
End DictLemmas.

#[export] Hint Resolve dict_set_wf dict_modify_wf dict_setdefault_wf : gitfolio.
#[export] Hint Rewrite @dict_get_set_eq @dict_get_modify_eq @dict_get_setdefault_eq @dict_keys_modify : gitfolio_rw.

(** ** Lemmas on counters *)
Section CounterLemmas.
Context {K : Type} `{!EqDecision K}.
Implicit Types (k : K) (c : counter (K:=K)).

Lemma counter_add_nonneg k n c :
  Forall (fun kv => 0 <= kv.2)%Z c -> (0 <= n)%Z -> Forall (fun kv => 0 <= kv.2)%Z (counter_add k n c).
Proof.
  intros Hc Hn. unfold counter_add. apply dict_set_Forall; [done|]. simpl.
  destruct (dict_get k c) as [v|] eqn:E; simpl; [|lia].
  apply dict_get_In in E. rewrite Forall_forall in Hc. specialize (Hc _ E). simpl in Hc. lia.
Qed.

Lemma counter_add_get k n c : dict_get k (counter_add k n c) = Some (default 0 (dict_get k c) + n)%Z.
Proof. apply dict_get_set_eq. Qed.

Lemma length_most_common n c : length (most_common n c) = min n (length c).
Proof. unfold most_common, sorted_desc. by rewrite length_take, length_sort_stable. Qed.

Lemma most_common_sorted n c : Sorted (fun x y => y.2 <= x.2)%Z (most_common n c).
Proof. apply Sorted_take, sorted_desc_sorted. Qed.

Lemma most_common_elem n c kv : kv ∈ most_common n c -> kv ∈ c.
Proof.
  unfold most_common. intros Hin. eapply elem_of_sublist in Hin; [|apply sublist_take].
  unfold sorted_desc in Hin. by apply elem_of_sort_stable in Hin.
Qed.

(** The first item [most_common] reports has the largest count. *)
Lemma most_common_max c k v :
  head (most_common 1 c) = Some (k, v) -> forall kv, kv ∈ c -> (kv.2 <= v)%Z.
Proof.
  unfold most_common. intros Hh kv Hkv.
  pose proof (sorted_desc_sorted snd c) as Hs.
  apply Sorted_StronglySorted in Hs; [|intros x y z; simpl; lia].
  apply (elem_of_Permutation_proper _ _ _ (sorted_desc_perm snd c)) in Hkv.
  destruct (sorted_desc snd c) as [|x l] eqn:E; [by apply elem_of_nil in Hkv|].
  simpl in Hh. injection Hh as ->. apply StronglySorted_inv in Hs as [_ Hall].
  apply elem_of_cons in Hkv as [->|Hkv]; [simpl; lia|].
  rewrite Forall_forall in Hall. by apply (Hall kv).
Qed.

End CounterLemmas.
