(* ===== verification/PyNum.v ===== *)
(** * Python numbers: [round], [min], [max] on exact rationals

    The scores of the analyzer are Python floats.  They are modelled as
    exact rationals ([Q]): every operation of the source ([/], [*], [+],
    [min], [max]) is exact here, so the model is the real-number meaning
    of the formulas, without IEEE-754 rounding of intermediate results.
    [round(x, n)] rounds the exact value half-to-even, which is what
    CPython does for values whose decimal expansion is exact (it rounds the
    exact binary value, then picks the nearest double). *)

From S2P Require Import Prelude.
From Stdlib Require Import QArith Qround Qminmax Lqa.

Local Open Scope Q_scope.

(** Nearest integer, ties to even (Python 3 [round]). *)
Definition round_half_even (q : Q) : Z :=
  let f := Qfloor q in
  let r := q - inject_Z f in
  if Qle_bool r (1 # 2) then
    (if Qeq_bool r (1 # 2) then (if Z.even f then f else f + 1)%Z else f)
  else (f + 1)%Z.

(** [round(x, ndigits)] *)
Definition py_round (q : Q) (ndigits : nat) : Q :=
  let s := inject_Z (10 ^ Z.of_nat ndigits) in
  inject_Z (round_half_even (q * s)) / s.

(** [x / y] on integers, in Python 3 true division (a float). *)
Definition div_z (x y : Z) : Q := inject_Z x / inject_Z y.

(** [max(1, n)] *)
Definition max1 (n : Z) : Z := Z.max 1 n.

(** [min(100, x)] *)
Definition min100 (x : Q) : Q := Qmin 100 x.

Lemma round_half_even_bounds q :
  inject_Z (round_half_even q) - (1 # 2) <= q <= inject_Z (round_half_even q) + (1 # 2).
Proof.
  unfold round_half_even. set (f := Qfloor q).
  assert (Hf : inject_Z f <= q < inject_Z f + 1).
  { split; [apply Qfloor_le|]. pose proof (Qlt_floor q) as H.
    rewrite inject_Z_plus in H. exact H. }
  destruct (Qle_bool _ _) eqn:Hle.
  2:{ assert (Hgt : 1 # 2 < q - inject_Z f).
      { apply Qnot_le_lt. intros Hc. apply Qle_bool_iff in Hc. congruence. }
      rewrite inject_Z_plus. change (inject_Z 1) with 1. lra. }
  apply Qle_bool_iff in Hle.
  destruct (Qeq_bool _ _) eqn:Heq.
  - apply Qeq_bool_iff in Heq. destruct (Z.even f); rewrite ?inject_Z_plus; change (inject_Z 1) with 1; lra.
  - split; lra.
Qed.

(** Rounding to an integer cannot leave an interval with integer ends. *)
Lemma round_half_even_between (a b : Z) q :
  inject_Z a <= q <= inject_Z b -> (a <= round_half_even q <= b)%Z.
Proof.
  intros [Ha Hb]. pose proof (round_half_even_bounds q) as [H1 H2].
  rewrite Zle_Qle, Zle_Qle. split.
  - destruct (Z_le_gt_dec a (round_half_even q)) as [|Hgt]; [by rewrite <- Zle_Qle|].
    exfalso. assert (Hlt : (round_half_even q + 1 <= a)%Z) by lia.
    rewrite Zle_Qle, inject_Z_plus in Hlt. change (inject_Z 1) with 1 in Hlt. lra.
  - destruct (Z_le_gt_dec (round_half_even q) b) as [|Hgt]; [by rewrite <- Zle_Qle|].
    exfalso. assert (Hlt : (b + 1 <= round_half_even q)%Z) by lia.
    rewrite Zle_Qle, inject_Z_plus in Hlt. change (inject_Z 1) with 1 in Hlt. lra.
Qed.

(** [round(x, n)] stays within integer bounds of [x]. *)
Lemma py_round_between (a b : Z) q n :
  inject_Z a <= q <= inject_Z b -> inject_Z a <= py_round q n <= inject_Z b.
Proof.
  intros [Ha Hb]. unfold py_round. set (k := (10 ^ Z.of_nat n)%Z).
  assert (Hk : (0 < k)%Z) by (subst k; apply Z.pow_pos_nonneg; lia).
  assert (HkQ : 0 < inject_Z k) by (change 0 with (inject_Z 0); by rewrite <- Zlt_Qlt).
  destruct (round_half_even_between (a * k) (b * k) (q * inject_Z k)) as [H1 H2].
  { rewrite !inject_Z_mult. split; apply Qmult_le_compat_r; lra. }
  rewrite Zle_Qle, inject_Z_mult in H1, H2. split.
  - apply Qle_shift_div_l; [done|lra].
  - apply Qle_shift_div_r; [done|lra].
Qed.

Lemma min100_bounds x : 0 <= x -> 0 <= min100 x <= 100.
Proof.
  intros Hx. unfold min100. split.
  - apply Q.min_glb; [lra|done].
  - apply Q.le_min_l.
Qed.

Lemma div_z_nonneg x y : (0 <= x)%Z -> (0 < y)%Z -> 0 <= div_z x y.
Proof.
  intros Hx Hy. unfold div_z. apply Qle_shift_div_l.
  - change 0 with (inject_Z 0). rewrite <- Zlt_Qlt. lia.
  - rewrite Qmult_0_l. change 0 with (inject_Z 0). by rewrite <- Zle_Qle.
Qed.

Lemma max1_pos n : (0 < max1 n)%Z.
Proof. unfold max1. lia. Qed.

#[export] Hint Resolve min100_bounds div_z_nonneg max1_pos : gitfolio.
