(* ===== verification/DateTime.v ===== *)
(** * CPython [datetime] arithmetic used by the analyzer

    Every datetime in the analyzer is timezone-aware UTC (PyGithub returns
    [tzinfo=timezone.utc]; [datetime.now(timezone.utc)] likewise).  For two
    datetimes with the same [tzinfo] object CPython compares and subtracts
    the naive fields directly ([datetime._cmp], [datetime.__sub__]); this
    file translates those routines and the calendar helpers they use
    ([_is_leap], [_days_before_year], [_days_before_month], [_ymd2ord],
    [_ord2ymd], [weekday], [strftime("%A")], [strftime("%Y-%m")]). *)

From S2P Require Import Prelude.
From stdpp Require Import strings pretty.
Import ListNotations.
Local Open Scope Z_scope.

Record datetime := mk_datetime {
  dt_year : Z; dt_month : Z; dt_day : Z;
  dt_hour : Z; dt_minute : Z; dt_second : Z; dt_microsecond : Z
}.

#[export] Instance datetime_eq_dec : EqDecision datetime.
Proof. solve_decision. Defined.

(** [datetime._cmp] for equal [tzinfo]: lexicographic on the fields. *)
Definition lex (c1 : comparison) (c2 : comparison) : comparison :=
  match c1 with Eq => c2 | _ => c1 end.

Definition dt_compare (a b : datetime) : comparison :=
  lex (Z.compare a.(dt_year) b.(dt_year))
  (lex (Z.compare a.(dt_month) b.(dt_month))
  (lex (Z.compare a.(dt_day) b.(dt_day))
  (lex (Z.compare a.(dt_hour) b.(dt_hour))
  (lex (Z.compare a.(dt_minute) b.(dt_minute))
  (lex (Z.compare a.(dt_second) b.(dt_second))
       (Z.compare a.(dt_microsecond) b.(dt_microsecond))))))).

(** [a < b] *)
Definition dt_ltb (a b : datetime) : bool :=
  match dt_compare a b with Lt => true | _ => false end.

(** ** Calendar helpers ([Lib/_pydatetime.py]) *)

Definition is_leap (year : Z) : bool :=
  (year mod 4 =? 0) && (negb (year mod 100 =? 0) || (year mod 400 =? 0)).

Definition days_before_year (year : Z) : Z :=
  let y := year - 1 in y * 365 + y / 4 - y / 100 + y / 400.

(** [_DAYS_IN_MONTH] and [_DAYS_BEFORE_MONTH], index 1..12. *)
Definition DAYS_IN_MONTH (m : Z) : Z :=
  match m with
  | 1 => 31 | 2 => 28 | 3 => 31 | 4 => 30 | 5 => 31 | 6 => 30
  | 7 => 31 | 8 => 31 | 9 => 30 | 10 => 31 | 11 => 30 | 12 => 31 | _ => -1
  end.

Definition DAYS_BEFORE_MONTH (m : Z) : Z :=
  match m with
  | 1 => 0 | 2 => 31 | 3 => 59 | 4 => 90 | 5 => 120 | 6 => 151
  | 7 => 181 | 8 => 212 | 9 => 243 | 10 => 273 | 11 => 304 | 12 => 334 | _ => -1
  end.

Definition days_in_month (year month : Z) : Z :=
  if (month =? 2) && is_leap year then 29 else DAYS_IN_MONTH month.

(** The field ranges CPython's constructor enforces ([_check_date_fields],
    [_check_time_fields]). *)
Definition dt_valid_b (d : datetime) : bool :=
  (1 <=? d.(dt_year)) && (d.(dt_year) <=? 9999) &&
  (1 <=? d.(dt_month)) && (d.(dt_month) <=? 12) &&
  (1 <=? d.(dt_day)) && (d.(dt_day) <=? days_in_month d.(dt_year) d.(dt_month)) &&
  (0 <=? d.(dt_hour)) && (d.(dt_hour) <? 24) &&
  (0 <=? d.(dt_minute)) && (d.(dt_minute) <? 60) &&
  (0 <=? d.(dt_second)) && (d.(dt_second) <? 60) &&
  (0 <=? d.(dt_microsecond)) && (d.(dt_microsecond) <? 1000000).

Definition days_before_month (year month : Z) : Z :=
  DAYS_BEFORE_MONTH month + (if (month >? 2) && is_leap year then 1 else 0).

Definition ymd2ord (year month day : Z) : Z :=
  days_before_year year + days_before_month year month + day.

Definition toordinal (d : datetime) : Z := ymd2ord d.(dt_year) d.(dt_month) d.(dt_day).

(** [date.weekday()]: Monday is 0. *)
Definition weekday (d : datetime) : Z := (toordinal d + 6) mod 7.

(** [strftime("%A")] in the C locale. *)
Definition weekday_name (d : datetime) : string :=
  match weekday d with
  | 0 => "Monday" | 1 => "Tuesday" | 2 => "Wednesday" | 3 => "Thursday"
  | 4 => "Friday" | 5 => "Saturday" | _ => "Sunday"
  end.

Definition weekday_names : list string :=
  ["Monday"; "Tuesday"; "Wednesday"; "Thursday"; "Friday"; "Saturday"; "Sunday"].

(** ** [datetime.__sub__] and [timedelta.days]

    [timedelta(days1 - days2, secs1 - secs2, us1 - us2)] is normalised so
    that [0 <= seconds < 86400] and [0 <= microseconds < 10**6]; its
    [.days] is therefore the floor of the total microseconds divided by
    the microseconds of a day. *)
Definition day_us : Z := 86400 * 1000000.

Definition dt_secs (d : datetime) : Z := d.(dt_second) + d.(dt_minute) * 60 + d.(dt_hour) * 3600.

Definition dt_sub_us (a b : datetime) : Z :=
  ((toordinal a - toordinal b) * 86400 + (dt_secs a - dt_secs b)) * 1000000
  + (a.(dt_microsecond) - b.(dt_microsecond)).

Definition dt_sub_days (a b : datetime) : Z := dt_sub_us a b / day_us.

(** [strftime("%Y-%m")]: the month bucket.  It is kept as the pair
    (year, month), ordered lexicographically; for four-digit years this is
    the order of the zero-padded strings [sorted()] compares. *)
Definition month_key (d : datetime) : Z * Z := (d.(dt_year), d.(dt_month)).

Definition month_key_ltb (a b : Z * Z) : bool :=
  (a.1 <? b.1) || ((a.1 =? b.1) && (a.2 <? b.2)).

Definition month_le (a b : Z * Z) : Prop := a.1 < b.1 \/ (a.1 = b.1 /\ a.2 <= b.2).

(** ** [datetime.isoformat()] for an aware UTC datetime *)

Fixpoint zeros (n : nat) : string :=
  match n with O => "" | S n => "0" +:+ zeros n end.

(** ["%0*d" % (width, n)] for [n >= 0]. *)
Definition zpad (width : nat) (n : Z) : string :=
  let s := pretty n in zeros (width - String.length s) +:+ s.

(** [YYYY-MM-DDTHH:MM:SS[.ffffff]+00:00]: the fraction is omitted when the
    microsecond is 0 ([isoformat]'s default [timespec='auto']). *)
Definition isoformat (d : datetime) : string :=
  zpad 4 d.(dt_year) +:+ "-" +:+ zpad 2 d.(dt_month) +:+ "-" +:+ zpad 2 d.(dt_day) +:+ "T"
  +:+ zpad 2 d.(dt_hour) +:+ ":" +:+ zpad 2 d.(dt_minute) +:+ ":" +:+ zpad 2 d.(dt_second)
  +:+ (if d.(dt_microsecond) =? 0 then "" else "." +:+ zpad 6 d.(dt_microsecond))
  +:+ "+00:00".

(** [x.isoformat() if x else ""] *)
Definition isoformat_or_empty (o : option datetime) : string :=
  match o with Some d => isoformat d | None => "" end.

(** ** [date.fromordinal] and [datetime - timedelta(days=n)] *)

Definition DI400Y : Z := 146097.
Definition DI100Y : Z := 36524.
Definition DI4Y : Z := 1461.
Definition MAXORDINAL : Z := 3652059.

(** [_ord2ymd]: Python's [divmod] is [Z.div]/[Z.modulo] (floor). *)
Definition ord2ymd (n : Z) : Z * Z * Z :=
  let n := n - 1 in
  let n400 := n / DI400Y in let n := n mod DI400Y in
  let year := n400 * 400 + 1 in
  let n100 := n / DI100Y in let n := n mod DI100Y in
  let n4 := n / DI4Y in let n := n mod DI4Y in
  let n1 := n / 365 in let n := n mod 365 in
  let year := year + n100 * 100 + n4 * 4 + n1 in
  if (n1 =? 4) || (n100 =? 4) then (year - 1, 12, 31)
  else
    let leapyear := (n1 =? 3) && (negb (n4 =? 24) || (n100 =? 3)) in
    let month := Z.shiftr (n + 50) 5 in
    let preceding := DAYS_BEFORE_MONTH month + (if (month >? 2) && leapyear then 1 else 0) in
    let '(month, preceding) :=
      if preceding >? n then
        (month - 1, preceding - (DAYS_IN_MONTH (month - 1) + (if (month - 1 =? 2) && leapyear then 1 else 0)))
      else (month, preceding) in
    (year, month, n - preceding + 1).

(** [d - timedelta(days=n)] ([datetime.__add__] with [-n] days): the
    time of day is kept; [OverflowError] ([None]) outside [1, MAXORDINAL]. *)
Definition dt_minus_days (d : datetime) (n : Z) : option datetime :=
  let o := toordinal d - n in
  if (0 <? o) && (o <=? MAXORDINAL) then
    let '(y, m, dd) := ord2ymd o in
    Some (mk_datetime y m dd d.(dt_hour) d.(dt_minute) d.(dt_second) d.(dt_microsecond))
  else None.

(** [datetime.min.replace(tzinfo=timezone.utc)] *)
Definition datetime_min : datetime := mk_datetime 1 1 1 0 0 0 0.

(** ** Properties of the comparison *)

Lemma lex_opp c1 c2 : lex (CompOpp c1) (CompOpp c2) = CompOpp (lex c1 c2).
Proof. by destruct c1. Qed.

Lemma dt_compare_antisym a b : dt_compare b a = CompOpp (dt_compare a b).
Proof.
  unfold dt_compare.
  rewrite (Z.compare_antisym (dt_year b)), (Z.compare_antisym (dt_month b)),
    (Z.compare_antisym (dt_day b)), (Z.compare_antisym (dt_hour b)),
    (Z.compare_antisym (dt_minute b)), (Z.compare_antisym (dt_second b)),
    (Z.compare_antisym (dt_microsecond b)), !lex_opp, CompOpp_involutive.
  done.
Qed.

Lemma dt_ltb_asym a b : dt_ltb a b = true -> dt_ltb b a = false.
Proof. unfold dt_ltb. rewrite (dt_compare_antisym a b). by destruct (dt_compare a b). Qed.

Lemma dt_ltb_irrefl a : dt_ltb a a = false.
Proof. unfold dt_ltb, dt_compare. by rewrite !Z.compare_refl. Qed.

(** A datetime that is not after another lies in the same or an earlier month. *)
Lemma dt_not_after_month a b : dt_ltb b a = false -> month_le (month_key a) (month_key b).
Proof.
  unfold dt_ltb, dt_compare, month_le, month_key, lex. simpl.
  destruct (Z.compare_spec (dt_year b) (dt_year a)); [|done|lia].
  destruct (Z.compare_spec (dt_month b) (dt_month a)); [lia|done|lia].
Qed.

Lemma month_le_trans a b c : month_le a b -> month_le b c -> month_le a c.
Proof. unfold month_le. lia. Qed.

Lemma month_key_ltb_spec a b : month_key_ltb a b = true <-> month_le a b /\ a <> b.
Proof.
  destruct a as [y1 m1], b as [y2 m2]. unfold month_key_ltb, month_le. simpl.
  rewrite orb_true_iff, andb_true_iff, Z.ltb_lt, Z.eqb_eq, Z.ltb_lt.
  split; [intros [|[]]; split; try lia; intros [=]; lia|].
  intros [[|[]] Hne]; [by left|]. right. split; [done|]. destruct (decide (m1 = m2)); [congruence|lia].
Qed.
