(* ===== verification/Calendar.v ===== *)
(** * Calendar arithmetic: [_ord2ymd] is the inverse of [_ymd2ord]

    [dt_minus_days] ([now - timedelta(days=n)], [github_analyzer.py]
    lines 177-178) goes through CPython's [_ord2ymd], an optimised routine
    that decomposes an ordinal into 400-, 100-, 4- and 1-year cycles.  This
    file proves it correct against the reference [_ymd2ord] on the whole
    range [1, MAXORDINAL] (years 1 to 9999): the result is a valid date
    whose ordinal is the input, every valid date is reached this way, and
    later ordinals give later dates.  The proof reduces every ordinal and
    every date to the first 400-year cycle ([ord2ymd_period],
    [ymd2ord_period]) and checks that cycle, 146097 days, by evaluation,
    once from the ordinals ([first_cycle_ok]) and once from the dates
    ([first_years_ok]).  It also shows that [dt_ltb]
    (the comparison of [datetime]) is transitive. *)

From S2P Require Import Prelude DateTime.
From stdpp Require Import strings.
Import ListNotations.
Local Open Scope Z_scope.

Definition shift_year (k : Z) (t : Z * Z * Z) : Z * Z * Z :=
  let '(y, m, d) := t in (y + k, m, d).

Definition date_ok (t : Z * Z * Z) : bool :=
  let '(y, m, d) := t in (1 <=? m) && (m <=? 12) && (1 <=? d) && (d <=? days_in_month y m).

Definition lex3 (a b : Z * Z * Z) : bool :=
  let '(y1, m1, d1) := a in let '(y2, m2, d2) := b in
  (y1 <? y2) || ((y1 =? y2) && ((m1 <? m2) || ((m1 =? m2) && (d1 <? d2)))).

Definition cycle_check (r : Z) : bool :=
  let t := ord2ymd r in
  let '(y, m, d) := t in
  (ymd2ord y m d =? r) && date_ok t && (1 <=? y) && (y <=? 400) && ((145731 <? r) || (y <=? 399)) &&
  lex3 t (ord2ymd (r + 1)).

(** [p i] holds for the [k] integers from [i]. *)
Fixpoint all_from (p : Z -> bool) (k : nat) (i : Z) : bool :=
  match k with O => true | S k => p i && all_from p k (i + 1) end.

(** The converse check on one date of the first cycle: its ordinal lies in
    the cycle (before the last year's days when the year is not the 400th)
    and [_ord2ymd] gives the date back. *)
Definition date_check (y m d : Z) : bool :=
  let o := ymd2ord y m d in
  bool_decide (ord2ymd o = (y, m, d)) && (1 <=? o) && (o <=? DI400Y) && ((400 <=? y) || (o <=? 145731)).

(** Every date of the years [1..400]. *)
Definition year_check (y : Z) : bool :=
  all_from (fun m => all_from (date_check y m) (Z.to_nat (days_in_month y m)) 1) 12 1.

Fixpoint lexZ (l1 l2 : list Z) : comparison :=
  match l1, l2 with
  | x :: xs, y :: ys => lex (Z.compare x y) (lexZ xs ys)
  | _, _ => Eq
  end.

Definition dt_fields (d : datetime) : list Z :=
  [d.(dt_year); d.(dt_month); d.(dt_day); d.(dt_hour); d.(dt_minute); d.(dt_second); d.(dt_microsecond)].

(** The date part of a datetime, as [_ord2ymd] returns it. *)
Definition ymd_of (d : datetime) : Z * Z * Z := (d.(dt_year), d.(dt_month), d.(dt_day)).

(** ** Lemmas *)

Lemma all_from_spec p k r i : all_from p k r = true -> r <= i < r + Z.of_nat k -> p i = true.
Proof.
  revert r. induction k as [|k IH]; intros r; simpl; [lia|].
  intros [Hr Hk]%andb_true_iff Hi. destruct (decide (i = r)) as [->|]; [done|]. apply (IH (r + 1)); [done|lia].
Qed.

Lemma is_leap_period y : is_leap (y + 400) = is_leap y.
Proof.
  unfold is_leap. replace (y + 400) with (y + 100 * 4) by lia. rewrite Z.mod_add by lia.
  replace (y + 100 * 4) with (y + 4 * 100) by lia. rewrite Z.mod_add by lia.
  replace (y + 4 * 100) with (y + 1 * 400) by lia. rewrite Z.mod_add by lia. done.
Qed.

Lemma days_in_month_period y m : days_in_month (y + 400) m = days_in_month y m.
Proof. unfold days_in_month. by rewrite is_leap_period. Qed.

Lemma ymd2ord_period y m d : ymd2ord (y + 400) m d = ymd2ord y m d + DI400Y.
Proof.
  unfold ymd2ord, days_before_month, days_before_year. rewrite is_leap_period.
  replace (y + 400 - 1) with ((y - 1) + 100 * 4) by lia. rewrite Z.div_add by lia.
  replace ((y - 1) + 100 * 4) with ((y - 1) + 4 * 100) by lia. rewrite Z.div_add by lia.
  replace ((y - 1) + 4 * 100) with ((y - 1) + 1 * 400) by lia. rewrite Z.div_add by lia.
  unfold DI400Y. lia.
Qed.

Lemma ord2ymd_period n : ord2ymd (n + DI400Y) = shift_year 400 (ord2ymd n).
Proof.
  assert (Hd : (n + DI400Y - 1) / DI400Y = (n - 1) / DI400Y + 1).
  { replace (n + DI400Y - 1) with ((n - 1) + 1 * DI400Y) by lia. rewrite Z.div_add; [lia|done]. }
  assert (Hm : (n + DI400Y - 1) mod DI400Y = (n - 1) mod DI400Y).
  { replace (n + DI400Y - 1) with ((n - 1) + 1 * DI400Y) by lia. rewrite Z.mod_add; [lia|done]. }
  unfold ord2ymd. cbv zeta. rewrite Hd, Hm.
  set (r := (n - 1) mod DI400Y). set (q := (n - 1) / DI400Y).
  repeat case_match; simplify_eq/=; f_equal; try f_equal; lia.
Qed.

Lemma ord2ymd_shift k r : ord2ymd (r + Z.of_nat k * DI400Y) = shift_year (400 * Z.of_nat k) (ord2ymd r).
Proof.
  induction k as [|k IH].
  - simpl. rewrite Z.add_0_r. by destruct (ord2ymd r) as [[??]?]; simpl; rewrite Z.add_0_r.
  - replace (r + Z.of_nat (S k) * DI400Y) with ((r + Z.of_nat k * DI400Y) + DI400Y) by lia.
    rewrite ord2ymd_period, IH. destruct (ord2ymd r) as [[??]?]. simpl. f_equal. f_equal. lia.
Qed.

(** Every ordinal is the ordinal of a date in its 400-year cycle, shifted. *)

Lemma ordinal_decomp n : 1 <= n -> exists k r, n = r + Z.of_nat k * DI400Y /\ 1 <= r <= DI400Y.
Proof.
  intros Hn. exists (Z.to_nat ((n - 1) / DI400Y)), ((n - 1) mod DI400Y + 1).
  pose proof (Z.div_mod (n - 1) DI400Y ltac:(done)). pose proof (Z.mod_pos_bound (n - 1) DI400Y ltac:(done)).
  assert (0 <= (n - 1) / DI400Y) by (apply Z.div_pos; [lia|done]).
  rewrite Z2Nat.id by lia. split; lia.
Qed.

Lemma dt_compare_lexZ a b : dt_compare a b = lexZ (dt_fields a) (dt_fields b).
Proof. unfold dt_compare. cbn. by destruct (Z.compare (dt_microsecond a) (dt_microsecond b)). Qed.

Lemma lexZ_lt_trans l1 l2 l3 :
  length l1 = length l2 -> length l2 = length l3 ->
  lexZ l1 l2 = Lt -> lexZ l2 l3 = Lt -> lexZ l1 l3 = Lt.
Proof.
  revert l2 l3. induction l1 as [|x xs IH]; intros [|y ys] [|z zs]; simpl; try done.
  intros [= H1] [= H2]. unfold lex.
  destruct (Z.compare_spec x y), (Z.compare_spec y z); subst; try done;
    try (rewrite (proj2 (Z.compare_lt_iff _ _)) by lia; done).
  - rewrite Z.compare_refl. by apply IH.
Qed.

Lemma dt_ltb_lexZ a b : dt_ltb a b = true <-> lexZ (dt_fields a) (dt_fields b) = Lt.
Proof. unfold dt_ltb. rewrite dt_compare_lexZ. destruct (lexZ _ _); naive_solver. Qed.

Lemma dt_ltb_trans a b c : dt_ltb a b = true -> dt_ltb b c = true -> dt_ltb a c = true.
Proof. rewrite !dt_ltb_lexZ. by apply lexZ_lt_trans. Qed.


Lemma first_cycle_ok : all_from cycle_check (Z.to_nat DI400Y) 1 = true.
Proof. vm_compute. reflexivity. Qed.

Lemma cycle_check_ok r : 1 <= r <= DI400Y -> cycle_check r = true.
Proof. intros Hr. apply (all_from_spec _ _ _ _ first_cycle_ok). rewrite Z2Nat.id by done. lia. Qed.

Lemma days_in_month_shift k y m : days_in_month (y + 400 * Z.of_nat k) m = days_in_month y m.
Proof.
  induction k as [|k IH]; [by rewrite Z.add_0_r|].
  replace (y + 400 * Z.of_nat (S k)) with ((y + 400 * Z.of_nat k) + 400) by lia.
  by rewrite days_in_month_period.
Qed.

Lemma ymd2ord_shift k y m d : ymd2ord (y + 400 * Z.of_nat k) m d = ymd2ord y m d + Z.of_nat k * DI400Y.
Proof.
  induction k as [|k IH]; [simpl; by rewrite !Z.add_0_r|].
  replace (y + 400 * Z.of_nat (S k)) with ((y + 400 * Z.of_nat k) + 400) by lia.
  rewrite ymd2ord_period, IH. lia.
Qed.

Lemma lex3_shift k a b : lex3 (shift_year k a) (shift_year k b) = lex3 a b.
Proof.
  destruct a as [[y1 m1] d1], b as [[y2 m2] d2]. simpl.
  replace (y1 + k <? y2 + k) with (y1 <? y2) by (apply Bool.eq_iff_eq_true; rewrite !Z.ltb_lt; lia).
  by replace (y1 + k =? y2 + k) with (y1 =? y2) by (apply Bool.eq_iff_eq_true; rewrite !Z.eqb_eq; lia).
Qed.

Lemma lex3_trans a b c : lex3 a b = true -> lex3 b c = true -> lex3 a c = true.
Proof.
  destruct a as [[y1 m1] d1], b as [[y2 m2] d2], c as [[y3 m3] d3]. simpl.
  repeat (rewrite orb_true_iff || rewrite andb_true_iff || rewrite Z.ltb_lt || rewrite Z.eqb_eq). lia.
Qed.

(** The ordinal inversion, shared by the lemmas on [dt_minus_days]. *)
Lemma ord2ymd_valid n :
  1 <= n <= MAXORDINAL ->
  let '(y, m, d) := ord2ymd n in
  ymd2ord y m d = n /\ date_ok (y, m, d) = true /\ 1 <= y <= 9999.
Proof.
  intros Hn. destruct (ordinal_decomp n ltac:(lia)) as (k & r & -> & Hr).
  pose proof (cycle_check_ok r Hr) as Hc. rewrite ord2ymd_shift.
  unfold cycle_check in Hc. destruct (ord2ymd r) as [[y m] d]. simpl.
  rewrite !andb_true_iff, !orb_true_iff, Z.eqb_eq, !Z.leb_le, Z.ltb_lt in Hc.
  destruct Hc as [[[[[Hord Hok] Hy1] Hy2] Hlast] _].
  rewrite ymd2ord_shift, Hord. split; [done|]. split.
  - unfold date_ok in *. by rewrite days_in_month_shift.
  - unfold MAXORDINAL, DI400Y in *. lia.
Qed.

Lemma first_years_ok : all_from year_check 400 1 = true.
Proof. vm_compute. reflexivity. Qed.

Lemma date_check_ok y m d : 1 <= y <= 400 -> date_ok (y, m, d) = true -> date_check y m d = true.
Proof.
  intros Hy Hd. unfold date_ok in Hd. rewrite !andb_true_iff, !Z.leb_le in Hd.
  assert (Hyc : year_check y = true) by (apply (all_from_spec _ _ _ _ first_years_ok); lia).
  assert (Hm := all_from_spec _ _ _ m Hyc ltac:(simpl; lia)).
  apply (all_from_spec _ _ _ _ Hm). rewrite Z2Nat.id; lia.
Qed.

(** The other direction of the inversion: every date of years 1 to 9999
    has an ordinal in range, which [_ord2ymd] maps back to the date. *)
Lemma ymd2ord_valid y m d :
  date_ok (y, m, d) = true -> 1 <= y <= 9999 ->
  ord2ymd (ymd2ord y m d) = (y, m, d) /\ 1 <= ymd2ord y m d <= MAXORDINAL.
Proof.
  intros Hd Hy.
  pose proof (Z.div_mod (y - 1) 400 ltac:(lia)) as Hdm. pose proof (Z.mod_pos_bound (y - 1) 400 ltac:(lia)) as Hr.
  assert (Hq : 0 <= (y - 1) / 400 < 25) by (split; [apply Z.div_pos|apply Z.div_lt_upper_bound]; lia).
  set (q := (y - 1) / 400) in *. set (r := (y - 1) mod 400) in *. clearbody q r.
  assert (Hk : y = (r + 1) + 400 * Z.of_nat (Z.to_nat q)) by (rewrite Z2Nat.id; lia).
  rewrite Hk in Hd |- *. unfold date_ok in Hd. rewrite days_in_month_shift in Hd.
  fold (date_ok (r + 1, m, d)) in Hd.
  pose proof (date_check_ok (r + 1) m d ltac:(lia) Hd) as Hc. unfold date_check in Hc.
  rewrite !andb_true_iff, orb_true_iff, !Z.leb_le, bool_decide_eq_true in Hc.
  destruct Hc as [[[Hinv H1] H2] H3]. rewrite ymd2ord_shift, ord2ymd_shift, Hinv. split; [done|].
  rewrite Z2Nat.id by lia. unfold MAXORDINAL, DI400Y in *. lia.
Qed.

(** Consecutive ordinals give increasing dates. *)
Lemma ord2ymd_step n : 1 <= n -> lex3 (ord2ymd n) (ord2ymd (n + 1)) = true.
Proof.
  intros Hn. destruct (ordinal_decomp n Hn) as (k & r & -> & Hr).
  replace (r + Z.of_nat k * DI400Y + 1) with ((r + 1) + Z.of_nat k * DI400Y) by lia.
  rewrite !ord2ymd_shift, lex3_shift.
  pose proof (cycle_check_ok r Hr) as Hc. unfold cycle_check in Hc.
  destruct (ord2ymd r) as [[y m] d]. by apply andb_true_iff in Hc as [_ Hc].
Qed.

Lemma ord2ymd_mono n n' : 1 <= n < n' -> lex3 (ord2ymd n) (ord2ymd n') = true.
Proof.
  intros Hn. replace n' with (n + 1 + Z.of_nat (Z.to_nat (n' - n - 1))) by lia.
  induction (Z.to_nat (n' - n - 1)) as [|k IH]; [change (Z.of_nat 0) with 0; rewrite Z.add_0_r; apply ord2ymd_step; lia|].
  eapply lex3_trans; [apply IH|]. replace (n + 1 + Z.of_nat (S k)) with (n + 1 + Z.of_nat k + 1) by lia.
  apply ord2ymd_step. lia.
Qed.

(** The dates [dt_minus_days] computes. *)
Lemma dt_minus_days_spec d n d' :
  dt_valid_b d = true -> dt_minus_days d n = Some d' ->
  toordinal d' = toordinal d - n /\ dt_valid_b d' = true /\ ymd_of d' = ord2ymd (toordinal d - n) /\
  dt_hour d' = dt_hour d /\ dt_minute d' = dt_minute d /\ dt_second d' = dt_second d /\
  dt_microsecond d' = dt_microsecond d.
Proof.
  intros Hv. unfold dt_minus_days.
  destruct ((0 <? _) && (_ <=? MAXORDINAL)) eqn:Hr; [|done].
  apply andb_true_iff in Hr as [Hr1 Hr2]. rewrite Z.ltb_lt in Hr1. rewrite Z.leb_le in Hr2.
  pose proof (ord2ymd_valid (toordinal d - n) ltac:(lia)) as Hc.
  destruct (ord2ymd (toordinal d - n)) as [[y m] dd] eqn:E. intros [= <-].
  destruct Hc as (Hord & Hok & Hy). unfold toordinal, ymd_of. simpl. split_and!; try done.
  unfold date_ok in Hok. unfold dt_valid_b in *. simpl.
  rewrite !andb_true_iff, !Z.leb_le, !Z.ltb_lt in *. lia.
Qed.

(** A date earlier in the calendar is an earlier datetime, whatever the
    time of day. *)
Lemma lex3_dt_ltb a b :
  lex3 (ymd_of a) (ymd_of b) = true -> dt_ltb a b = true.
Proof.
  destruct a as [y1 m1 d1 h1 mi1 s1 u1], b as [y2 m2 d2 h2 mi2 s2 u2]. unfold ymd_of, lex3. simpl.
  repeat (rewrite orb_true_iff || rewrite andb_true_iff || rewrite Z.ltb_lt || rewrite Z.eqb_eq).
  unfold dt_ltb, dt_compare. simpl.
  intros [Hy|[-> [Hm|[-> Hd]]]]; rewrite ?Z.compare_refl; simpl;
    [rewrite (proj2 (Z.compare_lt_iff _ _) Hy)|rewrite (proj2 (Z.compare_lt_iff _ _) Hm)|
     rewrite (proj2 (Z.compare_lt_iff _ _) Hd)]; done.
Qed.

(** Subtracting more days gives an earlier datetime. *)
Lemma dt_minus_days_lt d a b x y :
  dt_valid_b d = true -> dt_minus_days d a = Some x -> dt_minus_days d b = Some y -> b < a ->
  dt_ltb x y = true.
Proof.
  intros Hv Hx Hy Hab. apply lex3_dt_ltb.
  destruct (dt_minus_days_spec d a x Hv Hx) as (Hox & Hvx & -> & _).
  destruct (dt_minus_days_spec d b y Hv Hy) as (Hoy & Hvy & -> & _).
  unfold dt_minus_days in Hx. destruct (_ && _) eqn:Hr in Hx; [|done].
  apply andb_true_iff in Hr as [Hr _]. rewrite Z.ltb_lt in Hr.
  apply ord2ymd_mono. lia.
Qed.

