(* ===== verification/IsoFormat.v ===== *)
(** * ISO 8601 timestamps: [datetime.fromisoformat] on what [isoformat] prints

    [analyze_profile] stores [datetime.now(timezone.utc).isoformat()] as
    [analyzed_at] ([src/backend/github_analyzer.py], line 79) and
    [get_user_data] reads it back with [datetime.fromisoformat]
    ([src/backend/main.py], lines 236 and 260) to decide whether the cached
    analysis is fresh.  [fromisoformat] is a library routine; it is modelled
    on the format [isoformat] prints for an aware UTC datetime (fixed-width
    fields, optional six-digit fraction, offset [+00:00]) with the field
    range checks of the constructor; other inputs are refused ([None],
    [ValueError]).  The main theorem is the round trip. *)

From S2P Require Import Prelude DateTime.
From stdpp Require Import strings pretty.
From Stdlib Require Import Ascii.
Import ListNotations.
Local Open Scope Z_scope.

(** ** The parser *)

Definition digit_value (c : ascii) : option Z :=
  let n := Z.of_nat (nat_of_ascii c) in
  if (48 <=? n) && (n <=? 57) then Some (n - 48) else None.

(** [w] decimal digits, accumulated into [acc]. *)
Fixpoint parse_digits (w : nat) (acc : Z) (s : string) : option (Z * string) :=
  match w with
  | O => Some (acc, s)
  | S w => match s with
           | EmptyString => None
           | String c s => d ← digit_value c; parse_digits w (acc * 10 + d) s
           end
  end.

Definition expect (c : ascii) (s : string) : option string :=
  match s with
  | String c' s => if Ascii.eqb c c' then Some s else None
  | EmptyString => None
  end.

Definition parse_fraction (s : string) : option (Z * string) :=
  match s with
  | String "."%char s => parse_digits 6 0 s
  | _ => Some (0, s)
  end.

(** [datetime.fromisoformat] on [YYYY-MM-DDTHH:MM:SS[.ffffff]+00:00]. *)
Definition fromisoformat (s : string) : option datetime :=
  '(y, s) ← parse_digits 4 0 s; s ← expect "-" s;
  '(m, s) ← parse_digits 2 0 s; s ← expect "-" s;
  '(d, s) ← parse_digits 2 0 s; s ← expect "T" s;
  '(hh, s) ← parse_digits 2 0 s; s ← expect ":" s;
  '(mm, s) ← parse_digits 2 0 s; s ← expect ":" s;
  '(ss, s) ← parse_digits 2 0 s;
  '(us, s) ← parse_fraction s;
  let dt := mk_datetime y m d hh mm ss us in
  if String.eqb s "+00:00" && dt_valid_b dt then Some dt else None.

(** ** Decimal digits of [pretty] *)

Lemma string_app_cons ch (a b : string) : String ch a +:+ b = String ch (a +:+ b).
Proof. reflexivity. Qed.

Lemma string_app_nil_l (s : string) : "" +:+ s = s.
Proof. reflexivity. Qed.

Lemma string_app_assoc (a b c : string) : (a +:+ b) +:+ c = a +:+ (b +:+ c).
Proof. induction a as [|ch a IH]; [done|]. rewrite !string_app_cons. by rewrite IH. Qed.

Lemma string_length_app (a b : string) : String.length (a +:+ b) = (String.length a + String.length b)%nat.
Proof. induction a as [|ch a IH]; [done|]. rewrite string_app_cons. simpl. by rewrite IH. Qed.

Lemma parse_digits_app n1 n2 acc (a b : string) :
  String.length a = n1 ->
  parse_digits (n1 + n2) acc (a +:+ b) =
  match parse_digits n1 acc a with Some (acc', _) => parse_digits n2 acc' b | None => None end.
Proof.
  intros <-. revert acc. induction a as [|c a IH]; intros acc; [done|]. rewrite string_app_cons. simpl.
  destruct (digit_value c); simpl; [apply IH|done].
Qed.

Lemma pretty_N_go_app x s : pretty_N_go x s = pretty_N_go x "" +:+ s.
Proof.
  revert s. induction (N.lt_wf_0 x) as [x _ IH]; intros s.
  destruct (decide (x = 0%N)) as [->|Hx]; [done|].
  rewrite !(pretty_N_go_step x) by lia.
  assert (Hlt : (x `div` 10 < x)%N) by (apply N.div_lt; lia).
  rewrite (IH _ Hlt (String _ s)), (IH _ Hlt (String _ "")), string_app_assoc. done.
Qed.

Lemma digit_value_char x : (x < 10)%N -> digit_value (pretty_N_char x) = Some (Z.of_N x).
Proof.
  intros Hx. assert (x = 0 \/ x = 1 \/ x = 2 \/ x = 3 \/ x = 4 \/ x = 5 \/ x = 6 \/ x = 7 \/ x = 8 \/ x = 9)%N
    as Hc by lia. by repeat destruct Hc as [->|Hc]; [..|subst].
Qed.

(** The digits of [x] read back as [x], and their number [k] satisfies
    [x < 10^k] and, for [x > 0], [10^k <= 10 x]. *)
Lemma pretty_N_go_digits x acc :
  let t := pretty_N_go x "" in
  parse_digits (String.length t) acc t = Some (acc * 10 ^ Z.of_nat (String.length t) + Z.of_N x, "") /\
  Z.of_N x < 10 ^ Z.of_nat (String.length t) /\
  (x <> 0%N -> 10 ^ Z.of_nat (String.length t) <= 10 * Z.of_N x).
Proof.
  revert acc. induction (N.lt_wf_0 x) as [x _ IH]; intros acc t.
  destruct (decide (x = 0%N)) as [->|Hx]; [subst t; simpl; split_and!; [f_equal; f_equal; lia|lia|done]|].
  assert (Hlt : (x `div` 10 < x)%N) by (apply N.div_lt; lia).
  subst t. rewrite pretty_N_go_step, pretty_N_go_app by lia.
  destruct (IH _ Hlt acc) as (Hp & Hb & Hb').
  rewrite string_length_app. simpl String.length.
  rewrite parse_digits_app, Hp by done. simpl.
  rewrite digit_value_char by (apply N.mod_lt; lia). simpl.
  pose proof (N.div_mod x 10 ltac:(lia)) as Hdm. pose proof (N.mod_lt x 10 ltac:(lia)).
  rewrite Nat2Z.inj_add, Z.pow_add_r by lia. change (10 ^ Z.of_nat 1) with 10.
  destruct (decide ((x `div` 10)%N = 0%N)) as [E|E].
  - rewrite E in Hdm |- *. simpl. set (r := (x `mod` 10)%N) in *. clearbody r. split_and!; [f_equal; f_equal|..]; lia.
  - specialize (Hb' E). set (q := (x `div` 10)%N) in *. set (r := (x `mod` 10)%N) in *. clearbody q r.
    generalize dependent (10 ^ Z.of_nat (String.length (pretty_N_go q ""))). intros.
    split_and!; [f_equal; f_equal|..]; lia.
Qed.


Lemma zeros_S k : zeros (S k) = String "0" (zeros k).
Proof. reflexivity. Qed.

Lemma length_zeros k : String.length (zeros k) = k.
Proof. induction k as [|k IH]; [done|]. rewrite zeros_S. simpl. by rewrite IH. Qed.

Lemma zeros_parse k m acc s :
  parse_digits (k + m) acc (zeros k +:+ s) = parse_digits m (acc * 10 ^ Z.of_nat k) s.
Proof.
  revert acc. induction k as [|k IH]; intros acc; [simpl; by rewrite Z.mul_1_r|].
  rewrite zeros_S, string_app_cons. simpl. rewrite IH. change (Z.of_nat (nat_of_ascii "0")) with 48. f_equal. rewrite Nat2Z.inj_succ, Z.pow_succ_r by lia. ring.
Qed.

(** [str(n)] for [n >= 0]: its digits read back as [n], and there are
    as many as [n] needs. *)
Lemma pretty_Z_digits n acc :
  0 <= n ->
  let t := pretty n in
  parse_digits (String.length t) acc t = Some (acc * 10 ^ Z.of_nat (String.length t) + n, "") /\
  n < 10 ^ Z.of_nat (String.length t) /\ 10 ^ Z.of_nat (String.length t) <= 10 * Z.max 1 n.
Proof.
  intros Hn t. destruct n as [|p|p]; [|subst t|lia].
  - subst t. simpl. split_and!; [f_equal; f_equal|..]; lia.
  - change (pretty (Zpos p)) with (pretty_N_go (Npos p) "").
    destruct (pretty_N_go_digits (Npos p) acc) as (Hp & Hb & Hb'). simpl Z.of_N in *.
    split_and!; [done|done|]. specialize (Hb' ltac:(done)). lia.
Qed.

(** [zpad w n] read back with [w] digits gives [n], for [0 <= n < 10^w]. *)
Lemma zpad_parse w n rest :
  (1 <= w)%nat -> 0 <= n < 10 ^ Z.of_nat w -> parse_digits w 0 (zpad w n +:+ rest) = Some (n, rest).
Proof.
  intros Hw Hn. unfold zpad. destruct (pretty_Z_digits n 0 ltac:(lia)) as (Hp & Hb & Hb').
  set (t := pretty n) in *. set (L := String.length t) in *.
  assert (HL : (L <= w)%nat).
  { destruct (decide (L <= w)%nat) as [|HL]; [done|]. exfalso.
    assert (10 ^ Z.of_nat (S w) <= 10 ^ Z.of_nat L) by (apply Z.pow_le_mono_r; lia).
    rewrite Nat2Z.inj_succ, Z.pow_succ_r in * by lia.
    assert (10 ^ 1 <= 10 ^ Z.of_nat w) by (apply Z.pow_le_mono_r; lia). lia. }
  replace w with ((w - L) + (L + 0))%nat at 1 by lia.
  rewrite string_app_assoc, zeros_parse, Z.mul_0_l, parse_digits_app, Hp by done. simpl. done.
Qed.

Lemma days_in_month_le y m : days_in_month y m <= 31.
Proof.
  unfold days_in_month. destruct (_ && _); [lia|].
  unfold DAYS_IN_MONTH. repeat case_match; lia.
Qed.

Lemma option_bind_some {A B} (a : A) (f : A -> option B) : (Some a ≫= f) = f a.
Proof. reflexivity. Qed.

Lemma expect_app c s : expect c (String c EmptyString +:+ s) = Some s.
Proof. simpl. by rewrite Ascii.eqb_refl. Qed.

Ltac parse_field := rewrite ?zpad_parse by (simpl; lia); rewrite ?expect_app, ?option_bind_some; cbv beta iota.

(** The round trip, shared by the clients of [fromisoformat]. *)
Lemma isoformat_parses d : dt_valid_b d = true -> fromisoformat (isoformat d) = Some d.
Proof.
  intros Hv. pose proof Hv as Hv'. unfold dt_valid_b in Hv. rewrite !andb_true_iff, !Z.leb_le, !Z.ltb_lt in Hv.
  pose proof (days_in_month_le (dt_year d) (dt_month d)).
  destruct d as [y m dd hh mi ss us]; simpl in *. unfold fromisoformat, isoformat.
  cbn [dt_year dt_month dt_day dt_hour dt_minute dt_second dt_microsecond].
  do 11 parse_field.
  destruct (Z.eqb_spec us 0) as [->|Hus]; cbv beta iota.
  - rewrite string_app_nil_l. unfold parse_fraction. rewrite option_bind_some. cbv beta iota.
    by rewrite String.eqb_refl, Hv'.
  - rewrite string_app_assoc, string_app_cons, string_app_nil_l. unfold parse_fraction. parse_field.
    by rewrite String.eqb_refl, Hv'.
Qed.

