(* ===== verification/OsPath.v ===== *)
(** * POSIX paths: [os.path.join] and [os.path.basename]

    [main.py] and [charts.py] build every file name with
    [os.path.join] and turn chart paths into URLs with
    [os.path.basename] (CPython's [posixpath]).  Paths are strings; a
    directory is not an entry of its own. *)

From S2P Require Import Prelude IsoFormat.
From stdpp Require Import strings.
From Stdlib Require Import Ascii.

Module OsPath.

Fixpoint has_slash (s : string) : bool :=
  match s with
  | EmptyString => false
  | String c s => Ascii.eqb c "/" || has_slash s
  end.

Fixpoint ends_with_slash (s : string) : bool :=
  match s with
  | EmptyString => false
  | String c EmptyString => Ascii.eqb c "/"
  | String _ s => ends_with_slash s
  end.

(** [posixpath.join(a, b)]: an absolute [b] replaces [a]; a separator is
    added unless [a] is empty or already ends with one. *)
Definition path_join (a b : string) : string :=
  if String.prefix "/" b then b
  else if String.eqb a "" || ends_with_slash a then a +:+ b
  else a +:+ "/" +:+ b.

(** [os.path.basename]: what follows the last separator. *)
Fixpoint basename_go (s acc : string) : string :=
  match s with
  | EmptyString => acc
  | String c s => if Ascii.eqb c "/" then basename_go s "" else basename_go s (acc +:+ String c "")
  end.

Definition basename (s : string) : string := basename_go s "".

(** ** Lemmas *)

Lemma string_app_inv_r (a b c : string) : a +:+ c = b +:+ c -> a = b.
Proof.
  revert b. induction a as [|x a IH]; intros [|y b] H; [done| | |].
  - apply (f_equal String.length) in H. rewrite ?string_app_cons, ?string_app_nil_l in H.
    simpl in H. rewrite ?string_length_app in H. lia.
  - apply (f_equal String.length) in H. rewrite ?string_app_cons, ?string_app_nil_l in H.
    simpl in H. rewrite ?string_length_app in H. lia.
  - rewrite !string_app_cons in H. injection H as -> H. f_equal. by apply IH.
Qed.

Lemma has_slash_app a b : has_slash (a +:+ b) = has_slash a || has_slash b.
Proof. induction a as [|c a IH]; [done|]. rewrite string_app_cons. simpl. rewrite IH. apply orb_assoc. Qed.

Lemma ends_with_slash_has_slash a : ends_with_slash a = true -> has_slash a = true.
Proof.
  induction a as [|c a IH]; [done|]. intros H. destruct a as [|c' a]; [simpl in *; by rewrite H|].
  change (has_slash (String c (String c' a))) with (Ascii.eqb c "/" || has_slash (String c' a)).
  rewrite IH; [apply orb_true_r|exact H].
Qed.

Lemma ends_with_slash_app a b : b <> "" -> ends_with_slash (a +:+ b) = ends_with_slash b.
Proof.
  intros Hb. induction a as [|c a IH]; [done|]. rewrite string_app_cons. simpl.
  rewrite <-IH. destruct a; simpl; [by destruct b|done].
Qed.

Lemma basename_go_noslash b acc : has_slash b = false -> basename_go b acc = acc +:+ b.
Proof.
  revert acc. induction b as [|c b IH]; intros acc Hb; simpl in *.
  - induction acc as [|x acc IHa]; [done|]. rewrite string_app_cons. by rewrite <- IHa.
  - apply orb_false_iff in Hb as [-> Hb]. rewrite IH by done.
    by rewrite string_app_assoc, string_app_cons, string_app_nil_l.
Qed.

Lemma basename_go_app a b acc : has_slash b = false -> basename_go (a +:+ "/" +:+ b) acc = b.
Proof.
  intros Hb. revert acc. induction a as [|c a IH]; intros acc.
  - rewrite string_app_nil_l, string_app_cons, string_app_nil_l. simpl. by rewrite basename_go_noslash.
  - rewrite string_app_cons. simpl. destruct (Ascii.eqb c "/"); apply IH.
Qed.

(** The basename of a path ending in a name without separators is that
    name, whatever precedes the last separator. *)
Lemma basename_app a b : has_slash b = false -> basename (a +:+ "/" +:+ b) = b.
Proof. apply basename_go_app. Qed.

(** Relative names joined to the same directory give the same path only
    when they are equal. *)
Lemma path_join_inj_r x f1 f2 :
  String.prefix "/" f1 = false -> String.prefix "/" f2 = false -> path_join x f1 = path_join x f2 -> f1 = f2.
Proof.
  intros H1 H2. unfold path_join. rewrite H1, H2.
  destruct (_ || _); [apply (inj (String.append x))|].
  intros H. apply (inj (String.append x)) in H. by apply (inj (String.append "/")) in H.
Qed.

End OsPath.
