(* ===== verification/GitHub.v ===== *)
(** * The raw record source: PyGithub objects and the API capability

    The analyzer reads attributes of PyGithub objects ([NamedUser],
    [Repository], [PullRequest], [Issue], [Commit]) and calls their fetch
    methods.  Attributes are modelled as record fields (a frozen snapshot
    of one analysis run); every fetch method that can raise is a field of
    the class [GithubApi], returning a [result]: [Ok v] or [Raise e].  A
    theorem stated in a section with [Context `{GithubApi}] holds for every
    behaviour of the remote API, every failure pattern included.

    A paginated call ([get_pulls(state='all')], [get_commits()], ...) is one
    [result]: the slice the source takes ([[:20]], [[:100]]) is applied by
    the caller with [take].  Two calls of the same method on the same
    object return the same outcome (the snapshot is deterministic). *)

From S2P Require Import Prelude DateTime.
From stdpp Require Import strings.
Import ListNotations.

(** Python exceptions the analyzer distinguishes: [analyze_profile] maps a
    [GithubException] to "GitHub API error: ..." and any other exception to
    "Analysis error: ...". *)
Inductive exc : Type :=
| GithubException
| OtherException.

Inductive result (A : Type) : Type :=
| Ok (a : A)
| Raise (e : exc).
Arguments Ok {A} a.
Arguments Raise {A} e.

(** Sequencing of fallible calls: the first exception propagates. *)
Definition result_bind {A B} (c : result A) (k : A -> result B) : result B :=
  match c with Ok a => k a | Raise e => Raise e end.

(** [result] as a monad, so that a chain of fallible calls reads with
    stdpp's [x ← c; k] notation. *)
#[export] Instance result_ret : MRet result := @Ok.
#[export] Instance result_bind_inst : MBind result := fun A B k c => result_bind c k.

(** [[f(x) for x in xs]] where [f] may raise. *)
Fixpoint result_map {A B} (f : A -> result B) (xs : list A) : result (list B) :=
  match xs with
  | [] => Ok []
  | x :: xs => result_bind (f x) (fun y => result_bind (result_map f xs) (fun ys => Ok (y :: ys)))
  end.

(** [x or default] for an optional string attribute: [None] and [""] are
    both falsy in Python. *)
Definition str_or (o : option string) (d : string) : string :=
  match o with
  | Some s => if String.eqb s "" then d else s
  | None => d
  end.

(** [github.NamedUser.NamedUser]; [contributions] is set on the users
    returned by [Repository.get_contributors]. *)
Record NamedUser := mk_named_user {
  nu_login : string;
  nu_name : option string;
  nu_avatar_url : string;
  nu_contributions : Z
}.

(** The analyzed user ([Github.get_user(username)]). *)
Record User := mk_user {
  u_login : string;
  u_name : option string;
  u_bio : option string;
  u_company : option string;
  u_location : option string;
  u_avatar_url : string;
  u_public_repos : Z;
  u_public_gists : Z;
  u_followers : Z;
  u_following : Z;
  u_blog : option string;
  u_email : option string;
  u_twitter_username : option string;
  u_hireable : option bool;
  u_created_at : option datetime;
  u_updated_at : option datetime
}.

Record Repository := mk_repository {
  r_owner_login : string;
  r_name : string;
  r_full_name : string;
  r_html_url : string;
  r_description : option string;
  r_homepage : option string;
  r_fork : bool;
  r_stargazers_count : Z;
  r_forks_count : Z;
  r_watchers_count : Z;
  r_open_issues_count : Z;
  r_language : option string;
  r_created_at : option datetime;
  r_updated_at : option datetime
}.

(** [PullRequest]: [p.user] may be [None] (a deleted account), in which
    case [p.user.login] raises [AttributeError]. *)
Record PullRequest := mk_pull_request {
  pr_number : Z;
  pr_user : option NamedUser
}.

Record Review := mk_review { rv_state : string }.

(** [Issue.pull_request] is truthy for pull requests listed as issues. *)
Record Issue := mk_issue { is_pull_request : bool }.

(** [Commit.commit.author]: [None] makes [.date] raise; the date itself may
    be [None]. *)
Record Commit := mk_commit { cm_author_date : option (option datetime) }.

Class GithubApi := {
  get_user : string -> result User;
  get_repos : User -> result (list Repository);
  (** [repo.get_commits(author=user).totalCount] *)
  get_commits_count : Repository -> User -> result Z;
  (** [repo.get_languages()]: language name to bytes *)
  get_languages : Repository -> result (list (string * Z));
  get_topics : Repository -> result (list string);
  (** [repo.get_commits()] *)
  get_commits : Repository -> result (list Commit);
  get_collaborators : Repository -> result (list NamedUser);
  get_contributors : Repository -> result (list NamedUser);
  (** [repo.get_pulls(state='all')] *)
  get_pulls : Repository -> result (list PullRequest);
  (** [repo.get_issues(state='all')] *)
  get_issues : Repository -> result (list Issue);
  get_reviews : PullRequest -> result (list Review)
}.

(** [repo.owner.login == user.login and not repo.fork] *)
Definition owned_non_fork (user_login : string) (r : Repository) : bool :=
  negb r.(r_fork) && String.eqb r.(r_owner_login) user_login.

(** The client [GitHubAnalyzer.__init__] builds: [Github(self.token)] or,
    without a token, [Github()] (anonymous access). *)
Inductive GithubClient :=
| Authenticated (token : string)
| Anonymous.

(** [GitHubAnalyzer.__init__] (lines 12-18): [self.token = github_token
    or os.getenv("GITHUB_TOKEN")], then [if self.token:]; a string is
    truthy when non-empty. *)
Definition analyzer_client (github_token env : option string) : GithubClient :=
  match (match github_token with Some t => if String.eqb t "" then env else github_token | None => env end) with
  | Some t => if String.eqb t "" then Anonymous else Authenticated t
  | None => Anonymous
  end.

(** ** Frozen fixtures

    A concrete API built from per-repository tables, keyed by repository
    name; used to run the model on the spec's examples and to instantiate
    the theorems' hypotheses. *)
Record RepoData := mk_repo_data {
  rd_commits_count : result Z;
  rd_languages : result (list (string * Z));
  rd_topics : result (list string);
  rd_commits : result (list Commit);
  rd_collaborators : result (list NamedUser);
  rd_contributors : result (list NamedUser);
  rd_pulls : result (list PullRequest);
  rd_issues : result (list Issue)
}.

Definition empty_repo_data : RepoData :=
  mk_repo_data (Ok 0%Z) (Ok []) (Ok []) (Ok []) (Ok []) (Ok []) (Ok []) (Ok []).

Definition fixture_api (user : result User) (repos : result (list Repository))
    (tbl : string -> RepoData) (reviews : Z -> result (list Review)) : GithubApi := {|
  get_user _ := user;
  get_repos _ := repos;
  get_commits_count r _ := rd_commits_count (tbl r.(r_name));
  get_languages r := rd_languages (tbl r.(r_name));
  get_topics r := rd_topics (tbl r.(r_name));
  get_commits r := rd_commits (tbl r.(r_name));
  get_collaborators r := rd_collaborators (tbl r.(r_name));
  get_contributors r := rd_contributors (tbl r.(r_name));
  get_pulls r := rd_pulls (tbl r.(r_name));
  get_issues r := rd_issues (tbl r.(r_name));
  get_reviews p := reviews p.(pr_number)
|}.

(** A repository owned by [owner] with the given name, fork flag and counts. *)
Definition simple_repo (owner name : string) (fork : bool) (stars forks : Z) : Repository :=
  mk_repository owner name (owner +:+ "/" +:+ name) ("https://github.com/" +:+ owner +:+ "/" +:+ name)
                None None fork stars forks stars 0 None None None.

Definition simple_user (login : string) (name : option string) : NamedUser :=
  mk_named_user login name ("https://avatars/" +:+ login) 0.

(** ** Lemmas on [result] *)

Lemma result_bind_ok_iff {A B} (c : result A) (k : A -> result B) :
  (exists b, (c ≫= k) = Ok b) <-> exists a, c = Ok a /\ exists b, k a = Ok b.
Proof. unfold mbind, result_bind_inst, result_bind. destruct c; naive_solver. Qed.

Lemma result_map_ok_iff {A B} (f : A -> result B) xs :
  (exists ys, result_map f xs = Ok ys) <-> Forall (fun x => exists y, f x = Ok y) xs.
Proof.
  induction xs as [|x xs IH]; simpl; [split; eauto|]. rewrite Forall_cons, <-IH.
  unfold result_bind. destruct (f x) as [y|e]; [destruct (result_map f xs) as [ys|e]|]; naive_solver.
Qed.
