(* ===== verification/Stats.v ===== *)
(** * Statistics ([GitHubAnalyzer._calculate_stats], [_estimate_total_commits])

    [src/backend/github_analyzer.py], lines 88-118.  Star, fork and watcher
    totals sum over every repository; the commit total asks the API for the
    user's commit count in the first 20 repositories only, and a failing
    count is skipped ([except: continue]). *)

From S2P Require Import Prelude GitHub.
From stdpp Require Import strings.
Import ListNotations.

Module Stats.

Record Stats := mk_stats {
  total_repos : Z; total_gists : Z; total_stars : Z; total_forks : Z;
  total_watchers : Z; total_commits : Z; followers : Z; following : Z
}.

Definition MAX_COMMIT_REPOS : nat := 20.

(** Lines 108-118. *)
Definition _estimate_total_commits `{GithubApi} (user : User) (repos : list Repository) : Z :=
  fold_left (fun total r => match get_commits_count r user with
                            | Ok n => (total + n)%Z
                            | Raise _ => total
                            end) (take MAX_COMMIT_REPOS repos) 0%Z.

(** Lines 88-106. *)
Definition _calculate_stats `{GithubApi} (user : User) (repos : list Repository) : Stats :=
  mk_stats user.(u_public_repos) user.(u_public_gists)
    (sum_by r_stargazers_count repos) (sum_by r_forks_count repos) (sum_by r_watchers_count repos)
    (_estimate_total_commits user repos) user.(u_followers) user.(u_following).

End Stats.
