(* ===== verification/TopRepos.v ===== *)
(** * Repository ranking ([GitHubAnalyzer._get_top_repositories])

    [src/backend/github_analyzer.py], lines 149-172.  The repositories are
    sorted by star count, descending and stable, the first five kept and
    projected into dicts.  The projection calls [repo.get_topics()], which
    is not guarded: an exception there leaves the method, and
    [analyze_profile] turns it into a failed analysis. *)

From S2P Require Import Prelude DateTime GitHub.
From stdpp Require Import strings.
Import ListNotations.

Module TopRepos.

Record RepositorySummary := mk_repository_summary {
  rs_name : string; rs_full_name : string; rs_description : string; rs_url : string;
  rs_homepage : string; rs_language : string; rs_stars : Z; rs_forks : Z; rs_watchers : Z;
  rs_open_issues : Z; rs_created_at : string; rs_updated_at : string; rs_topics : list string
}.

Definition TOP_N : nat := 5.

(** Lines 156-170: the dict of one repository. *)
Definition summarize `{GithubApi} (r : Repository) : result RepositorySummary :=
  result_bind (get_topics r) (fun topics =>
    Ok (mk_repository_summary r.(r_name) r.(r_full_name) (str_or r.(r_description) "") r.(r_html_url)
          (str_or r.(r_homepage) "") (str_or r.(r_language) "Unknown") r.(r_stargazers_count)
          r.(r_forks_count) r.(r_watchers_count) r.(r_open_issues_count)
          (isoformat_or_empty r.(r_created_at)) (isoformat_or_empty r.(r_updated_at)) topics)).

(** Line 152: [sorted(repos, key=lambda r: r.stargazers_count, reverse=True)[:top_n]]. *)
Definition ranked (repos : list Repository) : list Repository :=
  take TOP_N (sorted_desc r_stargazers_count repos).

(** Lines 149-172. *)
Definition _get_top_repositories `{GithubApi} (repos : list Repository) : result (list RepositorySummary) :=
  result_map summarize (ranked repos).

(** A fixture: six repositories, four of them with 5 stars; the topics of
    [broken] cannot be fetched. *)
Definition rank_repos : list Repository :=
  [simple_repo "alice" "a" false 5 0; simple_repo "alice" "b" false 10 0;
   simple_repo "alice" "c" false 5 0; simple_repo "alice" "d" false 1 0;
   simple_repo "alice" "e" false 5 0; simple_repo "alice" "f" false 5 0].

Definition rank_api : GithubApi :=
  fixture_api (Ok (mk_user "alice" None None None None "" 6 0 0 0 None None None None None None)) (Ok rank_repos)
    (fun name => mk_repo_data (Ok 0%Z) (Ok [])
       (if String.eqb name "broken" then Raise GithubException else Ok ["demo"])
       (Ok []) (Ok []) (Ok []) (Ok []) (Ok []))
    (fun _ => Ok []).

Definition broken_repo : Repository := simple_repo "alice" "broken" false 7 0.

Definition rank_result : list RepositorySummary :=
  match @_get_top_repositories rank_api rank_repos with Ok l => l | Raise _ => [] end.

Section Proofs.
Context `{GithubApi}.

Lemma result_map_ok {A B} (f : A -> result B) xs ys :
  result_map f xs = Ok ys -> Forall2 (fun x y => f x = Ok y) xs ys.
Proof.
  revert ys. induction xs as [|x xs IH]; intros ys; simpl; [intros [= <-]; constructor|].
  unfold result_bind. destruct (f x) eqn:E; [|done].
  destruct (result_map f xs) eqn:E2; [|done]. intros [= <-]. constructor; auto.
Qed.

Lemma result_map_raise {A B} (f : A -> result B) xs x e :
  x ∈ xs -> f x = Raise e -> exists e', result_map f xs = Raise e'.
Proof.
  induction xs as [|y xs IH]; intros Hx Hf; [by apply elem_of_nil in Hx|]. simpl. unfold result_bind.
  apply elem_of_cons in Hx as [->|Hx]; [rewrite Hf; eauto|].
  destruct (f y); [|eauto]. destruct (IH Hx Hf) as [e' ->]. eauto.
Qed.

Lemma summarize_fields r s :
  summarize r = Ok s -> s.(rs_stars) = r.(r_stargazers_count) /\ s.(rs_name) = r.(r_name).
Proof. unfold summarize, result_bind. destruct (get_topics r); [intros [= <-]; done|done]. Qed.

Lemma filter_take_prefix {A} (P : A -> Prop) `{!forall x, Decision (P x)} n (l : list A) :
  filter P (take n l) `prefix_of` filter P l.
Proof.
  revert l. induction n as [|n IH]; intros l; simpl; [apply prefix_nil|].
  destruct l as [|x l]; [done|]. simpl. rewrite !filter_cons. case_decide; [|apply IH].
  apply prefix_cons, IH.
Qed.

(** ** Properties of [_get_top_repositories] *)

(** When it succeeds, the ranking lists at most five repositories,
    by non-increasing star count. *)
Lemma top_repositories_sorted repos l :
  _get_top_repositories repos = Ok l ->
  (length l <= TOP_N)%nat /\ Sorted (fun a b => (b.(rs_stars) <= a.(rs_stars))%Z) l.
Proof.
  unfold _get_top_repositories, ranked. intros Hok. apply result_map_ok in Hok.
  pose proof (Forall2_length _ _ _ Hok) as Hlen. rewrite length_take in Hlen. split; [lia|].
  pose proof (Sorted_take _ _ TOP_N (sorted_desc_sorted r_stargazers_count repos)) as Hs.
  set (rs0 := take TOP_N (sorted_desc r_stargazers_count repos)) in *. clearbody rs0. clear Hlen.
  induction Hok as [|r s rs ss Hrs Hrest IH]; [constructor|].
  apply Sorted_inv in Hs as [Hs Hd]. constructor; [by apply IH|].
  inversion Hrest as [|r' s' rs' ss' Hrs' _]; subst; constructor.
  apply summarize_fields in Hrs as [-> _]. apply summarize_fields in Hrs' as [-> _].
  by inversion Hd.
Qed.

(** C24: ties keep the fetch order: among the ranked repositories with a
    given star count, the names come in the order of the input, as a
    prefix of the input's repositories with that count. *)
Theorem top_repositories_stable repos l k :
  _get_top_repositories repos = Ok l ->
  map rs_name (filter (fun s => s.(rs_stars) = k) l)
    `prefix_of` map r_name (filter (fun r => r.(r_stargazers_count) = k) repos).
Proof.
  unfold _get_top_repositories, ranked. intros Hok. apply result_map_ok in Hok.
  rewrite <- (sorted_desc_stable r_stargazers_count k repos).
  assert (Hmap : map rs_name (filter (fun s => s.(rs_stars) = k) l)
                 = map r_name (filter (fun r => r.(r_stargazers_count) = k)
                                      (take TOP_N (sorted_desc r_stargazers_count repos)))).
  { induction Hok as [|r s rs ss Hrs _ IH]; [done|].
    apply summarize_fields in Hrs as [Hst Hn]. rewrite !filter_cons, Hst.
    case_decide; simpl; [by rewrite Hn, IH|done]. }
  rewrite Hmap. apply prefix_map, filter_take_prefix.
Qed.

(** C25: the ranking keeps the most starred repositories: when it succeeds,
    a repository left out of the five ranked ones has at most as many
    stars as every reported one. *)
Theorem top_repositories_maximal repos l r s :
  _get_top_repositories repos = Ok l -> r ∈ repos -> r ∉ ranked repos -> s ∈ l ->
  (r.(r_stargazers_count) <= s.(rs_stars))%Z.
Proof.
  unfold _get_top_repositories. intros Hok Hr Hnr Hs. apply result_map_ok in Hok.
  assert (Hex : exists r', r' ∈ ranked repos /\ summarize r' = Ok s).
  { clear Hnr Hr. induction Hok as [|x y xs ys Hxy _ IH]; [by apply elem_of_nil in Hs|].
    apply elem_of_cons in Hs as [->|Hs]; [exists x; split; [left|done]|].
    destruct (IH Hs) as (r' & ? & ?). exists r'. split; [by right|done]. }
  destruct Hex as (r' & Hr' & Hsum). apply summarize_fields in Hsum as [-> _].
  exact (sorted_desc_take_max r_stargazers_count TOP_N repos r r' Hr Hnr Hr').
Qed.

(** A failing [get_topics] on any of the five ranked repositories
    makes the whole method raise: this fetch is not guarded. *)
Theorem topics_failure_raises repos r e :
  r ∈ ranked repos -> get_topics r = Raise e -> exists e', _get_top_repositories repos = Raise e'.
Proof.
  intros Hr Ht. eapply result_map_raise; [exact Hr|]. unfold summarize, result_bind. by rewrite Ht.
Qed.

End Proofs.

Lemma rank_result_ok : @_get_top_repositories rank_api rank_repos = Ok rank_result.
Proof. vm_compute. reflexivity. Qed.

(** Witness of C24 on the fixture: the 5-star repositories a, c, e, f in input order. *)
Lemma top_repositories_stable_witness :
  map rs_name (filter (fun s => s.(rs_stars) = 5%Z) rank_result)
    `prefix_of` map r_name (filter (fun r => r.(r_stargazers_count) = 5%Z) rank_repos).
Proof. exact (@top_repositories_stable rank_api rank_repos rank_result 5%Z rank_result_ok). Defined.

(** Witness on the fixture: "d" (1 star) is left out; "b", reported, has 10. *)
Lemma top_repositories_maximal_witness :
  let d := simple_repo "alice" "d" false 1 0 in
  d ∈ rank_repos /\ (d ∉ ranked rank_repos) /\
  exists s, s ∈ rank_result /\ rs_name s = "b" /\ (1 <= s.(rs_stars))%Z.
Proof.
  assert (Hd : simple_repo "alice" "d" false 1 0 ∈ rank_repos) by (do 3 right; left).
  assert (Hn : simple_repo "alice" "d" false 1 0 ∉ ranked rank_repos).
  { vm_compute. intros H. repeat (apply elem_of_cons in H as [H|H]; [discriminate H|]). by apply elem_of_nil in H. }
  split_and!; [exact Hd|exact Hn|].
  assert (Hne : exists s l, rank_result = s :: l) by (eexists _, _; vm_compute; reflexivity).
  destruct Hne as (s & l & E).
  exists s. assert (Hs : s ∈ rank_result) by (rewrite E; left).
  split_and!; [exact Hs|vm_compute in E; by injection E as <- _|].
  exact (@top_repositories_maximal rank_api rank_repos rank_result _ s rank_result_ok Hd Hn Hs).
Defined.

(** On the fixture: adding [broken] (7 stars, ranked second) makes the ranking raise. *)
Lemma topics_failure_raises_witness :
  broken_repo ∈ ranked (broken_repo :: rank_repos) /\
  @get_topics rank_api broken_repo = Raise GithubException /\
  exists e', @_get_top_repositories rank_api (broken_repo :: rank_repos) = Raise e'.
Proof.
  assert (Hin : broken_repo ∈ ranked (broken_repo :: rank_repos)) by (vm_compute; right; left).
  split_and!; [exact Hin|reflexivity|].
  exact (@topics_failure_raises rank_api _ broken_repo GithubException Hin eq_refl).
Defined.

End TopRepos.
