(* ===== verification/Collaborators.v ===== *)
(** * Collaborator/contributor deduplication ([GitHubAnalyzer._get_collaborators])

    [src/backend/github_analyzer.py], lines 314-439.  The method scans the
    first 15 owned, non-fork repositories; for each it lists the
    collaborators (may raise: then none) and the contributors (may raise:
    then none), drops the owner and, for contributors, the logins already
    listed as collaborators of the same repository, and upserts every
    remaining person into the dict [all_people].  A person's ["type"] is
    fixed by the first upsert; later ones only bump ["repo_count"] (and
    ["total_contributions"] for contributor sightings).

    Each repository's upserts are modelled as a list of [sighting]s, and
    the per-repository code is proved equal to folding [track] over them
    ([process_repo_people]); the registry invariants are then proved by
    induction on the list of sightings. *)

From S2P Require Import Prelude PyDict GitHub.
From stdpp Require Import gmap strings.
Import ListNotations.

Module Collaborators.

Inductive PersonType := Collaborator | Contributor.

#[export] Instance PersonType_eq_dec : EqDecision PersonType.
Proof. solve_decision. Defined.

(** The per-repository entries (dicts with a constant ["type"] key). *)
Record CollabEntry := mk_collab_entry {
  ce_username : string; ce_name : string; ce_avatar_url : string
}.

Record ContribEntry := mk_contrib_entry {
  te_username : string; te_name : string; te_avatar_url : string; te_contributions : Z
}.

(** A value of [all_people]; [p_total_contributions] is [None] while the
    dict has no ["total_contributions"] key. *)
Record Person := mk_person {
  p_username : string; p_name : string; p_avatar_url : string;
  p_repo_count : Z; p_type : PersonType; p_total_contributions : option Z
}.

Record RepoCollaborators := mk_repo_collaborators {
  rc_repo_name : string; rc_repo_url : string;
  rc_collaborators : list CollabEntry; rc_contributors : list ContribEntry;
  rc_total_people : Z
}.

Record CollaboratorsData := mk_collaborators_data {
  total_unique_people : Z;
  total_unique_collaborators : Z;
  total_unique_contributors : Z;
  collaborators_by_repo : list RepoCollaborators;
  top_people : list Person
}.

Definition people := dict string Person.

(** Lines 347-356: [{"username": collab.login, "name": collab.name or
    collab.login, ...} for collab in collaborators_list if collab.login !=
    user.login]. *)
Definition repo_collaborators_of (user_login : string) (l : list NamedUser) : list CollabEntry :=
  map (fun c => mk_collab_entry c.(nu_login) (str_or c.(nu_name) c.(nu_login)) c.(nu_avatar_url))
      (List.filter (fun c => negb (String.eqb c.(nu_login) user_login)) l).

(** Lines 380-391: the contributors minus the owner and minus this
    repository's collaborators ([collab_usernames]). *)
Definition repo_contributors_of (user_login : string) (collab_usernames : list string)
    (l : list NamedUser) : list ContribEntry :=
  map (fun c => mk_contrib_entry c.(nu_login) (str_or c.(nu_name) c.(nu_login))
                                 c.(nu_avatar_url) c.(nu_contributions))
      (List.filter (fun c => negb (String.eqb c.(nu_login) user_login) &&
                             negb (existsb (String.eqb c.(nu_login)) collab_usernames)) l).

Definition incr_repo_count (p : Person) : Person :=
  mk_person p.(p_username) p.(p_name) p.(p_avatar_url) (p.(p_repo_count) + 1)%Z
            p.(p_type) p.(p_total_contributions).

(** Lines 406-409. *)
Definition add_contributions (n : Z) (p : Person) : Person :=
  mk_person p.(p_username) p.(p_name) p.(p_avatar_url) p.(p_repo_count) p.(p_type)
            (Some (match p.(p_total_contributions) with Some t => t + n | None => n end)%Z).

(** Lines 359-369: track one collaborator. *)
Definition track_collaborator (all : people) (c : CollabEntry) : people :=
  let u := c.(ce_username) in
  let all := dict_setdefault u (mk_person u c.(ce_name) c.(ce_avatar_url) 0 Collaborator None) all in
  dict_modify u incr_repo_count all.

(** Lines 394-409: track one contributor. *)
Definition track_contributor (all : people) (c : ContribEntry) : people :=
  let u := c.(te_username) in
  let all := dict_setdefault u (mk_person u c.(te_name) c.(te_avatar_url) 0 Contributor (Some 0%Z)) all in
  let all := dict_modify u incr_repo_count all in
  dict_modify u (add_contributions c.(te_contributions)) all.

(** Lines 338-423: one iteration of [for repo in owned_repos]; the state is
    [all_people] and [collaborators_data["collaborators_by_repo"]]. *)
Definition process_repo `{GithubApi} (user_login : string)
    (st : people * list RepoCollaborators) (repo : Repository) : people * list RepoCollaborators :=
  let '(all, by_repo) := st in
  let '(repo_collabs, all) :=
    match get_collaborators repo with
    | Ok l => let rc := repo_collaborators_of user_login l in (rc, fold_left track_collaborator rc all)
    | Raise _ => ([], all)
    end in
  let '(repo_contribs, all) :=
    match get_contributors repo with
    | Ok l =>
        let rt := repo_contributors_of user_login (map ce_username repo_collabs) l in
        (rt, fold_left track_contributor rt all)
    | Raise _ => ([], all)
    end in
  let by_repo :=
    if bool_decide (repo_collabs <> [] \/ repo_contribs <> []) then
      by_repo ++ [mk_repo_collaborators repo.(r_name) repo.(r_html_url) repo_collabs repo_contribs
                    (Z.of_nat (length repo_collabs + length repo_contribs))]
    else by_repo in
  (all, by_repo).

(** Line 336: [[repo for repo in repos if not repo.fork and
    repo.owner.login == user.login][:15]]. *)
Definition MAX_SCANNED_REPOS : nat := 15.
Definition MAX_TOP_PEOPLE : nat := 15.

Definition owned_repos (user_login : string) (repos : list Repository) : list Repository :=
  take MAX_SCANNED_REPOS (List.filter (owned_non_fork user_login) repos).

Definition scan `{GithubApi} (user_login : string) (repos : list Repository)
    : people * list RepoCollaborators :=
  fold_left (process_repo user_login) (owned_repos user_login repos) ([], []).

Definition is_collaborator (p : Person) : bool := bool_decide (p.(p_type) = Collaborator).
Definition is_contributor (p : Person) : bool := bool_decide (p.(p_type) = Contributor).

(** Lines 314-439. *)
Definition _get_collaborators `{GithubApi} (user : User) (repos : list Repository) : CollaboratorsData :=
  let '(all, by_repo) := scan user.(u_login) repos in
  mk_collaborators_data
    (Z.of_nat (length all))
    (Z.of_nat (length (List.filter is_collaborator (dict_values all))))
    (Z.of_nat (length (List.filter is_contributor (dict_values all))))
    by_repo
    (if bool_decide (all <> []) then take MAX_TOP_PEOPLE (sorted_desc p_repo_count (dict_values all))
     else []).

(** ** Specification: the registry as a function of the sightings *)

(** One upsert of the source: a collaborator or a contributor entry. *)
Inductive sighting :=
| SeenCollab (c : CollabEntry)
| SeenContrib (c : ContribEntry).

Definition sighting_login (s : sighting) : string :=
  match s with SeenCollab c => c.(ce_username) | SeenContrib c => c.(te_username) end.

Definition sighting_role (s : sighting) : PersonType :=
  match s with SeenCollab _ => Collaborator | SeenContrib _ => Contributor end.

Definition track (all : people) (s : sighting) : people :=
  match s with
  | SeenCollab c => track_collaborator all c
  | SeenContrib c => track_contributor all c
  end.

(** The upserts one repository performs, in the order the code performs them. *)
Definition repo_sightings `{GithubApi} (user_login : string) (repo : Repository) : list sighting :=
  let rc := match get_collaborators repo with
            | Ok l => repo_collaborators_of user_login l | Raise _ => [] end in
  let rt := match get_contributors repo with
            | Ok l => repo_contributors_of user_login (map ce_username rc) l | Raise _ => [] end in
  map SeenCollab rc ++ map SeenContrib rt.

Definition all_sightings `{GithubApi} (user_login : string) (repos : list Repository) : list sighting :=
  flat_map (repo_sightings user_login) (owned_repos user_login repos).

Definition seen_as (u : string) (s : sighting) : bool := String.eqb (sighting_login s) u.

(** Abstract role: the role of the first sighting of [u]. *)
Definition first_role (u : string) (ss : list sighting) : option PersonType :=
  sighting_role <$> List.find (seen_as u) ss.

(** [u] is listed (as collaborator or contributor) for [repo]. *)
Definition appears_in `{GithubApi} (user_login u : string) (repo : Repository) : bool :=
  existsb (seen_as u) (repo_sightings user_login repo).

(** The registry invariant: unique keys, each value filed under its login. *)
Definition registry_inv (d : people) : Prop :=
  dict_wf d /\ Forall (fun kv => kv.2.(p_username) = kv.1) d.

(** ** A fixture: the analyzed user is [alice]

    [app]: the collaborator listing raises (no push access) and the
    contributors are alice, bob and carol; [lib]: collaborators alice and
    bob, contributors bob and dave.  bob is thus first seen as a
    contributor of [app], then as a collaborator of [lib]. *)
Definition contributor_user (login : string) (n : Z) : NamedUser :=
  mk_named_user login None ("https://avatars/" +:+ login) n.

Definition demo_user : User :=
  mk_user "alice" (Some "Alice") None None None "https://avatars/alice" 3 0 10 4 None None None None None None.

Definition demo_repos : list Repository :=
  [simple_repo "alice" "app" false 10 2; simple_repo "alice" "lib" false 3 0;
   simple_repo "alice" "fork" true 0 0].

Definition demo_table (name : string) : RepoData :=
  if String.eqb name "app" then
    mk_repo_data (Ok 0%Z) (Ok []) (Ok []) (Ok []) (Raise GithubException)
      (Ok [contributor_user "alice" 40; contributor_user "bob" 5; contributor_user "carol" 3])
      (Ok []) (Ok [])
  else if String.eqb name "lib" then
    mk_repo_data (Ok 0%Z) (Ok []) (Ok []) (Ok [])
      (Ok [simple_user "alice" None; simple_user "bob" (Some "Bob")])
      (Ok [contributor_user "bob" 2; contributor_user "dave" 1])
      (Ok []) (Ok [])
  else empty_repo_data.

Definition demo_api : GithubApi :=
  fixture_api (Ok demo_user) (Ok demo_repos) demo_table (fun _ => Ok []).

(** A fixture with sixteen contributors of one repository: one more than
    [top_people] keeps. *)
Definition crowd_repos : list Repository := [simple_repo "alice" "big" false 0 0].

Definition crowd_api : GithubApi :=
  fixture_api (Ok demo_user) (Ok crowd_repos)
    (fun _ => mk_repo_data (Ok 0%Z) (Ok []) (Ok []) (Ok []) (Ok [])
                (Ok (map (fun i => contributor_user (String (Ascii.ascii_of_nat (65 + i)) EmptyString) (Z.of_nat (16 - i))) (seq 0 16)))
                (Ok []) (Ok []))
    (fun _ => Ok []).

Section Proofs.
Context `{GithubApi}.

Lemma process_repo_people user_login st repo :
  (process_repo user_login st repo).1 = fold_left track (repo_sightings user_login repo) st.1.
Proof.
  destruct st as [all by_repo]. unfold process_repo, repo_sightings.
  rewrite fold_left_app, !fold_left_map_fuse.
  destruct (get_collaborators repo), (get_contributors repo); reflexivity.
Qed.

Lemma scan_people user_login repos :
  (scan user_login repos).1 = fold_left track (all_sightings user_login repos) [].
Proof.
  unfold scan, all_sightings. change (@nil (string * Person)) with (([], []) : people * list RepoCollaborators).1 at 2.
  generalize (([], []) : people * list RepoCollaborators).
  induction (owned_repos user_login repos) as [|r rs IH]; intros st; [done|].
  simpl. rewrite fold_left_app, <- process_repo_people. apply IH.
Qed.

Lemma track_get_other d s u :
  sighting_login s <> u -> dict_get u (track d s) = dict_get u d.
Proof.
  intros Hne. destruct s; simpl in *; unfold track_collaborator, track_contributor;
    rewrite ?dict_get_modify_ne, ?dict_get_setdefault_ne by done; done.
Qed.

(** The upserted person keeps the role and identity fields it had, and
    gains one repository. *)
Lemma track_get_self d s :
  exists p, dict_get (sighting_login s) (track d s) = Some p /\
    p.(p_type) = default (sighting_role s) (p_type <$> dict_get (sighting_login s) d) /\
    p.(p_repo_count) = (default 0%Z (p_repo_count <$> dict_get (sighting_login s) d) + 1)%Z /\
    p.(p_username) = default (sighting_login s) (p_username <$> dict_get (sighting_login s) d).
Proof.
  destruct s as [c|c]; simpl; unfold track_collaborator, track_contributor;
    rewrite ?dict_get_modify_eq, dict_get_setdefault_eq;
    destruct (dict_get _ d); simpl; eauto.
Qed.

Lemma track_inv d s : registry_inv d -> registry_inv (track d s).
Proof.
  intros [Hwf Hk]. split.
  - destruct s; simpl; unfold track_collaborator, track_contributor; auto with gitfolio.
  - destruct s; simpl; unfold track_collaborator, track_contributor;
      repeat first [apply dict_modify_Forall | apply dict_setdefault_Forall]; done.
Qed.

Lemma fold_track_inv ss d : registry_inv d -> registry_inv (fold_left track ss d).
Proof. revert d. induction ss; simpl; auto using track_inv. Qed.

Lemma registry_inv_nil : registry_inv [].
Proof. split; [constructor|done]. Qed.

Lemma fold_track_role u ss d :
  p_type <$> dict_get u (fold_left track ss d)
  = match p_type <$> dict_get u d with Some r => Some r | None => first_role u ss end.
Proof.
  revert d. induction ss as [|s ss IH]; intros d; simpl.
  - by destruct (dict_get u d).
  - rewrite IH. unfold first_role, seen_as. simpl.
    destruct (String.eqb_spec (sighting_login s) u) as [<-|Hne].
    + destruct (track_get_self d s) as (p & -> & Ht & _). simpl. rewrite Ht.
      by destruct (dict_get (sighting_login s) d).
    + by rewrite track_get_other.
Qed.

Lemma fold_track_count u ss d :
  default 0%Z (p_repo_count <$> dict_get u (fold_left track ss d))
  = (default 0%Z (p_repo_count <$> dict_get u d) + Z.of_nat (length (List.filter (seen_as u) ss)))%Z.
Proof.
  revert d. induction ss as [|s ss IH]; intros d; simpl; [lia|].
  rewrite IH. destruct (seen_as u s) eqn:E; unfold seen_as in E.
  - apply String.eqb_eq in E as <-.
    destruct (track_get_self d s) as (p & -> & _ & Hc & _). simpl. rewrite Hc. lia.
  - apply String.eqb_neq in E. by rewrite track_get_other.
Qed.

Lemma fold_track_unseen u ss d :
  (forall s, s ∈ ss -> sighting_login s <> u) -> dict_get u (fold_left track ss d) = dict_get u d.
Proof.
  revert d. induction ss as [|s ss IH]; intros d Hss; simpl; [done|].
  rewrite IH by (intros; apply Hss; by right). apply track_get_other, Hss. by left.
Qed.

Lemma registry_usernames d : registry_inv d -> map p_username (dict_values d) = dict_keys d.
Proof.
  intros [_ Hf]. unfold dict_values, dict_keys. rewrite map_map.
  induction Hf as [|[k p] r Hkp _ IH]; simpl in *; by f_equal.
Qed.

Lemma repo_sightings_not_owner user_login repo s :
  s ∈ repo_sightings user_login repo -> sighting_login s <> user_login.
Proof.
  unfold repo_sightings. intros Hs.
  apply elem_of_app in Hs as [Hs|Hs]; apply list_elem_of_fmap in Hs as (c & -> & Hc); simpl.
  - destruct (get_collaborators repo); [|by apply elem_of_nil in Hc].
    apply list_elem_of_fmap in Hc as (n & -> & Hn). apply list_elem_of_In, filter_In in Hn as [_ Hn].
    simpl. intros Heq. by rewrite Heq, String.eqb_refl in Hn.
  - destruct (get_contributors repo); [|by apply elem_of_nil in Hc].
    apply list_elem_of_fmap in Hc as (n & -> & Hn). apply list_elem_of_In, filter_In in Hn as [_ Hn].
    simpl. intros Heq. by rewrite Heq, String.eqb_refl in Hn.
Qed.

Lemma scan_registry_inv user_login repos : registry_inv (scan user_login repos).1.
Proof. rewrite scan_people. apply fold_track_inv, registry_inv_nil. Qed.

Lemma scan_owner_absent user_login repos : dict_get user_login (scan user_login repos).1 = None.
Proof.
  rewrite scan_people, fold_track_unseen; [done|]. intros s Hs.
  apply list_elem_of_In, in_flat_map in Hs as (r & _ & Hr).
  by eapply repo_sightings_not_owner, list_elem_of_In.
Qed.

Lemma get_collaborators_top user repos :
  let all := (scan user.(u_login) repos).1 in
  top_people (_get_collaborators user repos)
  = if bool_decide (all <> []) then take MAX_TOP_PEOPLE (sorted_desc p_repo_count (dict_values all)) else [].
Proof. unfold _get_collaborators. by destruct (scan _ _). Qed.

Lemma top_people_sublist user repos :
  exists l, top_people (_get_collaborators user repos) `sublist_of` l /\
            l ≡ₚ dict_values (scan user.(u_login) repos).1.
Proof.
  rewrite get_collaborators_top. case_bool_decide.
  - eexists. split; [apply sublist_take|apply sorted_desc_perm].
  - exists []. split; [done|]. destruct (scan _ _).1; [done|congruence].
Qed.

Lemma NoDup_map_filter {A B} (f : A -> B) (p : A -> bool) (l : list A) :
  NoDup (map f l) -> NoDup (map f (List.filter p l)).
Proof.
  induction l as [|x l IH]; simpl; [done|]. rewrite NoDup_cons. intros [Hx Hl].
  destruct (p x); simpl; [|auto]. rewrite NoDup_cons. split; [|auto].
  intros Hin. apply Hx. apply list_elem_of_In in Hin. apply list_elem_of_In.
  apply in_map_iff in Hin as (y & <- & Hy). apply filter_In in Hy as [Hy _]. by apply in_map.
Qed.

Lemma count_login_nodup {A} (f : A -> string) u (l : list A) :
  NoDup (map f l) ->
  length (List.filter (fun x => String.eqb (f x) u) l)
  = if existsb (fun x => String.eqb (f x) u) l then 1 else 0.
Proof.
  induction l as [|x l IH]; simpl; [done|]. rewrite NoDup_cons. intros [Hx Hl].
  destruct (String.eqb_spec (f x) u) as [<-|Hne]; simpl; [|auto].
  rewrite IH by done. destruct (existsb _ l) eqn:E; [|done]. exfalso. apply Hx.
  apply existsb_exists in E as (y & Hy & Heq). apply String.eqb_eq in Heq.
  apply list_elem_of_In. rewrite <- Heq. by apply in_map.
Qed.

Lemma repo_sightings_nodup user_login repo :
  (forall l, get_collaborators repo = Ok l -> NoDup (map nu_login l)) ->
  (forall l, get_contributors repo = Ok l -> NoDup (map nu_login l)) ->
  NoDup (map sighting_login (repo_sightings user_login repo)).
Proof.
  intros Hc Ht. unfold repo_sightings, repo_collaborators_of, repo_contributors_of.
  rewrite map_app, !map_map. simpl.
  set (rc := match get_collaborators repo with Ok l => _ | Raise _ => [] end).
  assert (Hrc : NoDup (map ce_username rc)).
  { subst rc. destruct (get_collaborators repo) as [l|]; [|constructor].
    rewrite map_map. simpl. apply NoDup_map_filter, Hc. done. }
  apply NoDup_app. split_and!.
  - exact Hrc.
  - intros x Hx Hy. destruct (get_contributors repo) as [l|]; [|by apply elem_of_nil in Hy].
    apply list_elem_of_In, in_map_iff in Hy as (t & <- & Hy).
    apply in_map_iff in Hy as (c & <- & Hy). apply filter_In in Hy as [_ Hy]. apply andb_prop in Hy as [_ Hy]. apply negb_true_iff in Hy.
    assert (Hin : In (nu_login c) (map ce_username rc)).
    { subst rc. destruct (get_collaborators repo) as [l'|]; [|by apply elem_of_nil in Hx].
      rewrite map_map in *. by apply list_elem_of_In. }
    rewrite (proj2 (existsb_exists _ _)) in Hy; [done|].
    exists (nu_login c). split; [done|]. apply String.eqb_refl.
  - destruct (get_contributors repo) as [l|]; [|constructor].
    rewrite map_map. simpl. apply NoDup_map_filter, Ht. done.
Qed.

Lemma count_sightings_flat_map user_login u (rs : list Repository) :
  (forall r, r ∈ rs -> NoDup (map sighting_login (repo_sightings user_login r))) ->
  length (List.filter (seen_as u) (flat_map (repo_sightings user_login) rs))
  = length (List.filter (appears_in user_login u) rs).
Proof.
  induction rs as [|r rs IH]; intros Hnd; simpl; [done|].
  rewrite List.filter_app, length_app, IH by (intros; apply Hnd; by right).
  pose proof (count_login_nodup sighting_login u (repo_sightings user_login r)) as Hcnt.
  unfold appears_in, seen_as in *. rewrite Hcnt by (apply Hnd; by left).
  destruct (existsb _ _); simpl; lia.
Qed.

(** ** Properties of [_get_collaborators] *)

Lemma top_people_distinct user repos :
  NoDup (map p_username (top_people (_get_collaborators user repos))) /\
  Forall (fun p => p.(p_username) <> user.(u_login)) (top_people (_get_collaborators user repos)).
Proof.
  destruct (top_people_sublist user repos) as (l & Hsub & Hperm).
  pose proof (scan_registry_inv user.(u_login) repos) as Hinv.
  assert (Hkeys : map p_username l ≡ₚ dict_keys (scan user.(u_login) repos).1).
  { rewrite <- registry_usernames by done. by rewrite Hperm. }
  split.
  - eapply sublist_NoDup; [|by apply sublist_map].
    rewrite Hkeys. apply Hinv.
  - apply Forall_forall. intros p Hp Heq.
    assert (Hin : p_username p ∈ dict_keys (scan user.(u_login) repos).1).
    { rewrite <- Hkeys. apply list_elem_of_fmap_2. by eapply elem_of_sublist. }
    apply dict_get_elem_of in Hin. rewrite Heq, scan_owner_absent in Hin. by destruct Hin.
Qed.

(** C2: when the API lists no login twice, a person's [repo_count] is the
    number of scanned repositories that list them (a login absent from
    the registry counts 0). *)
Theorem scan_repo_count user_login repos u :
  (forall r l, r ∈ owned_repos user_login repos -> get_collaborators r = Ok l -> NoDup (map nu_login l)) ->
  (forall r l, r ∈ owned_repos user_login repos -> get_contributors r = Ok l -> NoDup (map nu_login l)) ->
  default 0%Z (p_repo_count <$> dict_get u (scan user_login repos).1)
  = Z.of_nat (length (List.filter (appears_in user_login u) (owned_repos user_login repos))).
Proof.
  intros Hc Ht. rewrite scan_people, fold_track_count. simpl.
  unfold all_sightings. rewrite count_sightings_flat_map; [done|].
  intros r Hr. apply repo_sightings_nodup; eauto.
Qed.

(** C1: the deduplicated registry has no duplicate logins and never lists
    the analyzed user: the [top_people] output has pairwise distinct
    usernames, none of them the owner's login. *)
Theorem top_people_unique_not_owner user repos :
  NoDup (map p_username (top_people (_get_collaborators user repos))) /\
  Forall (fun p => p.(p_username) <> user.(u_login)) (top_people (_get_collaborators user repos)).
Proof. exact (top_people_distinct user repos). Qed.


Lemma unique_people_partition user repos :
  let d := _get_collaborators user repos in
  total_unique_people d = (total_unique_collaborators d + total_unique_contributors d)%Z.
Proof.
  unfold _get_collaborators. destruct (scan _ _) as [all by_repo]. simpl.
  rewrite <- Nat2Z.inj_add. f_equal.
  rewrite <- (length_map snd all). fold (dict_values all).
  rewrite <- (List.filter_length is_collaborator). f_equal. f_equal.
  apply List.filter_ext. intros p. unfold is_collaborator, is_contributor.
  destruct (p_type p); reflexivity.
Qed.

(** C3: the three totals partition the registry:
    [total_unique_people = total_unique_collaborators + total_unique_contributors]. *)
Theorem unique_people_split user repos :
  let d := _get_collaborators user repos in
  total_unique_people d = (total_unique_collaborators d + total_unique_contributors d)%Z.
Proof. exact (unique_people_partition user repos). Qed.

Lemma top_people_sorted_bound user repos :
  let tp := top_people (_get_collaborators user repos) in
  length tp <= MAX_TOP_PEOPLE /\ Sorted (fun x y => y.(p_repo_count) <= x.(p_repo_count))%Z tp.
Proof.
  simpl. rewrite get_collaborators_top. case_bool_decide; [|split; [simpl; lia|constructor]].
  split; [rewrite length_take; lia|]. apply Sorted_take, sorted_desc_sorted.
Qed.

(** C4: the top-people list holds at most 15 people, ordered by
    non-increasing [repo_count]. *)
Theorem top_people_bounded_sorted user repos :
  let tp := top_people (_get_collaborators user repos) in
  length tp <= MAX_TOP_PEOPLE /\ Sorted (fun x y => y.(p_repo_count) <= x.(p_repo_count))%Z tp.
Proof. exact (top_people_sorted_bound user repos). Qed.

(** C5: [top_people] keeps the people with the most repositories: a person
    of the registry left out of it has a [repo_count] at most that of
    every listed person. *)
Theorem top_people_maximal user repos p q :
  p ∈ dict_values (scan user.(u_login) repos).1 ->
  p ∉ top_people (_get_collaborators user repos) -> q ∈ top_people (_get_collaborators user repos) ->
  (p.(p_repo_count) <= q.(p_repo_count))%Z.
Proof.
  pose proof (get_collaborators_top user repos) as E. simpl in E. rewrite E.
  case_bool_decide; [|intros _ _ ?%elem_of_nil; done]. apply sorted_desc_take_max.
Qed.

End Proofs.

(** Witness: of the sixteen contributors, the last is left out of
    [top_people]; the first, listed, has as many repositories. *)
Lemma top_people_maximal_witness :
  exists p q, p ∈ dict_values (@scan crowd_api "alice" crowd_repos).1 /\
    (p ∉ top_people (@_get_collaborators crowd_api demo_user crowd_repos)) /\
    q ∈ top_people (@_get_collaborators crowd_api demo_user crowd_repos) /\ (p.(p_repo_count) <= q.(p_repo_count))%Z.
Proof.
  assert (Hq : exists q l, top_people (@_get_collaborators crowd_api demo_user crowd_repos) = q :: l)
    by (eexists _, _; vm_compute; reflexivity).
  destruct Hq as (q & l' & Eq).
  assert (Hp : exists l p, dict_values (@scan crowd_api "alice" crowd_repos).1 = l ++ [p]).
  { exists (removelast (dict_values (@scan crowd_api "alice" crowd_repos).1)),
      (List.last (dict_values (@scan crowd_api "alice" crowd_repos).1) q).
    apply app_removelast_last. vm_compute. discriminate. }
  destruct Hp as (l & p & Ep). exists p, q.
  assert (H1 : p ∈ dict_values (@scan crowd_api "alice" crowd_repos).1) by (rewrite Ep; apply elem_of_app; right; left).
  assert (H2 : p ∉ top_people (@_get_collaborators crowd_api demo_user crowd_repos)).
  { apply (f_equal (@last _)) in Ep. rewrite last_snoc in Ep. vm_compute in Ep. injection Ep as <-.
    vm_compute. intros H. repeat (apply elem_of_cons in H as [H|H]; [discriminate H|]). by apply elem_of_nil in H. }
  assert (H3 : q ∈ top_people (@_get_collaborators crowd_api demo_user crowd_repos)) by (rewrite Eq; left).
  split_and!; [exact H1|exact H2|exact H3|].
  exact (@top_people_maximal crowd_api demo_user crowd_repos p q H1 H2 H3).
Defined.

(** Witness of C2 on the fixture: bob appears in both scanned repositories. *)
Lemma scan_repo_count_witness :
  (forall r l, r ∈ @owned_repos "alice" demo_repos -> @get_collaborators demo_api r = Ok l ->
     NoDup (map nu_login l)) /\
  (forall r l, r ∈ @owned_repos "alice" demo_repos -> @get_contributors demo_api r = Ok l ->
     NoDup (map nu_login l)) /\
  default 0%Z (p_repo_count <$> dict_get "bob" (@scan demo_api "alice" demo_repos).1)
  = Z.of_nat (length (List.filter (@appears_in demo_api "alice" "bob") (owned_repos "alice" demo_repos))) /\
  default 0%Z (p_repo_count <$> dict_get "bob" (@scan demo_api "alice" demo_repos).1) = 2%Z.
Proof.
  assert (Hc : forall r l, r ∈ @owned_repos "alice" demo_repos -> @get_collaborators demo_api r = Ok l ->
     NoDup (map nu_login l)).
  { intros r l Hr Hl. vm_compute in Hr.
    repeat (apply elem_of_cons in Hr as [->|Hr]); [..|by apply elem_of_nil in Hr];
      vm_compute in Hl; simplify_eq; apply (bool_decide_unpack _); by vm_compute. }
  assert (Ht : forall r l, r ∈ @owned_repos "alice" demo_repos -> @get_contributors demo_api r = Ok l ->
     NoDup (map nu_login l)).
  { intros r l Hr Hl. vm_compute in Hr.
    repeat (apply elem_of_cons in Hr as [->|Hr]); [..|by apply elem_of_nil in Hr];
      vm_compute in Hl; simplify_eq; apply (bool_decide_unpack _); by vm_compute. }
  split_and!; [exact Hc|exact Ht|apply (@scan_repo_count demo_api); assumption|vm_compute; reflexivity].
Defined.

End Collaborators.
