(* ===== verification/CollabScore.v ===== *)
(** * Collaboration scoring ([GitHubAnalyzer._calculate_collaboration_score])

    [src/backend/github_analyzer.py], lines 441-611.  The method walks the
    first 30 repositories and accumulates ten counters (the state record
    [ScoreState]); each fetch sits in its own [try] and the issue and
    pull-request counts share one: a failing [get_issues] skips the
    pull-request and review counts of that repository too.  Seven
    sub-scores are then clamped to [0, 100] and combined with fixed weights;
    the level and the team fit are decided on the unrounded overall score,
    the reported scores are [round(x, 1)].

    Python sets ([all_collaborators_set], [all_contributors_set]) are
    stdpp [gset string]; floats are exact rationals ([PyNum]). *)

From S2P Require Import Prelude PyNum GitHub.
From stdpp Require Import gmap strings.
From Stdlib Require Import QArith Qminmax Lqa.
Import ListNotations.

Module CollabScore.

(** The local variables of the method that the loop updates. *)
Record ScoreState := mk_score_state {
  total_prs : Z;
  total_issues : Z;
  forked_repos : Z;
  contributed_repos : Z;
  pr_review_participation : Z;
  collaborative_projects : Z;
  repos_forked_by_others : Z;
  all_collaborators_set : gset string;
  all_contributors_set : gset string
}.

(** Lines 445-459. *)
Definition init_state : ScoreState := mk_score_state 0 0 0 0 0 0 0 ∅ ∅.

Definition MAX_ANALYZED_REPOS : nat := 30.
Definition MAX_TEAM_PULLS : nat := 20.
Definition MAX_ISSUES : nat := 10.
Definition MAX_PULLS : nat := 10.
Definition MAX_REVIEWED_PULLS : nat := 5.
Definition MAX_REVIEWS : nat := 5.

(** Lines 464-466. *)
Definition count_fork (r : Repository) (st : ScoreState) : ScoreState :=
  if r.(r_fork) then
    mk_score_state st.(total_prs) st.(total_issues) (st.(forked_repos) + 1) (st.(contributed_repos) + 1)
      st.(pr_review_participation) st.(collaborative_projects) st.(repos_forked_by_others)
      st.(all_collaborators_set) st.(all_contributors_set)
  else st.

(** Lines 469-470. *)
Definition count_forked_by_others (r : Repository) (st : ScoreState) : ScoreState :=
  if negb r.(r_fork) && (0 <? r.(r_forks_count))%Z then
    mk_score_state st.(total_prs) st.(total_issues) st.(forked_repos) st.(contributed_repos)
      st.(pr_review_participation) st.(collaborative_projects)
      (st.(repos_forked_by_others) + r.(r_forks_count)) st.(all_collaborators_set) st.(all_contributors_set)
  else st.

(** [for x in xs: if x.login != user.login: s.add(x.login)] *)
Definition add_logins (user_login : string) (xs : list NamedUser) (s : gset string) : gset string :=
  fold_left (fun acc x => if String.eqb x.(nu_login) user_login then acc else {[x.(nu_login)]} ∪ acc) xs s.

(** Lines 473-490: both fetches are guarded; a failure adds nothing. *)
Definition count_people `{GithubApi} (user_login : string) (r : Repository) (st : ScoreState) : ScoreState :=
  if owned_non_fork user_login r then
    let cs := match get_collaborators r with
              | Ok l => add_logins user_login l st.(all_collaborators_set)
              | Raise _ => st.(all_collaborators_set) end in
    let ts := match get_contributors r with
              | Ok l => add_logins user_login l st.(all_contributors_set)
              | Raise _ => st.(all_contributors_set) end in
    mk_score_state st.(total_prs) st.(total_issues) st.(forked_repos) st.(contributed_repos)
      st.(pr_review_participation) st.(collaborative_projects) st.(repos_forked_by_others) cs ts
  else st.

(** Line 501: [[p for p in pulls if p.user.login != user.login]]; a pull
    request without a user raises [AttributeError] ([None]). *)
Fixpoint other_author_prs (user_login : string) (ps : list PullRequest) : option (list PullRequest) :=
  match ps with
  | [] => Some []
  | p :: ps =>
      match p.(pr_user) with
      | None => None
      | Some u =>
          rest ← other_author_prs user_login ps;
          Some (if String.eqb u.(nu_login) user_login then rest else p :: rest)
      end
  end.

(** Lines 493-505. *)
Definition count_team_project `{GithubApi} (user_login : string) (r : Repository) (st : ScoreState)
    : ScoreState :=
  if owned_non_fork user_login r then
    match get_pulls r with
    | Ok pulls =>
        match other_author_prs user_login (take MAX_TEAM_PULLS pulls) with
        | Some others =>
            if bool_decide (0 < length others)%nat then
              mk_score_state st.(total_prs) st.(total_issues) st.(forked_repos) st.(contributed_repos)
                st.(pr_review_participation) (st.(collaborative_projects) + 1) st.(repos_forked_by_others)
                st.(all_collaborators_set) st.(all_contributors_set)
            else st
        | None => st
        end
    | Raise _ => st
    end
  else st.

(** Lines 517-523: the pull requests (of the first five) whose first five
    reviews are not empty; a failing [get_reviews] skips that one. *)
Definition reviewed_prs `{GithubApi} (pulls : list PullRequest) : Z :=
  sum_by (fun pr => match get_reviews pr with
                    | Ok rv => if bool_decide (take MAX_REVIEWS rv = []) then 0%Z else 1%Z
                    | Raise _ => 0%Z
                    end) (take MAX_REVIEWED_PULLS pulls).

(** Lines 508-525: one [try] around the issue count, the pull-request count
    and the review loop.  [total_issues] is updated before [get_pulls] is
    called, so a failing [get_pulls] keeps the issue count. *)
Definition count_issues_prs `{GithubApi} (r : Repository) (st : ScoreState) : ScoreState :=
  match get_issues r with
  | Raise _ => st
  | Ok issues =>
      let n_issues := Z.of_nat (length (List.filter (fun i => negb i.(is_pull_request))
                                                    (take MAX_ISSUES issues))) in
      let st := mk_score_state st.(total_prs) (st.(total_issues) + n_issues) st.(forked_repos)
                  st.(contributed_repos) st.(pr_review_participation) st.(collaborative_projects)
                  st.(repos_forked_by_others) st.(all_collaborators_set) st.(all_contributors_set) in
      match get_pulls r with
      | Raise _ => st
      | Ok pulls =>
          let pulls := take MAX_PULLS pulls in
          mk_score_state (st.(total_prs) + Z.of_nat (length pulls)) st.(total_issues) st.(forked_repos)
            st.(contributed_repos) (st.(pr_review_participation) + reviewed_prs pulls)
            st.(collaborative_projects) st.(repos_forked_by_others)
            st.(all_collaborators_set) st.(all_contributors_set)
      end
  end.

(** Lines 461-528: the loop body, in the order of the source. *)
Definition score_repo `{GithubApi} (user_login : string) (st : ScoreState) (r : Repository) : ScoreState :=
  count_issues_prs r (count_team_project user_login r (count_people user_login r
    (count_forked_by_others r (count_fork r st)))).

Definition analyzed_repos (repos : list Repository) : list Repository := take MAX_ANALYZED_REPOS repos.

Definition score_loop `{GithubApi} (user_login : string) (repos : list Repository) : ScoreState :=
  fold_left (score_repo user_login) (analyzed_repos repos) init_state.

Local Open Scope Q_scope.

(** The seven sub-scores (lines 537-556). *)
Record Metrics := mk_metrics {
  fork_activity : Q;
  issue_engagement : Q;
  pull_request_activity : Q;
  code_review_participation : Q;
  team_projects : Q;
  community_impact : Q;
  network_size : Q
}.

Definition compute_metrics (n_analyzed n_non_fork : Z) (st : ScoreState) : Metrics :=
  let n := max1 n_analyzed in
  let total_unique_people := (Z.of_nat (size st.(all_collaborators_set)) +
                              Z.of_nat (size st.(all_contributors_set)))%Z in
  mk_metrics
    (min100 (div_z st.(forked_repos) n * 200))
    (min100 (div_z st.(total_issues) n * 20))
    (min100 (div_z st.(total_prs) n * 15))
    (if (0 <? st.(total_prs))%Z
     then min100 (div_z st.(pr_review_participation) (max1 st.(total_prs)) * 100) else 0)
    (min100 (div_z st.(collaborative_projects) (max1 n_non_fork) * 100))
    (min100 (div_z st.(repos_forked_by_others) n * 10))
    (min100 (div_z total_unique_people (max1 n_non_fork) * 20)).

(** Lines 559-567. *)
Definition overall (m : Metrics) : Q :=
  m.(fork_activity) * (18 # 100) + m.(issue_engagement) * (13 # 100)
  + m.(pull_request_activity) * (18 # 100) + m.(code_review_participation) * (18 # 100)
  + m.(team_projects) * (13 # 100) + m.(community_impact) * (10 # 100)
  + m.(network_size) * (10 # 100).

Inductive CollabLevel :=
| ExceptionalCollaborator | StrongCollaborator | ModerateCollaborator
| EmergingCollaborator | IndependentDeveloper.

(** Lines 570-584. *)
Definition collab_level (score : Q) : CollabLevel :=
  if Qle_bool 75 score then ExceptionalCollaborator
  else if Qle_bool 60 score then StrongCollaborator
  else if Qle_bool 40 score then ModerateCollaborator
  else if Qle_bool 20 score then EmergingCollaborator
  else IndependentDeveloper.

Definition level_name (l : CollabLevel) : string :=
  match l with
  | ExceptionalCollaborator => "Exceptional Collaborator"
  | StrongCollaborator => "Strong Collaborator"
  | ModerateCollaborator => "Moderate Collaborator"
  | EmergingCollaborator => "Emerging Collaborator"
  | IndependentDeveloper => "Independent Developer"
  end.

Definition level_description (l : CollabLevel) : string :=
  match l with
  | ExceptionalCollaborator => "Highly active in team projects, code reviews, and community contributions"
  | StrongCollaborator => "Regular contributor to collaborative projects with good team engagement"
  | ModerateCollaborator => "Participates in team projects with some collaborative activity"
  | EmergingCollaborator => "Beginning to engage in collaborative development"
  | IndependentDeveloper => "Primarily works on solo projects, potential for more collaboration"
  end.

(** Line 610. *)
Definition team_fit (score : Q) : string :=
  if Qle_bool 50 score then "Collaborative" else "Independent".

Definition round_metrics (m : Metrics) : Metrics :=
  mk_metrics (py_round m.(fork_activity) 1) (py_round m.(issue_engagement) 1)
    (py_round m.(pull_request_activity) 1) (py_round m.(code_review_participation) 1)
    (py_round m.(team_projects) 1) (py_round m.(community_impact) 1) (py_round m.(network_size) 1).

(** The returned dict (lines 586-611); [stats] keeps the counters. *)
Record CollaborationScore := mk_collaboration_score {
  overall_score : Q;
  level : string;
  description : string;
  metrics : Metrics;
  stats : ScoreState;
  fit : string
}.

Definition _calculate_collaboration_score `{GithubApi} (user : User) (repos : list Repository)
    : CollaborationScore :=
  let st := score_loop user.(u_login) repos in
  let analyzed := analyzed_repos repos in
  let m := compute_metrics (Z.of_nat (length analyzed))
             (Z.of_nat (length (List.filter (fun r => negb r.(r_fork)) analyzed))) st in
  let o := overall m in
  mk_collaboration_score (py_round o 1) (level_name (collab_level o))
    (level_description (collab_level o)) (round_metrics m) st (team_fit o).

(** Every sub-score lies in [0, 100]. *)
Definition metrics_in_range (m : Metrics) : Prop :=
  0 <= m.(fork_activity) <= 100 /\ 0 <= m.(issue_engagement) <= 100 /\
  0 <= m.(pull_request_activity) <= 100 /\ 0 <= m.(code_review_participation) <= 100 /\
  0 <= m.(team_projects) <= 100 /\ 0 <= m.(community_impact) <= 100 /\
  0 <= m.(network_size) <= 100.

(** ** Fixtures (the analyzed user is [alice]) *)

Definition pr_by (author : string) (n : Z) : PullRequest :=
  mk_pull_request n (Some (simple_user author None)).

(** Pull requests numbered [first .. first+k-1]; the first one by [first_author]. *)
Definition prs (first_author : string) (first : Z) (k : nat) : list PullRequest :=
  match seqZ first (Z.of_nat k) with
  | [] => []
  | n :: ns => pr_by first_author n :: map (pr_by "alice") ns
  end.

Definition issues (k : nat) : list Issue := repeat (mk_issue false) k.

Definition people_named (names : list string) : list NamedUser := map (fun n => simple_user n None) names.

Definition score_user : User := mk_user "alice" None None None None "" 3 0 0 0 None None None None None None.

(** Spec section 8: three repositories, no fork, no pull request, no
    issue, no collaborator or contributor. *)
Definition quiet_repos : list Repository :=
  [simple_repo "alice" "q1" false 0 0; simple_repo "alice" "q2" false 0 0;
   simple_repo "alice" "q3" false 0 0].

Definition quiet_api : GithubApi :=
  fixture_api (Ok score_user) (Ok quiet_repos) (fun _ => empty_repo_data) (fun _ => Ok []).

(** A busy account: 3 repositories ([a], [b] owned, [f] a fork); 17
    issues, 29 pull requests of which 8 reviewed, 2 repositories with an
    outside pull request, 15 forks by others, 4 collaborators and 5
    contributors. *)
Definition busy_repos : list Repository :=
  [simple_repo "alice" "a" false 0 10; simple_repo "alice" "b" false 0 5;
   simple_repo "alice" "f" true 0 0].

Definition busy_table (name : string) : RepoData :=
  if String.eqb name "a" then
    mk_repo_data (Ok 0%Z) (Ok []) (Ok []) (Ok [])
      (Ok (people_named ["alice"; "c1"; "c2"; "c3"; "c4"]))
      (Ok (people_named ["alice"; "c1"; "c2"; "c3"; "c4"; "c5"]))
      (Ok (prs "bob" 1 10)) (Ok (issues 10))
  else if String.eqb name "b" then
    mk_repo_data (Ok 0%Z) (Ok []) (Ok []) (Ok []) (Ok []) (Ok [])
      (Ok (prs "carol" 11 10)) (Ok (issues 7))
  else if String.eqb name "f" then
    mk_repo_data (Ok 0%Z) (Ok []) (Ok []) (Ok []) (Ok []) (Ok [])
      (Ok (prs "alice" 21 9)) (Ok [])
  else empty_repo_data.

Definition busy_reviews (n : Z) : result (list Review) :=
  if ((n <=? 5) || ((11 <=? n) && (n <=? 13)))%Z then Ok [mk_review "APPROVED"] else Ok [].

Definition busy_api : GithubApi :=
  fixture_api (Ok score_user) (Ok busy_repos) busy_table busy_reviews.

(** Three owned repositories: 7 pull requests, 2 reviewed, 2 with an
    outside author, 2 forks by others, 1 contributor. *)
Definition mixed_repos : list Repository :=
  [simple_repo "alice" "m1" false 0 1; simple_repo "alice" "m2" false 0 1;
   simple_repo "alice" "m3" false 0 0].

Definition mixed_table (name : string) : RepoData :=
  if String.eqb name "m1" then
    mk_repo_data (Ok 0%Z) (Ok []) (Ok []) (Ok []) (Ok []) (Ok []) (Ok [pr_by "bob" 1; pr_by "bob" 2; pr_by "alice" 3]) (Ok [])
  else if String.eqb name "m2" then
    mk_repo_data (Ok 0%Z) (Ok []) (Ok []) (Ok []) (Ok []) (Ok []) (Ok [pr_by "carol" 4; pr_by "alice" 5]) (Ok [])
  else if String.eqb name "m3" then
    mk_repo_data (Ok 0%Z) (Ok []) (Ok []) (Ok []) (Ok []) (Ok (people_named ["dave"]))
      (Ok [pr_by "alice" 6; pr_by "alice" 7]) (Ok [])
  else empty_repo_data.

Definition mixed_api : GithubApi :=
  fixture_api (Ok score_user) (Ok mixed_repos) mixed_table
    (fun n => if ((n =? 1) || (n =? 4))%Z then Ok [mk_review "COMMENTED"] else Ok []).

(** A repository whose issue listing raises although its pull requests
    list fine; and one whose first pull request has no author. *)
Definition flaky_repo : Repository := simple_repo "alice" "flaky" false 0 0.
Definition ghost_repo : Repository := simple_repo "alice" "ghost" false 0 0.

Definition flaky_api : GithubApi :=
  fixture_api (Ok score_user) (Ok [flaky_repo; ghost_repo])
    (fun name => if String.eqb name "flaky" then
       mk_repo_data (Ok 0%Z) (Ok []) (Ok []) (Ok []) (Ok []) (Ok [])
         (Ok [pr_by "bob" 1; pr_by "bob" 2]) (Raise GithubException)
     else
       mk_repo_data (Ok 0%Z) (Ok []) (Ok []) (Ok []) (Ok []) (Ok [])
         (Ok [mk_pull_request 3 None; pr_by "bob" 4]) (Ok []))
    (fun _ => Ok [mk_review "APPROVED"]).

(** What a reader recomputes from the reported (rounded) sub-scores with
    the documented weights (spec section 8). *)
Definition recomputed_overall (s : CollaborationScore) : Q :=
  py_round (overall s.(metrics)) 1.

(** ** Loop invariant *)

Local Close Scope Q_scope.

Local Open Scope Z_scope.

Definition counters_ok (st : ScoreState) : Prop :=
  0 <= st.(total_issues) /\ 0 <= st.(forked_repos) /\ 0 <= st.(contributed_repos) /\
  0 <= st.(pr_review_participation) <= st.(total_prs) /\
  0 <= st.(collaborative_projects) /\ 0 <= st.(repos_forked_by_others).

Section Proofs.
Context `{GithubApi}.

Lemma reviewed_prs_bounds pulls :
  0 <= reviewed_prs (take MAX_PULLS pulls) <= Z.of_nat (length (take MAX_PULLS pulls)).
Proof.
  unfold reviewed_prs. split; [apply sum_by_01; intros; repeat case_match; lia|].
  etrans; [apply sum_by_01; intros; repeat case_match; lia|].
  apply inj_le, sublist_length, sublist_take.
Qed.

Ltac step_ok := intros; repeat match goal with
  | |- context [match ?x with _ => _ end] => destruct x eqn:?
  | |- context [if ?b then _ else _] => destruct b eqn:?
  end; unfold counters_ok in *; simpl in *; destruct_and?; split_and?; lia.

Lemma count_fork_ok r st : counters_ok st -> counters_ok (count_fork r st).
Proof. unfold count_fork. step_ok. Qed.

Lemma count_forked_by_others_ok r st : counters_ok st -> counters_ok (count_forked_by_others r st).
Proof. unfold count_forked_by_others. step_ok. Qed.

Lemma count_people_ok u r st : counters_ok st -> counters_ok (count_people u r st).
Proof. unfold count_people. step_ok. Qed.

Lemma count_team_project_ok u r st : counters_ok st -> counters_ok (count_team_project u r st).
Proof. unfold count_team_project. step_ok. Qed.

Lemma count_issues_prs_ok r st : counters_ok st -> counters_ok (count_issues_prs r st).
Proof.
  unfold count_issues_prs. intros Hst.
  destruct (get_issues r) as [issues|]; [|done].
  destruct (get_pulls r) as [pulls|]; [pose proof (reviewed_prs_bounds pulls)|];
    unfold counters_ok in *; simpl; destruct_and?; split_and?; lia.
Qed.

Lemma score_repo_ok u st r : counters_ok st -> counters_ok (score_repo u st r).
Proof.
  intros. unfold score_repo.
  apply count_issues_prs_ok, count_team_project_ok, count_people_ok, count_forked_by_others_ok,
    count_fork_ok. done.
Qed.

Lemma score_loop_ok u repos : counters_ok (score_loop u repos).
Proof.
  unfold score_loop. assert (H0 : counters_ok init_state) by (unfold counters_ok; simpl; lia).
  revert H0. generalize init_state. induction (analyzed_repos repos); simpl; auto using score_repo_ok.
Qed.

Local Open Scope Q_scope.

Lemma min100_div_bounds x y c :
  (0 <= x)%Z -> (0 < y)%Z -> 0 <= c -> 0 <= min100 (div_z x y * c) <= 100.
Proof.
  intros Hx Hy Hc. apply min100_bounds. apply Qmult_le_0_compat; [|done].
  by apply div_z_nonneg.
Qed.

Lemma compute_metrics_in_range a n st :
  counters_ok st -> metrics_in_range (compute_metrics a n st).
Proof.
  intros Hst. unfold counters_ok in Hst. destruct_and!. unfold compute_metrics, metrics_in_range. simpl.
  refine (conj _ (conj _ (conj _ (conj _ (conj _ (conj _ _))))));
    try (apply min100_div_bounds; [lia|apply max1_pos|discriminate]).
  destruct (0 <? total_prs st)%Z; [apply min100_div_bounds; [lia|apply max1_pos|discriminate]|].
  split; [apply Qle_refl|discriminate].
Qed.

Lemma overall_in_range m : metrics_in_range m -> 0 <= overall m <= 100.
Proof. unfold metrics_in_range, overall. intros. destruct_and!. split; lra. Qed.

Lemma py_round_in_range q : 0 <= q <= 100 -> 0 <= py_round q 1 <= 100.
Proof. apply (py_round_between 0 100). Qed.

Lemma round_metrics_in_range m : metrics_in_range m -> metrics_in_range (round_metrics m).
Proof. unfold metrics_in_range, round_metrics. simpl. intros. destruct_and!. split_and!; by apply py_round_in_range. Qed.

Lemma collaboration_score_in_range user repos :
  let s := _calculate_collaboration_score user repos in
  let st := score_loop user.(u_login) repos in
  let analyzed := analyzed_repos repos in
  let m := compute_metrics (Z.of_nat (length analyzed))
             (Z.of_nat (length (List.filter (fun r => negb r.(r_fork)) analyzed))) st in
  0 <= overall m <= 100 /\ 0 <= s.(overall_score) <= 100 /\ metrics_in_range s.(metrics).
Proof.
  unfold _calculate_collaboration_score. cbv zeta. cbn [overall_score metrics].
  pose proof (compute_metrics_in_range (Z.of_nat (length (analyzed_repos repos)))
    (Z.of_nat (length (List.filter (fun r => negb r.(r_fork)) (analyzed_repos repos))))
    _ (score_loop_ok user.(u_login) repos)) as Hm.
  refine (conj _ (conj _ _)); [by apply overall_in_range|by apply py_round_in_range, overall_in_range|].
  by apply round_metrics_in_range.
Qed.

(** C6: every reported sub-score and the reported overall score lie in
    [0, 100], as does the unrounded overall score the level is computed
    from. *)
Theorem collaboration_score_bounds user repos :
  let s := _calculate_collaboration_score user repos in
  let st := score_loop user.(u_login) repos in
  let analyzed := analyzed_repos repos in
  let m := compute_metrics (Z.of_nat (length analyzed))
             (Z.of_nat (length (List.filter (fun r => negb r.(r_fork)) analyzed))) st in
  0 <= overall m <= 100 /\ 0 <= s.(overall_score) <= 100 /\ metrics_in_range s.(metrics).
Proof. exact (collaboration_score_in_range user repos). Qed.

Local Close Scope Q_scope.

(** C28: a failing issue listing also drops the pull-request and review
    signals of that repository: the three counters share one [try]. *)
Theorem issues_failure_drops_pr_signal u st r e :
  get_issues r = Raise e ->
  (score_repo u st r).(total_prs) = st.(total_prs) /\
  (score_repo u st r).(pr_review_participation) = st.(pr_review_participation) /\
  (score_repo u st r).(total_issues) = st.(total_issues).
Proof.
  intros He. unfold score_repo, count_issues_prs. rewrite He.
  unfold count_team_project, count_people, count_forked_by_others, count_fork.
  repeat case_match; simpl; auto.
Qed.


(** C27: the reported review count never exceeds the reported pull-request
    count, so the code-review ratio is at most 1 before the clamp. *)
Theorem review_count_le_prs user repos :
  let st := (_calculate_collaboration_score user repos).(stats) in
  (0 <= st.(pr_review_participation) <= st.(total_prs))%Z.
Proof. simpl. pose proof (score_loop_ok user.(u_login) repos). unfold counters_ok in *. tauto. Qed.

End Proofs.

Local Open Scope Q_scope.

(** The spec's example: three repositories and no activity at all
    give the overall score 0.0, "Independent Developer" and the team fit
    "Independent". *)
Theorem quiet_profile_score :
  let s := @_calculate_collaboration_score quiet_api score_user quiet_repos in
  s.(overall_score) == 0 /\ s.(level) = "Independent Developer" /\ s.(fit) = "Independent".
Proof. vm_compute. split_and!; reflexivity. Qed.

(** The level is decided on the unrounded score: on the busy fixture
    the reported overall score is 75.0 but the level is "Strong
    Collaborator" (the unrounded score is 74.9655...). *)
Theorem level_uses_unrounded_score :
  let s := @_calculate_collaboration_score busy_api score_user busy_repos in
  s.(overall_score) == 75 /\ s.(level) = "Strong Collaborator" /\
  overall (compute_metrics 3 2 (@score_loop busy_api "alice" busy_repos)) < 75.
Proof. vm_compute. split_and!; reflexivity. Qed.

(** Recomputing the overall score from the reported sub-scores with
    the documented weights does not always give the reported value: on the
    mixed fixture the report says 21.4 and the recomputation 21.5. *)
Theorem recomputed_overall_differs :
  let s := @_calculate_collaboration_score mixed_api score_user mixed_repos in
  s.(overall_score) == 214 # 10 /\ recomputed_overall s == 215 # 10.
Proof. vm_compute. split; reflexivity. Qed.

(** [network_size] counts a person who is both a collaborator and a
    contributor twice: on the busy fixture 5 distinct people give the
    count 9 (and the sub-score 90.0 instead of 50.0). *)
Theorem network_counts_people_twice :
  let st := @score_loop busy_api "alice" busy_repos in
  (size st.(all_collaborators_set) + size st.(all_contributors_set) = 9)%nat /\
  size (st.(all_collaborators_set) ∪ st.(all_contributors_set)) = 5%nat /\
  (@_calculate_collaboration_score busy_api score_user busy_repos).(metrics).(network_size) == 90.
Proof. vm_compute. split_and!; reflexivity. Qed.

(** Witness of C28 on [flaky_repo]: its two pull requests are lost. *)
Lemma issues_failure_drops_pr_signal_witness :
  @get_issues flaky_api flaky_repo = Raise GithubException /\
  (@score_repo flaky_api "alice" init_state flaky_repo).(total_prs) = init_state.(total_prs) /\
  (@get_pulls flaky_api flaky_repo = Ok [pr_by "bob" 1; pr_by "bob" 2]).
Proof.
  split_and!; [reflexivity| |reflexivity].
  apply (@issues_failure_drops_pr_signal flaky_api "alice" init_state flaky_repo GithubException).
  reflexivity.
Defined.


End CollabScore.
