(* ===== verification/StarTimeline.v ===== *)
(** * Star timeline ([GitHubAnalyzer._get_star_timeline])

    [src/backend/github_analyzer.py], lines 194-232.  Repositories with a
    creation date and at least one star are sorted by creation date; a
    running total of their stars is written into the dict [month_stars]
    under the month of each repository ([month_stars[month_key] =
    cumulative], an overwrite); the month keys are sorted and the last 12
    kept.

    The main theorem, [timeline_entry_stars], characterises every entry:
    its value is the total of the stars of all qualifying repositories
    created in that month or before.  The overwrite therefore never loses
    stars (the spec's section 9 fears it might), and the timeline is
    increasing ([timeline_increasing]). *)

From S2P Require Import Prelude PyDict DateTime GitHub.
From stdpp Require Import strings sorting.
Import ListNotations.

Module StarTimeline.

(** An item of [repo_data]: [{'date': repo.created_at, 'stars': ...}]. *)
Record StarPoint := mk_star_point { sp_date : datetime; sp_stars : Z }.

(** An item of the result: [{"month": "YYYY-MM", "stars": ...}]; the
    month is kept as (year, month). *)
Record TimelineEntry := mk_timeline_entry { te_month : Z * Z; te_stars : Z }.

Definition MAX_MONTHS : nat := 12.

(** Lines 199-205. *)
Definition repo_data (repos : list Repository) : list StarPoint :=
  flat_map (fun r => match r.(r_created_at) with
                     | Some d => if (0 <? r.(r_stargazers_count))%Z then [mk_star_point d r.(r_stargazers_count)]
                                 else []
                     | None => []
                     end) repos.

(** Line 211: [repo_data.sort(key=lambda x: x['date'])] (stable). *)
Definition sort_by_date (data : list StarPoint) : list StarPoint :=
  sort_stable (key_before sp_date dt_ltb) data.

(** Lines 214-220: the loop; the state is [(month_stars, cumulative)]. *)
Definition month_step (st : dict (Z * Z) Z * Z) (item : StarPoint) : dict (Z * Z) Z * Z :=
  let '(month_stars, cumulative) := st in
  let cumulative := (cumulative + item.(sp_stars))%Z in
  (dict_set (month_key item.(sp_date)) cumulative month_stars, cumulative).

Definition month_totals (data : list StarPoint) : dict (Z * Z) Z * Z :=
  fold_left month_step data ([], 0%Z).

(** Line 223: [sorted(month_stars.keys())]. *)
Definition sorted_months (month_stars : dict (Z * Z) Z) : list (Z * Z) :=
  sort_stable month_key_ltb (dict_keys month_stars).

(** Line 224: [sorted_months[-12:] if len(sorted_months) > 12 else sorted_months]. *)
Definition recent_months (months : list (Z * Z)) : list (Z * Z) :=
  if (MAX_MONTHS <? length months)%nat then drop (length months - MAX_MONTHS) months else months.

(** Lines 194-232. *)
Definition _get_star_timeline (repos : list Repository) : list TimelineEntry :=
  let data := repo_data repos in
  match data with
  | [] => []
  | _ =>
      let month_stars := (month_totals (sort_by_date data)).1 in
      map (fun m => mk_timeline_entry m (default 0%Z (dict_get m month_stars)))
          (recent_months (sorted_months month_stars))
  end.

(** ** Specification *)

Definition month_leb (a b : Z * Z) : bool := (a.1 <? b.1)%Z || ((a.1 =? b.1)%Z && (a.2 <=? b.2)%Z).

(** The stars of the repositories created in month [m] or earlier. *)
Definition stars_through (m : Z * Z) (data : list StarPoint) : Z :=
  sum_by sp_stars (List.filter (fun x => month_leb (month_key x.(sp_date)) m) data).

Definition month_order (x y : StarPoint) : Prop := month_le (month_key x.(sp_date)) (month_key y.(sp_date)).

(** The spec's example (section 8): 100 and 50 stars created in
    January 2023, 10 stars in March 2023. *)
Definition on_day (y m d : Z) : datetime := mk_datetime y m d 12 0 0 0.

Definition starred_repo (name : string) (stars : Z) (created : datetime) : Repository :=
  mk_repository "alice" name name name None None false stars 0 stars 0 None (Some created) None.

Definition spec_example_repos : list Repository :=
  [starred_repo "r1" 100 (on_day 2023 1 5); starred_repo "r2" 50 (on_day 2023 1 20);
   starred_repo "r3" 10 (on_day 2023 3 2)].

(** The loop invariant of lines 217-220, for a month-sorted prefix [P]:
    [cumulative] is the total so far, every stored month holds the total of
    the stars up to that month, and every stored month is the month of an
    item of [P]. *)
Definition totals_inv (P : list StarPoint) (st : dict (Z * Z) Z * Z) : Prop :=
  st.2 = sum_by sp_stars P /\
  (forall m v, dict_get m st.1 = Some v -> v = stars_through m P) /\
  (forall m, is_Some (dict_get m st.1) -> exists y, y ∈ P /\ month_key y.(sp_date) = m).

(** ** Lemmas *)

Lemma month_leb_spec a b : month_leb a b = true <-> month_le a b.
Proof. unfold month_leb, month_le. rewrite orb_true_iff, andb_true_iff, Z.ltb_lt, Z.eqb_eq, Z.leb_le. done. Qed.

Lemma sort_by_date_perm data : sort_by_date data ≡ₚ data.
Proof. apply sort_stable_perm. Qed.

Lemma sort_by_date_sorted data : StronglySorted month_order (sort_by_date data).
Proof.
  apply Sorted_StronglySorted; [intros x y z; apply month_le_trans|].
  eapply Sorted_weaken; [|apply sort_stable_sorted; intros ??; apply dt_ltb_asym].
  intros x y. apply dt_not_after_month.
Qed.

Lemma stars_through_snoc m P x :
  stars_through m (P ++ [x])
  = (stars_through m P + if month_leb (month_key x.(sp_date)) m then x.(sp_stars) else 0)%Z.
Proof.
  unfold stars_through. rewrite List.filter_app, sum_by_app. simpl.
  destruct (month_leb _ _); simpl; lia.
Qed.

Lemma month_totals_inv P : StronglySorted month_order P -> totals_inv P (month_totals P).
Proof.
  induction P as [|x P IH] using rev_ind; intros Hs.
  - split_and!; [done|done|]. intros m [v Hv]. done.
  - pose proof (StronglySorted_app_1_l _ _ _ Hs) as HsP.
    assert (Hx : forall y, y ∈ P -> month_order y x).
    { intros y Hy. eapply (StronglySorted_app_1_elem_of _ P [x]); [done|done|by left]. }
    destruct (IH HsP) as (Hcum & Hval & Hkeys).
    unfold month_totals in *. rewrite fold_left_app. simpl.
    destruct (fold_left month_step P ([], 0%Z)) as [ms cum] eqn:E. unfold totals_inv. cbn [fst snd month_step] in *.
    split_and!.
    + rewrite sum_by_app. simpl. lia.
    + intros m v Hv. rewrite stars_through_snoc.
      destruct (decide (month_key (sp_date x) = m)) as [<-|Hne].
      * rewrite dict_get_set_eq in Hv. injection Hv as <-.
        assert (Hall : stars_through (month_key (sp_date x)) P = sum_by sp_stars P).
        { unfold stars_through. f_equal. apply List.forallb_filter_id, forallb_forall.
          intros y Hy. apply month_leb_spec, Hx, list_elem_of_In, Hy. }
        rewrite (proj2 (month_leb_spec _ _)) by (unfold month_le; lia). lia.
      * rewrite dict_get_set_ne in Hv by done.
        rewrite (Hval m v Hv). destruct (month_leb _ m) eqn:Hle; [|lia]. exfalso.
        destruct (Hkeys m) as (y & Hy & <-); [by eexists|].
        apply month_leb_spec in Hle. specialize (Hx y Hy). unfold month_order, month_le in *.
        destruct (month_key (sp_date x)), (month_key (sp_date y)). simpl in *.
        apply Hne. f_equal; lia.
    + intros m Hm. destruct (decide (month_key (sp_date x) = m)) as [<-|Hne].
      * exists x. split; [apply elem_of_app; right; by left|done].
      * rewrite dict_get_set_ne in Hm by done. destruct (Hkeys m Hm) as (y & Hy & Hym).
        exists y. split; [apply elem_of_app; by left|done].
Qed.

Lemma month_totals_wf P : dict_wf (month_totals P).1.
Proof.
  unfold month_totals. assert (H0 : dict_wf ([] : dict (Z * Z) Z)) by constructor.
  revert H0. generalize (@nil ((Z * Z) * Z)), 0%Z.
  induction P as [|x P IH]; intros cum d Hd; simpl; [done|]. apply IH. by apply dict_set_wf.
Qed.

(** Every month the source reads back holds the stars through that month. *)
Lemma month_stars_value repos m :
  let ms := (month_totals (sort_by_date (repo_data repos))).1 in
  m ∈ dict_keys ms -> default 0%Z (dict_get m ms) = stars_through m (repo_data repos).
Proof.
  intros ms Hm. apply dict_get_elem_of in Hm as [v Hv]. rewrite Hv. simpl.
  destruct (month_totals_inv _ (sort_by_date_sorted (repo_data repos))) as (_ & Hval & _).
  rewrite (Hval m v Hv). apply sum_by_filter_perm, sort_by_date_perm.
Qed.

Lemma recent_months_sublist l : recent_months l `sublist_of` l.
Proof. unfold recent_months. destruct (_ <? _)%nat; [apply sublist_drop|done]. Qed.

Lemma sorted_months_sorted ms :
  dict_wf ms -> Sorted (fun a b => month_le a b /\ a <> b) (sorted_months ms).
Proof.
  intros Hwf. apply Sorted_NoDup_strict.
  - eapply Sorted_weaken; [|apply sort_stable_sorted].
    + unfold may_precede. intros a b Hba. destruct (decide (a = b)) as [->|Hne].
      * unfold month_le. lia.
      * unfold month_le. destruct (Z.lt_total a.1 b.1) as [|[Heq|Hlt]]; [by left| |].
        -- destruct (Z.lt_total a.2 b.2) as [|[|]]; [right; split; [done|lia]|..].
           ++ exfalso. apply Hne. destruct a, b; simpl in *; congruence.
           ++ exfalso. enough (month_key_ltb b a = true) by congruence.
              apply month_key_ltb_spec. split; [unfold month_le; lia|congruence].
        -- exfalso. enough (month_key_ltb b a = true) by congruence.
           apply month_key_ltb_spec. split; [unfold month_le; lia|intros ->; lia].
    + intros a b Hab. apply month_key_ltb_spec in Hab as [Hle Hne].
      destruct (month_key_ltb b a) eqn:E; [|done]. apply month_key_ltb_spec in E as [Hle' _].
      exfalso. apply Hne. destruct a, b; unfold month_le in *; simpl in *. f_equal; lia.
  - unfold sorted_months. rewrite sort_stable_perm. exact Hwf.
Qed.

(** The functional characterisation of [_get_star_timeline]: the trailing
    months of the sorted month keys, each paired with the stars through it. *)
Lemma star_timeline_spec repos :
  _get_star_timeline repos =
  map (fun m => mk_timeline_entry m (stars_through m (repo_data repos)))
      (match repo_data repos with
       | [] => []
       | _ => recent_months (sorted_months (month_totals (sort_by_date (repo_data repos))).1)
       end).
Proof.
  unfold _get_star_timeline. destruct (repo_data repos) as [|d ds] eqn:Hd; [done|].
  rewrite <- Hd. apply map_ext_in. intros m Hm. f_equal. apply month_stars_value.
  apply list_elem_of_In in Hm. eapply elem_of_sublist in Hm; [|apply recent_months_sublist].
  unfold sorted_months in Hm. by rewrite sort_stable_perm in Hm.
Qed.

Lemma Sorted_drop_or_self (R : Z * Z -> Z * Z -> Prop) l : Sorted R l -> Sorted R (recent_months l).
Proof. unfold recent_months. destruct (_ <? _)%nat; [apply Sorted_drop|done]. Qed.

Lemma length_recent_months l : (length (recent_months l) <= MAX_MONTHS)%nat \/ recent_months l = l /\ (length l <= MAX_MONTHS)%nat.
Proof.
  unfold recent_months. destruct (Nat.ltb_spec MAX_MONTHS (length l)); [left|right; split; [done|lia]].
  rewrite length_drop. lia.
Qed.

Lemma repo_data_pos repos x : In x (repo_data repos) -> (0 < x.(sp_stars))%Z.
Proof.
  unfold repo_data. intros (r & _ & Hx)%in_flat_map.
  destruct (r_created_at r); [|done]. destruct (0 <? _)%Z eqn:Hs; [|done].
  destruct Hx as [<-|[]]. simpl. by apply Z.ltb_lt.
Qed.

Lemma stars_through_mono data m1 m2 :
  (forall x, In x data -> (0 <= x.(sp_stars))%Z) -> month_le m1 m2 ->
  (stars_through m1 data <= stars_through m2 data)%Z.
Proof.
  intros Hpos Hle. apply sum_by_filter_mono; [done|].
  intros x Hx. apply month_leb_spec. apply month_leb_spec in Hx. eapply month_le_trans; eauto.
Qed.

(** ** Properties of [_get_star_timeline] *)

(** C7: every entry of the timeline holds the total stars of the
    qualifying repositories (created, with at least one star) created in
    its month or before: overwriting [month_stars[month]] loses nothing. *)
Theorem timeline_entry_stars repos e :
  e ∈ _get_star_timeline repos -> e.(te_stars) = stars_through e.(te_month) (repo_data repos).
Proof. rewrite star_timeline_spec. intros (m & -> & _)%list_elem_of_fmap. done. Qed.

Lemma star_timeline_sorted repos :
  (length (_get_star_timeline repos) <= MAX_MONTHS)%nat /\
  Sorted (fun a b => month_le a.(te_month) b.(te_month) /\ a.(te_month) <> b.(te_month) /\
                     (a.(te_stars) <= b.(te_stars))%Z) (_get_star_timeline repos).
Proof.
  rewrite star_timeline_spec. rewrite length_map. destruct (repo_data repos) as [|d ds] eqn:Hd.
  { split; [simpl; lia|constructor]. }
  rewrite <- Hd. split.
  - destruct (length_recent_months (sorted_months (month_totals (sort_by_date (repo_data repos))).1))
      as [|[-> Hl]]; done.
  - apply Sorted_map. simpl.
    eapply Sorted_weaken; [|apply Sorted_drop_or_self, sorted_months_sorted, month_totals_wf].
    intros a b [Hle Hne]. split_and!; [done|done|].
    apply stars_through_mono; [intros x Hx; apply Z.lt_le_incl, (repo_data_pos repos), Hx|done].
Qed.

(** C8: the timeline has at most 12 entries, its months are strictly
    increasing and its star counts are non-decreasing. *)
Theorem timeline_increasing repos :
  (length (_get_star_timeline repos) <= MAX_MONTHS)%nat /\
  Sorted (fun a b => month_le a.(te_month) b.(te_month) /\ a.(te_month) <> b.(te_month) /\
                     (a.(te_stars) <= b.(te_stars))%Z) (_get_star_timeline repos).
Proof. exact (star_timeline_sorted repos). Qed.

(** The spec's example: [100@2023-01, 50@2023-01, 10@2023-03] gives
    [[("2023-01", 150), ("2023-03", 160)]]. *)
Theorem spec_example_timeline :
  _get_star_timeline spec_example_repos =
  [mk_timeline_entry (2023, 1)%Z 150; mk_timeline_entry (2023, 3)%Z 160].
Proof. vm_compute. reflexivity. Qed.

(** Witness of C7: the March entry of the spec's example holds 160 stars. *)
Lemma timeline_entry_stars_witness :
  (mk_timeline_entry (2023, 3)%Z 160%Z) ∈ _get_star_timeline spec_example_repos /\
  stars_through (2023, 3)%Z (repo_data spec_example_repos) = 160%Z.
Proof.
  assert (Hin : (mk_timeline_entry (2023, 3)%Z 160%Z) ∈ _get_star_timeline spec_example_repos)
    by (vm_compute; right; left).
  split; [exact Hin|]. symmetry. exact (timeline_entry_stars spec_example_repos _ Hin).
Defined.

End StarTimeline.
