(* ===== verification/Activity.v ===== *)
(** * Activity: most active day, streak, contribution summary

    [src/backend/github_analyzer.py], lines 174-272:
    [_get_contribution_summary] (174-192), [_get_most_active_day]
    (234-250) and [_estimate_streak] (252-272).  The current time [now]
    is a parameter (the source calls [datetime.now(timezone.utc)]). *)

From S2P Require Import Prelude PyDict DateTime Calendar GitHub StarTimeline.
From stdpp Require Import strings.
Import ListNotations.

Module Activity.

Import StarTimeline.

Definition MAX_DAY_REPOS : nat := 50.
Definition MAX_DAY_COMMITS : nat := 100.
Definition MAX_STREAK_REPOS : nat := 30.

(** Lines 241-244: [for commit in commits: if commit.commit.author.date:
    day_counter[strftime("%A")] += 1].  A commit without author raises
    [AttributeError]: the [try] is left and the remaining commits of that
    repository are not counted (those already counted stay). *)
Fixpoint tally_commits (commits : list Commit) (c : counter (K:=string)) : counter :=
  match commits with
  | [] => c
  | cm :: rest =>
      match cm.(cm_author_date) with
      | None => c
      | Some None => tally_commits rest c
      | Some (Some d) => tally_commits rest (counter_add (weekday_name d) 1 c)
      end
  end.

(** Lines 239-246: one repository; a failing listing is skipped. *)
Definition tally_repo `{GithubApi} (c : counter (K:=string)) (r : Repository) : counter :=
  match get_commits r with
  | Ok commits => tally_commits (take MAX_DAY_COMMITS commits) c
  | Raise _ => c
  end.

Definition day_counter `{GithubApi} (repos : list Repository) : counter (K:=string) :=
  fold_left tally_repo (take MAX_DAY_REPOS repos) [].

(** Lines 234-250. *)
Definition _get_most_active_day `{GithubApi} (repos : list Repository) : string :=
  let c := day_counter repos in
  if bool_decide (c <> []) then
    match most_common 1 c with (day, _) :: _ => day | [] => "Unknown" end
  else "Unknown".

(** Line 258: [key=lambda r: r.updated_at or datetime.min...], [reverse=True]. *)
Definition updated_key (r : Repository) : datetime := default datetime_min r.(r_updated_at).

Definition sort_by_updated_desc (repos : list Repository) : list Repository :=
  sort_stable (key_before updated_key (fun a b => dt_ltb b a)) repos.

(** Lines 263-270: the walk; a repository without [updated_at] is passed
    over, the first gap of more than one [.days] stops the walk. *)
Fixpoint streak_walk (current_date : datetime) (rs : list Repository) : Z :=
  match rs with
  | [] => 0
  | r :: rs =>
      match r.(r_updated_at) with
      | None => streak_walk current_date rs
      | Some u => if (dt_sub_days current_date u <=? 1)%Z then (1 + streak_walk u rs)%Z else 0%Z
      end
  end.

(** Lines 252-272. *)
Definition _estimate_streak (repos : list Repository) (now : datetime) : Z :=
  match repos with
  | [] => 0
  | _ => streak_walk now (take MAX_STREAK_REPOS (sort_by_updated_desc repos))
  end.

Record ContributionSummary := mk_contribution_summary {
  repos_updated_last_month : Z;
  repos_updated_last_year : Z;
  star_timeline : list TimelineEntry;
  most_active_day : string;
  contribution_streak : Z
}.

(** [r.updated_at and r.updated_at > bound] *)
Definition updated_after (bound : datetime) (r : Repository) : bool :=
  match r.(r_updated_at) with Some u => dt_ltb bound u | None => false end.

(** Lines 174-192; [now - timedelta(days=...)] raises [OverflowError]
    near [datetime.min]. *)
Definition _get_contribution_summary `{GithubApi} (repos : list Repository) (now : datetime)
    : result ContributionSummary :=
  match dt_minus_days now 30 with
  | None => Raise OtherException
  | Some last_month =>
      match dt_minus_days now 365 with
      | None => Raise OtherException
      | Some last_year =>
          Ok (mk_contribution_summary
                (Z.of_nat (length (List.filter (updated_after last_month) repos)))
                (Z.of_nat (length (List.filter (updated_after last_year) repos)))
                (_get_star_timeline repos) (_get_most_active_day repos) (_estimate_streak repos now))
      end
  end.

(** ** Fixtures *)

Definition at_time (y m d h mi : Z) : datetime := mk_datetime y m d h mi 0 0.

Definition updated_repo (name : string) (u : datetime) : Repository :=
  mk_repository "alice" name name name None None false 0 0 0 0 None None (Some u).

(** Three repositories pushed within the same hour. *)
Definition same_hour_repos : list Repository :=
  [updated_repo "r1" (at_time 2025 6 1 9 5); updated_repo "r2" (at_time 2025 6 1 9 20);
   updated_repo "r3" (at_time 2025 6 1 9 40)].

(** Two repositories pushed 47 hours apart. *)
Definition gap_repos : list Repository :=
  [updated_repo "g1" (at_time 2025 6 3 8 0); updated_repo "g2" (at_time 2025 6 1 9 0)].

(** A repository whose second commit has no author: the third commit,
    a Sunday, is never counted. *)
Definition commits_api : GithubApi :=
  fixture_api (Ok (mk_user "alice" None None None None "" 1 0 0 0 None None None None None None)) (Ok [])
    (fun _ => mk_repo_data (Ok 0%Z) (Ok []) (Ok [])
       (Ok [mk_commit (Some (Some (at_time 2025 6 2 10 0)));   (* a Monday *)
            mk_commit None;
            mk_commit (Some (Some (at_time 2025 6 1 10 0)));   (* a Sunday *)
            mk_commit (Some (Some (at_time 2025 6 8 10 0)))])  (* a Sunday *)
       (Ok []) (Ok []) (Ok []) (Ok []))
    (fun _ => Ok []).

Section Proofs.
Context `{GithubApi}.

Lemma streak_walk_bounds c rs : (0 <= streak_walk c rs <= Z.of_nat (length rs))%Z.
Proof.
  revert c. induction rs as [|r rs IH]; intros c; simpl; [lia|].
  destruct (r_updated_at r) as [u|]; [|specialize (IH c); lia].
  destruct (_ <=? 1)%Z; [specialize (IH u)|]; lia.
Qed.

Lemma weekday_name_elem d : weekday_name d ∈ weekday_names.
Proof. unfold weekday_name. repeat case_match; apply list_elem_of_In; simpl; tauto. Qed.

Lemma tally_commits_keys commits c :
  Forall (fun kv => kv.1 ∈ weekday_names) c -> Forall (fun kv => kv.1 ∈ weekday_names) (tally_commits commits c).
Proof.
  revert c. induction commits as [|cm commits IH]; intros c Hc; simpl; [done|].
  repeat case_match; auto. apply IH, dict_set_Forall; [done|apply weekday_name_elem].
Qed.

Lemma day_counter_keys repos : Forall (fun kv => kv.1 ∈ weekday_names) (day_counter repos).
Proof.
  unfold day_counter. assert (Hc : Forall (fun kv : string * Z => kv.1 ∈ weekday_names) []) by constructor.
  revert Hc. generalize (@nil (string * Z)). generalize (take MAX_DAY_REPOS repos) as rs.
  induction rs as [|r rs IH]; intros c Hc; simpl; [done|]. apply IH.
  unfold tally_repo. case_match; [by apply tally_commits_keys|done].
Qed.

Lemma sort_by_updated_desc_length repos : length (sort_by_updated_desc repos) = length repos.
Proof. apply length_sort_stable. Qed.

(** ** Properties *)

(** The streak is never negative and never exceeds the number of
    repositories examined: at most 30, at most the number of
    repositories. *)
Lemma streak_bounds repos now :
  (0 <= _estimate_streak repos now <= Z.of_nat (Nat.min MAX_STREAK_REPOS (length repos)))%Z.
Proof.
  unfold _estimate_streak. destruct repos as [|r rs]; [simpl; lia|].
  pose proof (streak_walk_bounds now (take MAX_STREAK_REPOS (sort_by_updated_desc (r :: rs)))) as Hb.
  rewrite length_take, sort_by_updated_desc_length in Hb. lia.
Qed.

(** C26: the most active day is "Unknown" exactly when no commit date was
    tallied; otherwise it is a weekday name whose tally is the largest. *)
Theorem most_active_day_max repos :
  (day_counter repos = [] /\ _get_most_active_day repos = "Unknown") \/
  (_get_most_active_day repos ∈ weekday_names /\
   exists n, (_get_most_active_day repos, n) ∈ day_counter repos /\
             forall kv, kv ∈ day_counter repos -> (kv.2 <= n)%Z).
Proof.
  unfold _get_most_active_day. set (c := day_counter repos).
  destruct (decide (c = [])) as [E|Hne]; [left; rewrite bool_decide_false; auto|right].
  rewrite bool_decide_true by done.
  destruct (most_common 1 c) as [|[day n] rest] eqn:Hm.
  { apply (f_equal length) in Hm. rewrite length_most_common in Hm. destruct c; simpl in *; [done|lia]. }
  assert (Hin : (day, n) ∈ c) by (apply (most_common_elem 1); rewrite Hm; left).
  split; [|exists n; split; [done|apply (most_common_max c day n); by rewrite Hm]].
  pose proof (day_counter_keys repos) as Hk. rewrite Forall_forall in Hk. apply (Hk _ Hin).
Qed.

(** At a valid time [now], the number of repositories updated in the
    last month never exceeds the number updated in the last year: the two
    bounds [now - 30 days] and [now - 365 days] are computed by CPython's
    ordinal arithmetic, which [Calendar] proves correct. *)
Lemma recent_repos_le_year_repos repos now cs :
  dt_valid_b now = true -> _get_contribution_summary repos now = Ok cs ->
  (repos_updated_last_month cs <= repos_updated_last_year cs)%Z.
Proof.
  intros Hv. unfold _get_contribution_summary.
  destruct (dt_minus_days now 30) as [lm|] eqn:Hm; [|done].
  destruct (dt_minus_days now 365) as [ly|] eqn:Hy; [|done]. intros [= <-]. simpl.
  assert (Hlt : dt_ltb ly lm = true) by (eapply dt_minus_days_lt; [exact Hv|exact Hy|exact Hm|lia]).
  apply Nat2Z.inj_le, filter_length_mono. intros r. unfold updated_after.
  destruct (r_updated_at r); [eauto using dt_ltb_trans|done].
Qed.

End Proofs.

(** The streak counts repositories, not days: three repositories
    pushed within one hour make a streak of 3 (the docstring promises
    "consecutive days"). *)
Theorem streak_counts_repositories :
  _estimate_streak same_hour_repos (at_time 2025 6 1 12 0) = 3%Z.
Proof. vm_compute. reflexivity. Qed.

(** [(current_date - updated).days <= 1] accepts a gap of 47 hours:
    pushes on June 1 and June 3 are counted as consecutive. *)
Theorem streak_accepts_two_day_gap :
  dt_sub_us (at_time 2025 6 3 8 0) (at_time 2025 6 1 9 0) = (47 * 3600 * 1000000)%Z /\
  _estimate_streak gap_repos (at_time 2025 6 3 9 0) = 2%Z.
Proof. vm_compute. split; reflexivity. Qed.

(** A commit without author ends the tally of its repository: the
    two Sunday commits after it are never counted, and Monday wins. *)
Theorem authorless_commit_truncates_tally :
  @day_counter commits_api [updated_repo "c" (at_time 2025 6 9 0 0)] = [("Monday", 1%Z)] /\
  @_get_most_active_day commits_api [updated_repo "c" (at_time 2025 6 9 0 0)] = "Monday".
Proof. vm_compute. split; reflexivity. Qed.

End Activity.
