(* ===== verification/Languages.v ===== *)
(** * Language distribution ([GitHubAnalyzer._get_top_languages])

    [src/backend/github_analyzer.py], lines 120-147.  A [Counter] of bytes
    per language is filled from every repository with a primary language:
    with the repository's language breakdown, or, when that fetch raises,
    1000 nominal bytes for the primary language.  The five most common
    languages are reported with their share of the grand total, rounded to
    two decimals. *)

From S2P Require Import Prelude PyDict PyNum GitHub.
From stdpp Require Import strings.
From Stdlib Require Import QArith Lqa.
Import ListNotations.

Module Languages.

(** An item of the result: [{"name", "bytes", "percentage"}]. *)
Record LanguageStat := mk_language_stat { ls_name : string; ls_bytes : Z; ls_percentage : Q }.

Definition TOP_N : nat := 5.
Definition FALLBACK_BYTES : Z := 1000.

(** [if repo.language:]: [None] and [""] are falsy. *)
Definition primary_language (r : Repository) : option string :=
  match r.(r_language) with
  | Some l => if String.eqb l "" then None else Some l
  | None => None
  end.

(** Lines 125-133: one iteration of [for repo in repos]. *)
Definition add_repo_languages `{GithubApi} (c : counter (K:=string)) (r : Repository) : counter :=
  match primary_language r with
  | None => c
  | Some primary =>
      match get_languages r with
      | Ok langs => fold_left (fun c '(lang, b) => counter_add lang b c) langs c
      | Raise _ => counter_add primary FALLBACK_BYTES c
      end
  end.

Definition language_bytes `{GithubApi} (repos : list Repository) : counter :=
  fold_left add_repo_languages repos [].

(** Lines 139-145: [percentage = (bytes / total * 100) if total > 0 else 0],
    then [round(percentage, 2)]. *)
Definition language_stat (total : Z) (item : string * Z) : LanguageStat :=
  let pct := if (0 <? total)%Z then div_z item.2 total * 100 else 0 in
  mk_language_stat item.1 item.2 (py_round pct 2).

(** Lines 120-147. *)
Definition _get_top_languages `{GithubApi} (repos : list Repository) : list LanguageStat :=
  let c := language_bytes repos in
  let total := sum_by snd c in
  map (language_stat total) (most_common TOP_N c).

(** A fixture: three repositories, one language each, with 4167, 4167
    and 4166 bytes. *)
Definition lang_repo (name lang : string) : Repository :=
  mk_repository "alice" name name name None None false 0 0 0 0 (Some lang) None None.

Definition lang_repos : list Repository :=
  [lang_repo "x" "Go"; lang_repo "y" "Rust"; lang_repo "z" "C"].

Definition lang_api : GithubApi :=
  fixture_api (Ok (mk_user "alice" None None None None "" 3 0 0 0 None None None None None None)) (Ok lang_repos)
    (fun name => mk_repo_data (Ok 0%Z)
       (if String.eqb name "x" then Ok [("Go", 4167%Z)]
        else if String.eqb name "y" then Ok [("Rust", 4167%Z)]
        else Ok [("C", 4166%Z)])
       (Ok []) (Ok []) (Ok []) (Ok []) (Ok []) (Ok []))
    (fun _ => Ok []).

(** A fixture with six languages, one per repository, of decreasing
    size: Lua, the smallest, is not reported. *)
Definition six_lang_repos : list Repository :=
  [lang_repo "1" "Go"; lang_repo "2" "Rust"; lang_repo "3" "C"; lang_repo "4" "Java";
   lang_repo "5" "Ruby"; lang_repo "6" "Lua"].

Definition six_lang_api : GithubApi :=
  fixture_api (Ok (mk_user "alice" None None None None "" 6 0 0 0 None None None None None None)) (Ok six_lang_repos)
    (fun name => mk_repo_data (Ok 0%Z)
       (if String.eqb name "1" then Ok [("Go", 600%Z)] else if String.eqb name "2" then Ok [("Rust", 500%Z)]
        else if String.eqb name "3" then Ok [("C", 400%Z)] else if String.eqb name "4" then Ok [("Java", 300%Z)]
        else if String.eqb name "5" then Ok [("Ruby", 200%Z)] else Ok [("Lua", 100%Z)])
       (Ok []) (Ok []) (Ok []) (Ok []) (Ok []) (Ok []))
    (fun _ => Ok []).

Definition bytes_nonneg `{GithubApi} : Prop :=
  forall r langs, get_languages r = Ok langs -> Forall (fun p => 0 <= p.2)%Z langs.

Section Proofs.
Context `{GithubApi}.

Lemma add_repo_languages_nonneg c r :
  bytes_nonneg -> Forall (fun kv => 0 <= kv.2)%Z c -> Forall (fun kv => 0 <= kv.2)%Z (add_repo_languages c r).
Proof.
  intros Hapi Hc. unfold add_repo_languages.
  destruct (primary_language r); [|done]. destruct (get_languages r) as [langs|] eqn:E.
  - specialize (Hapi r langs E). clear E. revert c Hc. induction Hapi as [|[l b] langs Hb _ IH]; intros c Hc; [done|].
    simpl. apply IH. by apply counter_add_nonneg.
  - apply counter_add_nonneg; [done|]. unfold FALLBACK_BYTES. lia.
Qed.

Lemma language_bytes_nonneg repos : bytes_nonneg -> Forall (fun kv => 0 <= kv.2)%Z (language_bytes repos).
Proof.
  intros Hapi. unfold language_bytes. assert (H0 : Forall (fun kv : string * Z => 0 <= kv.2)%Z []) by constructor.
  revert H0. generalize (@nil (string * Z)). induction repos; simpl; auto using add_repo_languages_nonneg.
Qed.

Lemma item_le_total (c : list (string * Z)) kv :
  Forall (fun kv => 0 <= kv.2)%Z c -> kv ∈ c -> (0 <= kv.2 <= sum_by snd c)%Z.
Proof.
  induction 1 as [|x c Hx Hc IH]; [by intros ?%elem_of_nil|].
  pose proof (sum_by_nonneg snd c Hc). intros [->|Hin]%elem_of_cons; simpl; [lia|].
  specialize (IH Hin). lia.
Qed.

Lemma share_bounds (b t : Z) : (0 <= b <= t)%Z -> (0 < t)%Z -> 0 <= div_z b t * 100 <= 100.
Proof.
  intros Hb Ht. unfold div_z.
  assert (HtQ : 0 < inject_Z t) by (change 0 with (inject_Z 0); by rewrite <- Zlt_Qlt).
  assert (Hb0 : 0 <= inject_Z b) by (change 0 with (inject_Z 0); rewrite <- Zle_Qle; lia).
  assert (Hbt : inject_Z b <= inject_Z t) by (rewrite <- Zle_Qle; lia).
  assert (Hq : 0 <= inject_Z b / inject_Z t <= 1).
  { split; [apply Qle_shift_div_l; lra|apply Qle_shift_div_r; lra]. }
  split; lra.
Qed.

(** ** Properties of [_get_top_languages] *)

(** At most five languages are reported, by non-increasing byte count. *)
Lemma top_languages_bounded_sorted repos :
  (length (_get_top_languages repos) <= TOP_N)%nat /\
  Sorted (fun a b => (b.(ls_bytes) <= a.(ls_bytes))%Z) (_get_top_languages repos).
Proof.
  unfold _get_top_languages. rewrite length_map, length_most_common. split; [lia|].
  apply Sorted_map. simpl. apply most_common_sorted.
Qed.

(** C22: when the API reports no negative byte count, every reported
    percentage lies in [0, 100]: each share is computed against the one
    grand total, which bounds every language's bytes. *)
Theorem top_languages_percent_bounds repos s :
  bytes_nonneg -> s ∈ _get_top_languages repos -> 0 <= s.(ls_percentage) <= 100.
Proof.
  intros Hapi Hs. unfold _get_top_languages in Hs. apply list_elem_of_fmap in Hs as (kv & -> & Hkv).
  apply most_common_elem in Hkv. pose proof (language_bytes_nonneg repos Hapi) as Hnn.
  pose proof (item_le_total _ kv Hnn Hkv) as Hle. unfold language_stat. simpl.
  apply (py_round_between 0 100).
  destruct (Z.ltb_spec 0 (sum_by snd (language_bytes repos))); [by apply share_bounds|].
  change (inject_Z 0) with 0. change (inject_Z 100) with 100. lra.
Qed.

(** C23: [most_common(top_n)] reports the languages with the most bytes: a
    language of the counter that is not reported has at most as many bytes
    as every reported one. *)
Theorem top_languages_maximal repos kv s :
  kv ∈ language_bytes repos -> kv.1 ∉ map ls_name (_get_top_languages repos) ->
  s ∈ _get_top_languages repos -> (kv.2 <= s.(ls_bytes))%Z.
Proof.
  intros Hkv Hn Hs. unfold _get_top_languages, most_common in *.
  apply list_elem_of_fmap in Hs as (kv' & -> & Hkv').
  apply (sorted_desc_take_max snd TOP_N (language_bytes repos) kv kv'); [done| |done].
  intros Hin. apply Hn. apply list_elem_of_fmap. exists (language_stat (sum_by snd (language_bytes repos)) kv).
  split; [done|]. apply list_elem_of_fmap. by exists kv.
Qed.

End Proofs.

(** Witness: Lua's 100 bytes are not reported, and Go, reported first, has more. *)
Lemma top_languages_maximal_witness :
  ("Lua", 100%Z) ∈ @language_bytes six_lang_api six_lang_repos /\
  ("Lua" ∉ map ls_name (@_get_top_languages six_lang_api six_lang_repos)) /\
  exists s, s ∈ @_get_top_languages six_lang_api six_lang_repos /\ ls_name s = "Go" /\ (100 <= s.(ls_bytes))%Z.
Proof.
  assert (Hkv : ("Lua", 100%Z) ∈ @language_bytes six_lang_api six_lang_repos) by (vm_compute; do 5 right; left).
  assert (Hn : "Lua" ∉ map ls_name (@_get_top_languages six_lang_api six_lang_repos)).
  { vm_compute. intros H. repeat (apply elem_of_cons in H as [H|H]; [discriminate H|]). by apply elem_of_nil in H. }
  split_and!; [exact Hkv|exact Hn|].
  assert (Hne : exists s l, @_get_top_languages six_lang_api six_lang_repos = s :: l)
    by (eexists _, _; vm_compute; reflexivity).
  destruct Hne as (s & l & E).
  exists s. assert (Hs : s ∈ @_get_top_languages six_lang_api six_lang_repos) by (rewrite E; left).
  split_and!; [exact Hs|vm_compute in E; by injection E as <- _|].
  exact (@top_languages_maximal six_lang_api six_lang_repos ("Lua", 100%Z) s Hkv Hn Hs).
Defined.

(** Witness of C22 on the fixture. *)
Lemma top_languages_percent_bounds_witness :
  @bytes_nonneg lang_api /\
  (let s := mk_language_stat "Go" 4167 (3334 # 100) in
   s ∈ @_get_top_languages lang_api lang_repos /\ 0 <= s.(ls_percentage) <= 100).
Proof.
  assert (Hapi : @bytes_nonneg lang_api).
  { intros r langs Hl. simpl in Hl. repeat case_match; simplify_eq; repeat constructor; simpl; lia. }
  split; [exact Hapi|]. simpl.
  assert (Hin : mk_language_stat "Go" 4167 (3334 # 100) ∈ @_get_top_languages lang_api lang_repos)
    by (vm_compute; left).
  split; [exact Hin|]. exact (@top_languages_percent_bounds lang_api lang_repos _ Hapi Hin).
Defined.

(** The reported percentages can add up to more than 100: on the
    fixture they are 33.34, 33.34 and 33.33 (rounding each share up or down
    to two decimals). *)
Theorem percentages_sum_over_100 :
  map ls_percentage (@_get_top_languages lang_api lang_repos) = [3334 # 100; 3334 # 100; 3333 # 100] /\
  fold_right Qplus 0 (map ls_percentage (@_get_top_languages lang_api lang_repos)) == 10001 # 100.
Proof. vm_compute. split; reflexivity. Qed.

End Languages.
