(* ===== verification/Summary.v ===== *)
(** * Narrative summary ([GitHubAnalyzer._generate_ai_summary])

    [src/backend/github_analyzer.py], lines 274-312.  A templated paragraph:
    the developer type is chosen from the names of the first three
    reported languages by an [if/elif] chain, then the name, counts and
    languages are formatted, with optional bio, company and location
    sentences.  Python's [str(int)] is stdpp's [pretty] on [Z]. *)

From S2P Require Import Prelude GitHub Languages.
From stdpp Require Import strings pretty.
Import ListNotations.

Module Summary.

Import Languages.

Definition FULL_STACK_LANGS : list string := ["Python"; "JavaScript"; "TypeScript"].
Definition FRONTEND_LANGS : list string := ["JavaScript"; "TypeScript"; "React"].

Definition in_list (x : string) (l : list string) : bool := existsb (String.eqb x) l.

(** Lines 286-293. *)
Definition developer_type (primary_languages : list string) : string :=
  if existsb (fun lang => in_list lang FULL_STACK_LANGS) primary_languages then "full-stack developer"
  else if in_list "Python" primary_languages then "Python developer"
  else if existsb (fun lang => in_list lang FRONTEND_LANGS) primary_languages then "frontend developer"
  else "software developer".

(** [if s:] on an optional string attribute. *)
Definition truthy (o : option string) : option string :=
  match o with Some s => if String.eqb s "" then None else Some s | None => None end.

Definition optional_sentence (o : option string) (before after : string) : string :=
  match truthy o with Some s => before +:+ s +:+ after | None => "" end.

(** Lines 274-312. *)
Definition _generate_ai_summary (user : User) (repos : list Repository) (top_languages : list LanguageStat)
    : string :=
  let name := str_or user.(u_name) user.(u_login) in
  let total_repos := Z.of_nat (length repos) in
  let total_stars := sum_by r_stargazers_count repos in
  let primary_languages := map ls_name (take 3 top_languages) in
  let lang_str := match primary_languages with
                  | [] => "various technologies"
                  | _ => String.concat ", " primary_languages
                  end in
  let dev_type := developer_type primary_languages in
  name +:+ " is a passionate " +:+ dev_type +:+ " with " +:+ pretty total_repos +:+ " public repositories "
  +:+ "and " +:+ pretty total_stars +:+ " total stars across their projects. "
  +:+ "They specialize in " +:+ lang_str +:+ ", "
  +:+ "demonstrating expertise through diverse open-source contributions. "
  +:+ optional_sentence user.(u_bio) "" " "
  +:+ optional_sentence user.(u_company) "Currently working at " ". "
  +:+ optional_sentence user.(u_location) "Based in " ". "
  +:+ "Actively contributing to the developer community.".

Lemma in_list_spec x l : in_list x l = true <-> x ∈ l.
Proof.
  unfold in_list. rewrite existsb_exists, list_elem_of_In.
  split; [intros (y & Hy & ->%String.eqb_eq); done|intros Hx; exists x; split; [done|apply String.eqb_refl]].
Qed.

(** The "Python developer" branch is dead: a list of languages with
    "Python" in it already takes the "full-stack developer" branch. *)
Theorem python_developer_unreachable primary_languages :
  developer_type primary_languages <> "Python developer".
Proof.
  unfold developer_type. destruct (existsb _ primary_languages) eqn:Hfs; [done|].
  destruct (in_list "Python" primary_languages) eqn:Hpy.
  - exfalso. apply in_list_spec in Hpy. apply list_elem_of_In in Hpy.
    assert (Htrue : existsb (fun lang => in_list lang FULL_STACK_LANGS) primary_languages = true).
    { apply existsb_exists. exists "Python"%string. split; [done|reflexivity]. }
    congruence.
  - repeat case_match; done.
Qed.

(** The frontend type is chosen exactly when "React" is among the
    first three languages and none of Python, JavaScript, TypeScript is. *)
Theorem frontend_iff_react_only primary_languages :
  developer_type primary_languages = "frontend developer" <->
  "React" ∈ primary_languages /\ Forall (fun l => l ∉ FULL_STACK_LANGS) primary_languages.
Proof.
  unfold developer_type. rewrite Forall_forall.
  destruct (existsb (fun lang => in_list lang FULL_STACK_LANGS) primary_languages) eqn:Hfs.
  - split; [done|]. intros [_ Hall]. apply existsb_exists in Hfs as (l & Hl & Hin).
    apply in_list_spec in Hin. exfalso. apply (Hall l); [by apply list_elem_of_In|done].
  - assert (Hall : forall l, l ∈ primary_languages -> l ∉ FULL_STACK_LANGS).
    { intros l Hl Hin. apply list_elem_of_In in Hl.
      assert (existsb (fun lang => in_list lang FULL_STACK_LANGS) primary_languages = true) by
        (apply existsb_exists; exists l; split; [done|by apply in_list_spec]). congruence. }
    destruct (in_list "Python" primary_languages) eqn:Hpy.
    { exfalso. apply in_list_spec in Hpy. apply (Hall _ Hpy). by left. }
    destruct (existsb (fun lang => in_list lang FRONTEND_LANGS) primary_languages) eqn:Hfe.
    + split; [intros _|done]. split; [|done].
      apply existsb_exists in Hfe as (l & Hl & Hin). apply in_list_spec in Hin.
      apply list_elem_of_In in Hl. specialize (Hall l Hl).
      repeat (apply elem_of_cons in Hin as [->|Hin]); [..|by apply elem_of_nil in Hin];
        [exfalso; apply Hall; apply in_list_spec; reflexivity..|done].
    + split; [done|]. intros [Hr _]. apply list_elem_of_In in Hr.
      assert (existsb (fun lang => in_list lang FRONTEND_LANGS) primary_languages = true) by
        (apply existsb_exists; exists "React"%string; split; [done|reflexivity]). congruence.
Qed.

End Summary.
