(* ===== verification/Profile.v ===== *)
(** * The analysis pipeline ([GitHubAnalyzer.analyze_profile])

    [src/backend/github_analyzer.py], lines 20-86.  The user and the list
    of repositories are fetched, then every analysis of the other files runs
    on that snapshot in the source's order, and the profile dict is built.
    Two of the analyses can raise: [_get_top_repositories] (the unguarded
    [get_topics]) and [_get_contribution_summary] ([OverflowError] of
    [now - timedelta]); a raised [GithubException] becomes the message
    "GitHub API error: ...", any other exception "Analysis error: ...".
    The message is modelled by its prefix.  The current time [now] is one
    parameter for the three [datetime.now] calls of a run. *)

From S2P Require Import Prelude PyDict DateTime GitHub Stats TopRepos Collaborators CollabScore StarTimeline Activity Languages Summary.
From stdpp Require Import strings.
From Stdlib Require Import QArith.
Import ListNotations.

Module Profile.

(** The dict built at lines 59-80. *)
Record ProfileData := mk_profile_data {
  pd_username : string;
  pd_name : string;
  pd_bio : string;
  pd_avatar_url : string;
  pd_blog : string;
  pd_location : string;
  pd_email : string;
  pd_twitter_username : string;
  pd_company : string;
  pd_hireable : bool;
  pd_created_at : string;
  pd_updated_at : string;
  pd_stats : Stats.Stats;
  pd_top_languages : list Languages.LanguageStat;
  pd_top_repositories : list TopRepos.RepositorySummary;
  pd_contribution_summary : Activity.ContributionSummary;
  pd_collaboration_score : CollabScore.CollaborationScore;
  pd_collaborators : Collaborators.CollaboratorsData;
  pd_ai_summary : string;
  pd_analyzed_at : string
}.

(** What [analyze_profile] returns or raises. *)
Inductive AnalysisOutcome :=
| Analyzed (p : ProfileData)
| AnalysisFailed (message : string).

(** Lines 82-86: the two [except] clauses. *)
Definition error_message (e : exc) : string :=
  match e with
  | GithubException => "GitHub API error"
  | OtherException => "Analysis error"
  end.

(** Lines 30-80: the body of the [try]. *)
Definition analyze_body `{GithubApi} (username : string) (now : datetime) : result ProfileData :=
  user ← get_user username;
  repos ← get_repos user;
  let stats := Stats._calculate_stats user repos in
  let top_languages := Languages._get_top_languages repos in
  top_repos ← TopRepos._get_top_repositories repos;
  contribution_summary ← Activity._get_contribution_summary repos now;
  let collaboration_score := CollabScore._calculate_collaboration_score user repos in
  let collaborators := Collaborators._get_collaborators user repos in
  let ai_summary := Summary._generate_ai_summary user repos top_languages in
  mret (mk_profile_data username (str_or user.(u_name) username) (str_or user.(u_bio) "")
          user.(u_avatar_url) (str_or user.(u_blog) "") (str_or user.(u_location) "")
          (str_or user.(u_email) "") (str_or user.(u_twitter_username) "")
          (str_or user.(u_company) "") (default false user.(u_hireable))
          (isoformat_or_empty user.(u_created_at)) (isoformat_or_empty user.(u_updated_at))
          stats top_languages top_repos contribution_summary collaboration_score collaborators
          ai_summary (isoformat now)).

(** Lines 20-86. *)
Definition analyze_profile `{GithubApi} (username : string) (now : datetime) : AnalysisOutcome :=
  match analyze_body username now with
  | Ok p => Analyzed p
  | Raise e => AnalysisFailed (error_message e)
  end.

(** ** Well-formed profiles

    What the components promise of the dict [analyze_profile] builds: the
    bounds and orders of its lists, the ranges of its scores and counters,
    and the stamp of a valid time. *)
Record profile_wf (p : ProfileData) : Prop := {
  wf_languages :
    (length p.(pd_top_languages) <= Languages.TOP_N)%nat /\
    Sorted (fun a b => (b.(Languages.ls_bytes) <= a.(Languages.ls_bytes))%Z) p.(pd_top_languages);
  wf_repositories :
    (length p.(pd_top_repositories) <= TopRepos.TOP_N)%nat /\
    Sorted (fun a b => (b.(TopRepos.rs_stars) <= a.(TopRepos.rs_stars))%Z) p.(pd_top_repositories);
  wf_timeline :
    let tl := p.(pd_contribution_summary).(Activity.star_timeline) in
    (length tl <= StarTimeline.MAX_MONTHS)%nat /\
    Sorted (fun a b => month_le a.(StarTimeline.te_month) b.(StarTimeline.te_month) /\
                       a.(StarTimeline.te_month) <> b.(StarTimeline.te_month) /\
                       (a.(StarTimeline.te_stars) <= b.(StarTimeline.te_stars))%Z) tl;
  wf_recent :
    (0 <= p.(pd_contribution_summary).(Activity.repos_updated_last_month)
       <= p.(pd_contribution_summary).(Activity.repos_updated_last_year))%Z;
  wf_streak :
    (0 <= p.(pd_contribution_summary).(Activity.contribution_streak) <= Z.of_nat Activity.MAX_STREAK_REPOS)%Z;
  wf_score :
    (0 <= p.(pd_collaboration_score).(CollabScore.overall_score) <= 100)%Q /\
    CollabScore.metrics_in_range p.(pd_collaboration_score).(CollabScore.metrics);
  wf_reviews :
    (0 <= p.(pd_collaboration_score).(CollabScore.stats).(CollabScore.pr_review_participation)
       <= p.(pd_collaboration_score).(CollabScore.stats).(CollabScore.total_prs))%Z;
  wf_people :
    let tp := p.(pd_collaborators).(Collaborators.top_people) in
    NoDup (map Collaborators.p_username tp) /\ (length tp <= Collaborators.MAX_TOP_PEOPLE)%nat /\
    Sorted (fun x y => (y.(Collaborators.p_repo_count) <= x.(Collaborators.p_repo_count))%Z) tp;
  wf_people_split :
    let d := p.(pd_collaborators) in
    Collaborators.total_unique_people d =
      (Collaborators.total_unique_collaborators d + Collaborators.total_unique_contributors d)%Z;
  wf_stamp : exists t, dt_valid_b t = true /\ p.(pd_analyzed_at) = isoformat t
}.

(** ** Fixtures *)

Definition demo_user : User :=
  mk_user "alice" (Some "Alice") None None None "https://avatars/alice" 4 0 0 0
    None None None None None None.

(** Four repositories; the topics of [broken], the second most starred,
    cannot be fetched. *)
Definition topics_repos : list Repository :=
  [simple_repo "alice" "a" false 9 0; simple_repo "alice" "broken" false 7 0;
   simple_repo "alice" "c" false 5 0; simple_repo "alice" "d" false 1 0].

Definition topics_api : GithubApi :=
  fixture_api (Ok demo_user) (Ok topics_repos)
    (fun name => mk_repo_data (Ok 0%Z) (Ok [])
       (if String.eqb name "broken" then Raise GithubException else Ok ["demo"])
       (Ok []) (Ok []) (Ok []) (Ok []) (Ok []))
    (fun _ => Ok []).

(** The three repositories of [Activity.same_hour_repos], every fetch
    answering with an empty list. *)
Definition quiet_api : GithubApi :=
  fixture_api (Ok demo_user) (Ok Activity.same_hour_repos) (fun _ => empty_repo_data) (fun _ => Ok []).

Definition streak_of (o : AnalysisOutcome) : option Z :=
  match o with
  | Analyzed p => Some p.(pd_contribution_summary).(Activity.contribution_streak)
  | AnalysisFailed _ => None
  end.

(** ** Properties *)

Section Proofs.
Context `{GithubApi}.

Lemma analyze_profile_ok username now p :
  analyze_profile username now = Analyzed p <-> analyze_body username now = Ok p.
Proof. unfold analyze_profile. destruct (analyze_body username now); naive_solver. Qed.

(** A profile is stamped with the name asked for and the time of the run. *)
Lemma analyze_profile_stamp username now p :
  analyze_profile username now = Analyzed p ->
  p.(pd_username) = username /\ p.(pd_analyzed_at) = isoformat now.
Proof.
  rewrite analyze_profile_ok. unfold analyze_body. cbv zeta.
  unfold mbind, result_bind_inst, result_bind.
  repeat case_match; try done. by intros [= <-].
Qed.

Lemma top_repositories_ok repos :
  (exists top, TopRepos._get_top_repositories repos = Ok top) <->
  Forall (fun r => exists ts, get_topics r = Ok ts) (TopRepos.ranked repos).
Proof.
  unfold TopRepos._get_top_repositories. rewrite result_map_ok_iff.
  apply Forall_iff. intros r. unfold TopRepos.summarize, result_bind.
  destruct (get_topics r); naive_solver.
Qed.

Lemma contribution_summary_ok repos now :
  (exists cs, Activity._get_contribution_summary repos now = Ok cs) <->
  is_Some (dt_minus_days now 30) /\ is_Some (dt_minus_days now 365).
Proof.
  unfold Activity._get_contribution_summary.
  destruct (dt_minus_days now 30), (dt_minus_days now 365); naive_solver.
Qed.

(** C9: the analysis succeeds exactly when the user and the repository
    list are fetched, the topics of each of the (at most five) most
    starred repositories are fetched, and [now] is more than 365 days
    after [datetime.min]; every other failure (commit counts, languages,
    collaborators, pulls, issues, reviews) is absorbed by a local
    [except]. *)
Theorem analyze_profile_succeeds_iff username now :
  (exists p, analyze_profile username now = Analyzed p) <->
  exists user repos, get_user username = Ok user /\ get_repos user = Ok repos /\
    Forall (fun r => exists ts, get_topics r = Ok ts) (TopRepos.ranked repos) /\
    is_Some (dt_minus_days now 30) /\ is_Some (dt_minus_days now 365).
Proof.
  setoid_rewrite analyze_profile_ok. unfold analyze_body. cbv zeta.
  repeat setoid_rewrite result_bind_ok_iff. split.
  - intros (user & Hu & repos & Hr & top & Ht & cs & Hc & _). exists user, repos.
    split_and!; [done|done|apply top_repositories_ok; eauto|..];
      apply (contribution_summary_ok repos now); eauto.
  - intros (user & repos & Hu & Hr & [top Ht]%top_repositories_ok & Hm & Hy).
    destruct (proj2 (contribution_summary_ok repos now) (conj Hm Hy)) as [cs Hcs].
    exists user. split; [done|]. exists repos. split; [done|]. exists top. split; [done|].
    exists cs. split; [done|]. by eexists.
Qed.

(** Every profile the analysis builds at a valid time is well formed:
    each component's bounds, carried to the assembled dict. *)
Lemma analyze_profile_wf username now p :
  dt_valid_b now = true -> analyze_profile username now = Analyzed p -> profile_wf p.
Proof.
  intros Hv. rewrite analyze_profile_ok. unfold analyze_body. cbv zeta.
  unfold mbind, result_bind_inst, result_bind.
  destruct (get_user username) as [user|]; [|done]. destruct (get_repos user) as [repos|]; [|done].
  destruct (TopRepos._get_top_repositories repos) as [top|] eqn:Ht; [|done].
  destruct (Activity._get_contribution_summary repos now) as [cs|] eqn:Hc; [|done].
  intros [= <-]. pose proof (Activity.recent_repos_le_year_repos repos now cs Hv Hc) as Hr.
  revert Hc. unfold Activity._get_contribution_summary.
  destruct (dt_minus_days now 30); [|done]. destruct (dt_minus_days now 365); [|done]. intros [= <-].
  pose proof (Activity.streak_bounds repos now). pose proof (CollabScore.score_loop_ok user.(u_login) repos) as Hs.
  unfold CollabScore.counters_ok in Hs.
  constructor; simpl.
  - apply Languages.top_languages_bounded_sorted.
  - exact (TopRepos.top_repositories_sorted repos top Ht).
  - apply StarTimeline.star_timeline_sorted.
  - simpl in Hr. lia.
  - lia.
  - exact (proj2 (CollabScore.collaboration_score_in_range user repos)).
  - tauto.
  - destruct (Collaborators.top_people_distinct user repos) as [Hd _].
    destruct (Collaborators.top_people_sorted_bound user repos) as [Hl Hso]. done.
  - apply Collaborators.unique_people_partition.
  - by exists now.
Qed.

End Proofs.

(** One repository whose topics cannot be fetched makes the whole
    analysis fail with "GitHub API error", although every other part of
    the profile could be computed. *)
Theorem topics_failure_fails_analysis :
  @analyze_profile topics_api "alice" (Activity.at_time 2025 6 1 12 0) = AnalysisFailed "GitHub API error".
Proof. vm_compute. reflexivity. Qed.

(** The profile depends on the time of the analysis beyond its
    [analyzed_at] stamp: the same snapshot gives a streak of 3 at noon on
    June 1 and of 0 four days later. *)
Theorem profile_depends_on_now :
  streak_of (@analyze_profile quiet_api "alice" (Activity.at_time 2025 6 1 12 0)) = Some 3%Z /\
  streak_of (@analyze_profile quiet_api "alice" (Activity.at_time 2025 6 5 12 0)) = Some 0%Z.
Proof. vm_compute. split; reflexivity. Qed.

End Profile.
