(* ===== verification/Charts.v ===== *)
(** * Chart data ([ChartGenerator], [src/backend/charts.py])

    [ChartGenerator] renders four charts with matplotlib.  The rendering
    itself is not modelled; each generator is modelled by the path it
    returns and the data it plots, a [Chart]: the labels, values and
    colours of the language pie, the months and totals of the star line,
    the 7x24 activity matrix of the heatmap (and whether it is smoothed by
    [scipy.ndimage.gaussian_filter]), and the bars of the repository
    chart.  [generate_all_charts] returns the charts it wrote and, when the
    heatmap raises, the exception's message: the charts written before the
    exception stay on disk.  The one fact of the Python installation the
    code depends on, whether [scipy] can be imported, is the class
    [PyEnv]. *)

From S2P Require Import Prelude DateTime IsoFormat OsPath StarTimeline Languages TopRepos Activity Profile.
From stdpp Require Import list sets strings pretty.
From Stdlib Require Import QArith Qminmax Lqa Ascii.
Import ListNotations.

Module Charts.
Import OsPath.

(** ** The generator *)

(** Whether [from scipy.ndimage import gaussian_filter] succeeds. *)
Class PyEnv := { scipy_available : bool }.

Record ChartGenerator := mk_chart_generator {
  base_dir : string;
  cg_username : option string;
  output_dir : string
}.

(** [__init__] (16-30): [if username:] is false for [None] and [""]. *)
Definition init (out : string) (username : option string) : ChartGenerator :=
  mk_chart_generator out username
    (match username with
     | Some u => if String.eqb u "" then out else path_join out u
     | None => out
     end).

(** [set_username] (32-36). *)
Definition set_username (g : ChartGenerator) (u : string) : ChartGenerator :=
  mk_chart_generator g.(base_dir) (Some u) (path_join g.(base_dir) u).

(** ** What a chart plots *)

Abbreviation matrix := (list (list Q)).

Inductive Chart :=
| PieChart (labels : list string) (values : list Q) (colors : list string)
| LineChart (months : list (Z * Z)) (stars : list Z)
| HeatmapChart (gaussian : bool) (data : matrix)
| BarChart (names : list string) (stars forks : list Z).

(** Lines 46-47. *)
Definition COLORS : list string :=
  ["#3572A5"; "#f1e05a"; "#e34c26"; "#563d7c"; "#b07219";
   "#00ADD8"; "#89e051"; "#178600"; "#A97BFF"; "#DA5B0B"].

(** [generate_language_chart] (38-73). *)
Definition generate_language_chart (g : ChartGenerator) (languages : list Languages.LanguageStat) (filename : string)
  : option (string * Chart) :=
  match languages with
  | [] => None
  | _ => Some (path_join g.(output_dir) filename,
               PieChart (map Languages.ls_name languages) (map Languages.ls_percentage languages)
                        (take (length languages) COLORS))
  end.

(** [generate_star_timeline] (75-110). *)
Definition generate_star_timeline (g : ChartGenerator) (timeline : list StarTimeline.TimelineEntry) (filename : string)
  : option (string * Chart) :=
  match timeline with
  | [] => None
  | _ => Some (path_join g.(output_dir) filename, LineChart (map StarTimeline.te_month timeline) (map StarTimeline.te_stars timeline))
  end.

(** ** The activity heatmap (112-176) *)

(** [np.zeros((7, 24))] and [np.ones((7, 24)) * 0.5]. *)
Definition zeros_matrix : matrix := replicate 7 (replicate 24 0).
Definition placeholder : matrix := replicate 7 (replicate 24 (1 # 2)).

(** [str.replace('Z', '+00:00')]. *)
Fixpoint replace_Z (s : string) : string :=
  match s with
  | EmptyString => EmptyString
  | String c s => if Ascii.eqb c "Z" then "+00:00" +:+ replace_Z s else String c (replace_Z s)
  end.

(** Line 133: [1 + (stars + forks) * 0.1]. *)
Definition weight (r : TopRepos.RepositorySummary) : Q := 1 + inject_Z (r.(TopRepos.rs_stars) + r.(TopRepos.rs_forks)) * (1 # 10).

(** [data[d][h] += w]. *)
Definition add_weight (d h : nat) (w : Q) (data : matrix) : matrix :=
  alter (alter (fun x => x + w) h) d data.

(** Lines 126-136: one repository; a missing or unparsable [updated_at]
    leaves the matrix unchanged ([except: pass]). *)
Definition add_repo (data : matrix) (r : TopRepos.RepositorySummary) : matrix :=
  if String.eqb r.(TopRepos.rs_updated_at) "" then data
  else match fromisoformat (replace_Z r.(TopRepos.rs_updated_at)) with
       | Some t => add_weight (Z.to_nat (weekday t)) (Z.to_nat t.(dt_hour)) (weight r) data
       | None => data
       end.

(** Lines 122-136. *)
Definition activity_matrix (repos : list TopRepos.RepositorySummary) : matrix :=
  fold_left add_repo repos zeros_matrix.

(** [data.max()] of a non-empty matrix. *)
Definition matrix_max (m : matrix) : Q :=
  match concat m with [] => 0 | x :: xs => fold_left Qmax xs x end.

(** [generate_contribution_heatmap] (112-176): [None] without top
    repositories, the path and the plotted data otherwise, or the message
    of the [ImportError] raised at line 140, which is outside the [try]. *)
Definition generate_contribution_heatmap `{PyEnv} (g : ChartGenerator) (p : Profile.ProfileData) (filename : string)
  : option (string * Chart) + string :=
  match p.(Profile.pd_top_repositories) with
  | [] => inl None
  | repos =>
      let data := activity_matrix repos in
      if Qle_bool (matrix_max data) 0 then inl (Some (path_join g.(output_dir) filename, HeatmapChart false placeholder))
      else if scipy_available then inl (Some (path_join g.(output_dir) filename, HeatmapChart true data))
      else inr "No module named 'scipy'"
  end.

(** [generate_repo_stats_chart] (203-243); no caller uses it.  [[:20]]
    keeps the first 20 characters. *)
Definition generate_repo_stats_chart (g : ChartGenerator) (repos : list TopRepos.RepositorySummary) (filename : string)
  : option (string * Chart) :=
  if Nat.ltb (length repos) 2 then None
  else let top := take 5 repos in
       Some (path_join g.(output_dir) filename,
             BarChart (map (fun r => String.substring 0 20 r.(TopRepos.rs_name)) top) (map TopRepos.rs_stars top) (map TopRepos.rs_forks top)).

(** [generate_all_charts] (178-201): the [(name, (path, chart))] entries
    written, in order, and the message of the exception that ended it. *)
Definition generate_all_charts `{PyEnv} (g : ChartGenerator) (p : Profile.ProfileData)
  : list (string * (string * Chart)) * option string :=
  let lang := match p.(Profile.pd_top_languages) with
              | [] => []
              | ls => match generate_language_chart g ls "languages.png" with
                      | Some c => [("languages", c)] | None => [] end
              end in
  let stars := match p.(Profile.pd_contribution_summary).(Activity.star_timeline) with
               | [] => []
               | tl => match generate_star_timeline g tl "stars.png" with
                       | Some c => [("stars", c)] | None => [] end
               end in
  match generate_contribution_heatmap g p "contributions.png" with
  | inr e => (lang ++ stars, Some e)
  | inl (Some c) => (lang ++ stars ++ [("contributions", c)], None)
  | inl None => (lang ++ stars, None)
  end.

(** The file names [generate_all_charts] passes. *)
Definition CHART_FILES : list string := ["languages.png"; "stars.png"; "contributions.png"].

(** [matrix[d][h]], 0 out of range. *)
Definition cell (m : matrix) (d h : nat) : Q := default 0 (m !! d ≫= (.!! h)).

Definition qsum (l : list Q) : Q := fold_right Qplus 0 l.

(** What a repository updated at [o] adds to the cell [(d, h)]. *)
Definition cell_weight (r : TopRepos.RepositorySummary) (o : option datetime) (d h : nat) : Q :=
  match o with
  | Some t => if bool_decide (Z.to_nat (weekday t) = d /\ Z.to_nat t.(dt_hour) = h) then weight r else 0
  | None => 0
  end.

(** [updated_at] as [_get_top_repositories] writes it, from a valid time. *)
Definition stamped (r : TopRepos.RepositorySummary) (o : option datetime) : Prop :=
  r.(TopRepos.rs_updated_at) = isoformat_or_empty o /\ (forall t, o = Some t -> dt_valid_b t = true).

(** ** Fixtures *)

(** A top repository with [stars] stars, no forks, updated at [o]. *)
Definition summary_at (name : string) (stars : Z) (o : option datetime) : TopRepos.RepositorySummary :=
  TopRepos.mk_repository_summary name name "" "" "" "Python" stars 0 0 0 "" (isoformat_or_empty o) [].

(** Noon on Sunday 2025-06-01 (weekday 6). *)
Definition sunday_noon : datetime := mk_datetime 2025 6 1 12 0 0 0.

Definition dated_summaries : list TopRepos.RepositorySummary :=
  [summary_at "app" 10 (Some sunday_noon); summary_at "lib" 0 (Some sunday_noon); summary_at "old" 3 None].

Definition dated_times : list (option datetime) := [Some sunday_noon; Some sunday_noon; None].

(** An installation with [scipy]. *)
Definition with_scipy : PyEnv := {| scipy_available := true |}.

(** An installation without [scipy]. *)
Definition no_scipy : PyEnv := {| scipy_available := false |}.

(** The update times of [Activity.same_hour_repos], in ranking order. *)
Definition same_hour_times : list (option datetime) :=
  [Some (Activity.at_time 2025 6 1 9 5); Some (Activity.at_time 2025 6 1 9 20); Some (Activity.at_time 2025 6 1 9 40)].

(** The matrix is [7 x 24]. *)
Definition shape_ok (m : matrix) : Prop := length m = 7%nat /\ Forall (fun row => length row = 24%nat) m.

(** ** Lemmas *)

(** *** [replace('Z', '+00:00')] leaves [isoformat] unchanged *)

Lemma replace_Z_app a b : replace_Z (a +:+ b) = replace_Z a +:+ replace_Z b.
Proof.
  induction a as [|c a IH]; [done|]. rewrite string_app_cons. simpl. rewrite IH.
  by destruct (Ascii.eqb c "Z").
Qed.

Lemma replace_Z_char x : replace_Z (String (pretty_N_char x) "") = String (pretty_N_char x) "".
Proof. unfold pretty_N_char. by repeat case_match. Qed.

Lemma replace_Z_pretty_N_go x : replace_Z (pretty_N_go x "") = pretty_N_go x "".
Proof.
  induction (N.lt_wf_0 x) as [x _ IH].
  destruct (decide (x = 0%N)) as [->|Hx]; [done|].
  rewrite pretty_N_go_step, pretty_N_go_app by lia.
  rewrite replace_Z_app, replace_Z_char, IH; [done|]. apply N.div_lt; lia.
Qed.

Lemma replace_Z_zeros k : replace_Z (zeros k) = zeros k.
Proof. induction k as [|k IH]; [done|]. rewrite zeros_S. simpl. by rewrite IH. Qed.

Lemma replace_Z_zpad w n : replace_Z (zpad w n) = zpad w n.
Proof.
  unfold zpad. rewrite replace_Z_app, replace_Z_zeros. f_equal.
  destruct n as [|p|p]; [done| |].
  - change (pretty (Zpos p)) with (pretty_N_go (Npos p) ""). apply replace_Z_pretty_N_go.
  - change (pretty (Zneg p)) with ("-" +:+ pretty_N_go (Npos p) "").
    by rewrite replace_Z_app, replace_Z_pretty_N_go.
Qed.

Lemma replace_Z_isoformat t : replace_Z (isoformat t) = isoformat t.
Proof.
  unfold isoformat. rewrite !replace_Z_app, !replace_Z_zpad.
  destruct (dt_microsecond t =? 0)%Z; [done|]. by rewrite replace_Z_app, replace_Z_zpad.
Qed.

Lemma isoformat_nonempty t : String.eqb (isoformat t) "" = false.
Proof.
  apply String.eqb_neq. intros H. apply (f_equal String.length) in H.
  unfold isoformat in H. rewrite !string_length_app in H. simpl in H. lia.
Qed.

(** *** The matrix *)

Lemma shape_add_weight d h w m : shape_ok m -> shape_ok (add_weight d h w m).
Proof.
  intros [Hl Hr]. unfold add_weight. split; [by rewrite length_alter|].
  apply Forall_alter; [done|]. intros row _ Hrow. by rewrite length_alter.
Qed.

Lemma shape_add_repo m r : shape_ok m -> shape_ok (add_repo m r).
Proof.
  intros Hm. unfold add_repo. destruct (String.eqb _ _); [done|].
  destruct (fromisoformat _); [by apply shape_add_weight|done].
Qed.

Lemma shape_zeros : shape_ok zeros_matrix.
Proof. split; [done|]. repeat constructor. Qed.

Lemma shape_row m d : shape_ok m -> (d < 7)%nat -> exists row, m !! d = Some row /\ length row = 24%nat.
Proof.
  intros [Hl Hr] Hd. destruct (lookup_lt_is_Some_2 m d) as [row Hrow]; [lia|].
  exists row. split; [done|]. by apply (Forall_lookup_1 _ _ _ _ Hr Hrow).
Qed.

Lemma cell_add_weight d h d' h' w m :
  shape_ok m -> (d' < 7)%nat -> (h' < 24)%nat ->
  cell (add_weight d' h' w m) d h = if bool_decide (d' = d /\ h' = h) then cell m d h + w else cell m d h.
Proof.
  intros Hm Hd Hh. destruct (shape_row m d' Hm Hd) as (row & Hrow & Hlen).
  destruct (lookup_lt_is_Some_2 row h') as [x Hx]; [lia|].
  unfold cell, add_weight. rewrite list_lookup_alter.
  destruct (decide (d' = d)) as [<-|Hne]; [|case_bool_decide; [naive_solver|done]].
  rewrite Hrow. simpl. rewrite list_lookup_alter.
  destruct (decide (h' = h)) as [<-|Hne]; [rewrite Hx; simpl; by case_bool_decide; [|naive_solver]|].
  case_bool_decide; [naive_solver|done].
Qed.

Lemma weekday_lt t : (Z.to_nat (weekday t) < 7)%nat.
Proof. unfold weekday. pose proof (Z.mod_pos_bound (toordinal t + 6) 7 ltac:(lia)). lia. Qed.

Lemma hour_lt t : dt_valid_b t = true -> (Z.to_nat t.(dt_hour) < 24)%nat.
Proof. unfold dt_valid_b. rewrite !andb_true_iff, !Z.leb_le, !Z.ltb_lt. lia. Qed.

Lemma cell_add_repo m r o d h :
  shape_ok m -> stamped r o -> cell (add_repo m r) d h == cell m d h + cell_weight r o d h.
Proof.
  intros Hm [Hu Hv]. unfold add_repo, cell_weight. rewrite Hu.
  destruct o as [t|]; [|simpl; ring].
  simpl. rewrite isoformat_nonempty, replace_Z_isoformat, isoformat_parses by auto.
  rewrite cell_add_weight by auto using weekday_lt, hour_lt.
  case_bool_decide; ring.
Qed.

Lemma cell_fold repos times m d h :
  shape_ok m -> Forall2 stamped repos times ->
  cell (fold_left add_repo repos m) d h == cell m d h + qsum (zip_with (fun r o => cell_weight r o d h) repos times).
Proof.
  intros Hm Hs. revert m Hm. induction Hs as [|r o rs os Hro Hs IH]; intros m Hm; simpl; [ring|].
  rewrite IH by (by apply shape_add_repo). rewrite cell_add_repo by done. ring.
Qed.

Lemma cell_zeros d h : cell zeros_matrix d h = 0.
Proof.
  unfold cell, zeros_matrix. destruct (decide (d < 7)%nat).
  - rewrite lookup_replicate_2 by done. rewrite option_bind_some. cbv beta. destruct (decide (h < 24)%nat).
    + by rewrite lookup_replicate_2.
    + rewrite (proj1 (lookup_replicate_None _ _ _)) by lia. done.
  - rewrite (proj1 (lookup_replicate_None _ _ _)) by lia. done.
Qed.

(** *** [data.max()] *)

Lemma Qmax_cases a b : Qmax a b = a \/ Qmax a b = b.
Proof. unfold Qmax, GenericMinMax.gmax. destruct (a ?= b); auto. Qed.

Lemma fold_Qmax_elem xs x : fold_left Qmax xs x ∈ x :: xs.
Proof.
  revert x. induction xs as [|y xs IH]; intros x; simpl; [by left|].
  pose proof (IH (Qmax x y)) as H. destruct (Qmax_cases x y) as [E|E]; rewrite E in H |- *.
  - apply elem_of_cons in H as [->|H]; [by left|by right; right].
  - by right.
Qed.

Lemma fold_Qmax_ge xs x y : y ∈ x :: xs -> y <= fold_left Qmax xs x.
Proof.
  revert x y. induction xs as [|z xs IH]; intros x y Hy; simpl.
  - apply list_elem_of_singleton in Hy. subst. apply Qle_refl.
  - apply elem_of_cons in Hy as [Hy|Hy].
    + subst y. eapply Qle_trans; [apply Q.le_max_l|]. apply IH. by left.
    + apply elem_of_cons in Hy as [Hy|Hy].
      * subst y. eapply Qle_trans; [apply Q.le_max_r|]. apply IH. by left.
      * apply IH. by right.
Qed.

Lemma matrix_max_pos m : 0 < matrix_max m <-> exists x, x ∈ concat m /\ 0 < x.
Proof.
  unfold matrix_max. destruct (concat m) as [|x xs]; split.
  - intros H. by apply Qlt_irrefl in H.
  - intros (y & Hy%elem_of_nil & _). done.
  - intros H. exists (fold_left Qmax xs x). split; [apply fold_Qmax_elem|done].
  - intros (y & Hy & Hpos). eapply Qlt_le_trans; [exact Hpos|]. by apply fold_Qmax_ge.
Qed.

Lemma cell_pos_elem m d h : 0 < cell m d h -> exists x, x ∈ concat m /\ 0 < x.
Proof.
  unfold cell. destruct (m !! d) as [row|] eqn:Hrow; simpl; [|intros H; by apply Qlt_irrefl in H].
  destruct (row !! h) as [x|] eqn:Hx; simpl; [|intros H; by apply Qlt_irrefl in H].
  intros Hpos. exists x. split; [|done]. apply list_elem_of_In, in_concat. exists row.
  split; apply list_elem_of_In; by eapply list_elem_of_lookup_2.
Qed.

(** *** Weights *)

Lemma weight_ge_1 r : (0 <= TopRepos.rs_stars r + TopRepos.rs_forks r)%Z -> 1 <= weight r.
Proof.
  unfold weight. intros H.
  assert (0 <= inject_Z (TopRepos.rs_stars r + TopRepos.rs_forks r)) by (change 0 with (inject_Z 0); by rewrite <- Zle_Qle).
  lra.
Qed.

Lemma qsum_nonneg l : Forall (Qle 0) l -> 0 <= qsum l.
Proof. induction 1 as [|x l Hx _ IH]; simpl; [apply Qle_refl|lra]. Qed.

Lemma qsum_ge l i x : Forall (Qle 0) l -> l !! i = Some x -> x <= qsum l.
Proof.
  revert i. induction l as [|y l IH]; intros [|i] Hl Hi; inversion Hl; simplify_eq/=.
  - pose proof (qsum_nonneg l ltac:(done)). lra.
  - specialize (IH i ltac:(done) Hi). lra.
Qed.

(** *** [generate_all_charts] *)

(** Every chart is written under the generator's directory, with one of
    the three file names. *)
Lemma generate_all_charts_paths `{PyEnv} g p name path c :
  (name, (path, c)) ∈ (generate_all_charts g p).1 ->
  exists f, f ∈ CHART_FILES /\ path = path_join g.(output_dir) f.
Proof.
  unfold generate_all_charts, generate_language_chart, generate_star_timeline, generate_contribution_heatmap.
  intros Hin. repeat (case_match; simplify_eq/=);
    repeat (apply elem_of_app in Hin as [Hin|Hin]);
    repeat (apply elem_of_cons in Hin as [Hin|Hin]; [simplify_eq; eexists; split; [|reflexivity]; compute; by repeat constructor|]);
    by apply elem_of_nil in Hin.
Qed.

(** The language chart is the first one written, whenever there are
    languages, also when the heatmap raises afterwards. *)
Lemma generate_all_charts_languages `{PyEnv} g p :
  Profile.pd_top_languages p <> [] ->
  exists c, ("languages", (path_join g.(output_dir) "languages.png", c)) ∈ (generate_all_charts g p).1.
Proof.
  unfold generate_all_charts. destruct (Profile.pd_top_languages p) as [|l ls]; [done|]. intros _.
  eexists. destruct (generate_contribution_heatmap g p _) as [[?|]|]; simpl; by left.
Qed.

(** The entries written at the path of the star chart: the star chart
    when the timeline is not empty, none otherwise. *)
Lemma generate_all_charts_stars `{PyEnv} g p :
  filter (fun e => e.2.1 = path_join g.(output_dir) "stars.png") (generate_all_charts g p).1 =
  match p.(Profile.pd_contribution_summary).(Activity.star_timeline) with
  | [] => []
  | tl => [("stars", (path_join g.(output_dir) "stars.png",
                      LineChart (map StarTimeline.te_month tl) (map StarTimeline.te_stars tl)))]
  end.
Proof.
  assert (Hne : forall f, f <> "stars.png" -> String.prefix "/" f = false ->
            path_join g.(output_dir) f <> path_join g.(output_dir) "stars.png").
  { intros f Hf Hr E. by apply path_join_inj_r in E. }
  unfold generate_all_charts, generate_language_chart, generate_star_timeline.
  destruct (generate_contribution_heatmap g p _) as [[[path c]|]|e] eqn:Hh;
    [assert (Hp : path = path_join g.(output_dir) "contributions.png")
       by (unfold generate_contribution_heatmap in Hh; repeat case_match; by simplify_eq); subst path| |];
    destruct (Profile.pd_top_languages p), (Activity.star_timeline _); simpl;
    repeat first [rewrite filter_app | rewrite filter_cons | rewrite filter_nil
                 | rewrite decide_False by (apply Hne; [discriminate|reflexivity])
                 | rewrite decide_True by reflexivity]; done.
Qed.

Lemma chart_files_plain f :
  f ∈ CHART_FILES -> String.prefix "/" f = false /\ has_slash f = false /\ f <> "".
Proof. intros Hf. repeat (apply elem_of_cons in Hf as [->|Hf]; [done|]). by apply elem_of_nil in Hf. Qed.

(** *** Dated and undated repositories *)

Lemma fold_undated repos times m :
  Forall2 stamped repos times -> Forall (fun o => o = None) times -> fold_left add_repo repos m = m.
Proof.
  intros Hs. revert m. induction Hs as [|r o rs os [Hu _] Hs IH]; intros m Hn; [done|].
  inversion Hn as [|? ? -> Hn']; subst. simpl. unfold add_repo at 2. rewrite Hu. simpl. by apply IH.
Qed.

Lemma cell_weight_nonneg r o d h : (0 <= TopRepos.rs_stars r + TopRepos.rs_forks r)%Z -> 0 <= cell_weight r o d h.
Proof.
  intros Hw. pose proof (weight_ge_1 r Hw). unfold cell_weight.
  destruct o; [case_bool_decide|]; [lra|apply Qle_refl|apply Qle_refl].
Qed.

(** A repository updated at [t] makes the cell of [t] positive. *)
Lemma dated_cell_pos repos times i t :
  Forall2 stamped repos times -> Forall (fun r => 0 <= TopRepos.rs_stars r + TopRepos.rs_forks r)%Z repos ->
  times !! i = Some (Some t) ->
  0 < cell (activity_matrix repos) (Z.to_nat (weekday t)) (Z.to_nat t.(dt_hour)).
Proof.
  intros Hs Hw Ht. destruct (Forall2_lookup_r _ _ _ _ _ Hs Ht) as (r & Hr & _).
  pose proof (cell_fold repos times zeros_matrix (Z.to_nat (weekday t)) (Z.to_nat t.(dt_hour)) shape_zeros Hs) as Hc.
  rewrite cell_zeros in Hc. fold (activity_matrix repos) in Hc.
  set (f := fun r o => cell_weight r o (Z.to_nat (weekday t)) (Z.to_nat t.(dt_hour))) in *.
  assert (Hge : f r (Some t) <= qsum (zip_with f repos times)).
  { apply (qsum_ge _ i); [|by rewrite lookup_zip_with, Hr, Ht].
    apply Forall_lookup_2. intros j x Hj. rewrite lookup_zip_with in Hj.
    destruct (repos !! j) as [r'|] eqn:Hr'; simplify_eq/=. destruct (times !! j); simplify_eq/=.
    unfold f. apply cell_weight_nonneg. exact (Forall_lookup_1 _ _ _ _ Hw Hr'). }
  assert (Hf : f r (Some t) = weight r) by (subst f; simpl; by rewrite bool_decide_true).
  rewrite Hf in Hge. pose proof (weight_ge_1 r (Forall_lookup_1 _ _ _ _ Hw Hr)). lra.
Qed.

(** ** Properties *)


(** C16: for top repositories whose [updated_at] is [isoformat] of a valid
    time or empty, the cell [(d, h)] of the heatmap holds the total weight
    [1 + (stars + forks) * 0.1] of the repositories last updated on weekday
    [d] at hour [h]: the [replace('Z', '+00:00')] and the [fromisoformat]
    of line 129 read every stamp back, and no update is lost. *)
Theorem activity_matrix_cell repos times d h :
  Forall2 stamped repos times ->
  cell (activity_matrix repos) d h == qsum (zip_with (fun r o => cell_weight r o d h) repos times).
Proof.
  intros Hs. pose proof (cell_fold repos times zeros_matrix d h shape_zeros Hs) as Hc.
  rewrite cell_zeros in Hc. unfold activity_matrix. lra.
Qed.

(** Witness: two repositories updated at noon on Sunday, with 10 and 0
    stars, weigh 2 + 1 in the cell (Sunday, 12:00). *)
Lemma activity_matrix_cell_witness :
  Forall2 stamped dated_summaries dated_times /\ cell (activity_matrix dated_summaries) 6 12 == 3.
Proof.
  assert (Hs : Forall2 stamped dated_summaries dated_times).
  { repeat constructor; intros t Ht; inversion Ht; reflexivity. }
  split; [exact Hs|]. eapply Qeq_trans; [apply (activity_matrix_cell _ _ 6 12 Hs)|]. vm_compute. reflexivity.
Defined.

Section Heatmap.
Context `{PyEnv}.

(** The outcome of the heatmap, shared by the clients of the charts. *)
Lemma heatmap_outcome_eq g p times fn :
  Profile.pd_top_repositories p <> [] ->
  Forall2 stamped (Profile.pd_top_repositories p) times ->
  Forall (fun r => 0 <= TopRepos.rs_stars r + TopRepos.rs_forks r)%Z (Profile.pd_top_repositories p) ->
  generate_contribution_heatmap g p fn =
    if bool_decide (Forall (fun o => o = None) times)
    then inl (Some (path_join g.(output_dir) fn, HeatmapChart false placeholder))
    else if scipy_available
    then inl (Some (path_join g.(output_dir) fn, HeatmapChart true (activity_matrix (Profile.pd_top_repositories p))))
    else inr "No module named 'scipy'".
Proof.
  intros Hne Hs Hw. unfold generate_contribution_heatmap.
  destruct (Profile.pd_top_repositories p) as [|r0 rs]; [done|]. cbv zeta.
  case_bool_decide as Hn.
  - unfold activity_matrix. rewrite (fold_undated _ _ _ Hs Hn). reflexivity.
  - apply not_Forall_Exists in Hn; [|intros o; apply _]. apply Exists_exists in Hn as (o & Ho & Hn').
    destruct o as [t|]; [|by destruct Hn'].
    apply list_elem_of_lookup_1 in Ho as [i Hi].
    pose proof (dated_cell_pos _ _ _ _ Hs Hw Hi) as Hpos.
    apply cell_pos_elem, matrix_max_pos in Hpos.
    replace (Qle_bool _ 0) with false; [done|]. symmetry. apply not_true_iff_false.
    rewrite Qle_bool_iff. by apply Qlt_not_le.
Qed.

(** C17: with [scipy] installed, for top repositories with non-negative
    counts and stamped update times, [generate_contribution_heatmap]
    draws the flat placeholder of line 147 exactly when no repository has
    an update time ("No data available"), and otherwise the smoothed
    activity matrix ([data.max() > 0] holds as soon as one repository is
    dated). *)
Theorem heatmap_placeholder_iff_undated g p times fn :
  scipy_available = true ->
  Profile.pd_top_repositories p <> [] ->
  Forall2 stamped (Profile.pd_top_repositories p) times ->
  Forall (fun r => 0 <= TopRepos.rs_stars r + TopRepos.rs_forks r)%Z (Profile.pd_top_repositories p) ->
  generate_contribution_heatmap g p fn =
    inl (Some (path_join g.(output_dir) fn,
               if bool_decide (Forall (fun o => o = None) times) then HeatmapChart false placeholder
               else HeatmapChart true (activity_matrix (Profile.pd_top_repositories p)))).
Proof.
  intros Hsc Hne Hs Hw. rewrite (heatmap_outcome_eq g p times fn Hne Hs Hw), Hsc.
  by case_bool_decide.
Qed.

End Heatmap.

(** Witness: with [scipy], the quiet fixture's three repositories,
    updated on a Sunday morning, give the smoothed matrix. *)
Lemma heatmap_placeholder_iff_undated_witness :
  exists p, @Profile.analyze_profile Profile.quiet_api "alice" sunday_noon = Profile.Analyzed p /\
    @scipy_available with_scipy = true /\ Profile.pd_top_repositories p <> [] /\
    Forall2 stamped (Profile.pd_top_repositories p) same_hour_times /\
    Forall (fun r => 0 <= TopRepos.rs_stars r + TopRepos.rs_forks r)%Z (Profile.pd_top_repositories p) /\
    @generate_contribution_heatmap with_scipy (init "charts" None) p "contributions.png" =
      inl (Some ("charts/contributions.png", HeatmapChart true (activity_matrix (Profile.pd_top_repositories p)))).
Proof.
  destruct (@Profile.analyze_profile Profile.quiet_api "alice" sunday_noon) as [p|m] eqn:E;
    [|vm_compute in E; discriminate].
  exists p. assert (Hp := E). vm_compute in Hp. injection Hp as Hp.
  assert (Hs : Forall2 stamped (Profile.pd_top_repositories p) same_hour_times).
  { rewrite <- Hp. repeat constructor; intros t Ht; inversion Ht; reflexivity. }
  assert (Hw : Forall (fun r => 0 <= TopRepos.rs_stars r + TopRepos.rs_forks r)%Z (Profile.pd_top_repositories p))
    by (rewrite <- Hp; repeat constructor; simpl; lia).
  assert (Hne : Profile.pd_top_repositories p <> []) by (by rewrite <- Hp).
  split_and!; [done|done|exact Hne|exact Hs|exact Hw|].
  rewrite (@heatmap_placeholder_iff_undated with_scipy _ p same_hour_times _ eq_refl Hne Hs Hw).
  rewrite bool_decide_false; [reflexivity|]. intros Hn. inversion Hn; discriminate.
Defined.

End Charts.
