(* ===== verification/ChartLabels.v ===== *)
(** * The text a chart draws ([src/backend/charts.py])

    Besides its data, each chart draws text that [charts.py] computes:
    the y-axis of the star timeline formats a tick value [x] as
    [f'{int(x):,}'] (line 103), an integer with a comma between groups of
    three digits; the heatmap labels its rows with the day names of line
    119 and its columns with [f'{h:02d}:00'] on every third hour
    (line 157); the repository chart writes [f'{int(height)}'] above each
    bar (lines 228-235).  The tick values themselves are chosen by
    matplotlib and are not modelled: the formatter is modelled as the
    function it is.  The lemmas check the model of Python's [','] format
    spec the label relies on: removing the commas gives back [str(n)], and
    the commas sit every three digits counted from the right. *)

From S2P Require Import Prelude DateTime IsoFormat.
From stdpp Require Import list strings pretty.
From Stdlib Require Import Ascii QArith.
Import ListNotations.

Module ChartLabels.

(** ** [format(n, ',')] *)

(** The digits of a numeral, least significant first, with a comma after
    every third one that is followed by another. *)
Fixpoint group_rev (ds : list ascii) : list ascii :=
  match ds with
  | a :: b :: c :: ((_ :: _) as rest) => a :: b :: c :: ","%char :: group_rev rest
  | _ => ds
  end.

Definition group_digits (s : string) : string :=
  String.string_of_list_ascii (rev (group_rev (rev (String.list_ascii_of_string s)))).

(** [f'{n:,}'] for an [int]: the sign, then the grouped digits of [|n|]. *)
Definition int_comma (n : Z) : string :=
  (if (n <? 0)%Z then "-" else "") +:+ group_digits (pretty (Z.abs n)).

(** Line 103: [lambda x, p: f'{int(x):,}']; [int] truncates toward 0. *)
Definition star_tick_label (x : Q) : string := int_comma (Z.quot (Qnum x) (Zpos (Qden x))).

(** ** The heatmap's labels *)

(** Line 119. *)
Definition days : list string := ["Mon"; "Tue"; "Wed"; "Thu"; "Fri"; "Sat"; "Sun"].

(** Lines 154 and 157: [[f'{h:02d}:00' if h % 3 == 0 else '' for h in hours]]. *)
Definition hour_labels : list string :=
  map (fun h => if (Z.of_nat h mod 3 =? 0)%Z then zpad 2 (Z.of_nat h) +:+ ":00" else "") (seq 0 24).

(** ** The bar chart's labels *)

(** Lines 228-235: [f'{int(height)}'] over the star bars, then the fork
    bars; a bar's height is the integer it plots. *)
Definition bar_labels (stars forks : list Z) : list string := map pretty stars ++ map pretty forks.

(** [s.replace(',', '')]: what a reader of the label gets back. *)
Definition strip_commas (s : string) : string :=
  String.string_of_list_ascii (List.filter (fun c => negb (Ascii.eqb c ","%char)) (String.list_ascii_of_string s)).

(** ** Lemmas *)

Definition no_comma (ds : list ascii) : Prop := Forall (fun c => c <> ","%char) ds.

Lemma pretty_N_char_no_comma x : pretty_N_char x <> ","%char.
Proof. unfold pretty_N_char. repeat case_match; discriminate. Qed.

Lemma list_ascii_of_string_app a b :
  String.list_ascii_of_string (a +:+ b) = String.list_ascii_of_string a ++ String.list_ascii_of_string b.
Proof. induction a as [|c a IH]; [done|]. simpl. by rewrite IH. Qed.

Lemma pretty_N_go_no_comma x s :
  no_comma (String.list_ascii_of_string s) -> no_comma (String.list_ascii_of_string (pretty_N_go x s)).
Proof.
  revert s. induction (N.lt_wf_0 x) as [x _ IH]; intros s Hs.
  destruct (decide (x = 0%N)) as [->|Hx]; [done|].
  rewrite pretty_N_go_step by lia. apply IH; [apply N.div_lt; lia|].
  constructor; [apply pretty_N_char_no_comma|exact Hs].
Qed.

Lemma pretty_abs_no_comma n : no_comma (String.list_ascii_of_string (pretty (Z.abs n))).
Proof. destruct n; [repeat constructor; discriminate|apply pretty_N_go_no_comma; constructor..]. Qed.

Lemma filter_no_comma ds : no_comma ds -> List.filter (fun c => negb (Ascii.eqb c ","%char)) ds = ds.
Proof.
  induction 1 as [|c ds Hc _ IH]; [done|]. simpl.
  destruct (Ascii.eqb_spec c ","%char); [done|]. simpl. by rewrite IH.
Qed.

Lemma group_rev_cons4 a b c d rest :
  group_rev (a :: b :: c :: d :: rest) = a :: b :: c :: ","%char :: group_rev (d :: rest).
Proof. reflexivity. Qed.

Lemma group_rev_filter ds : no_comma ds -> List.filter (fun c => negb (Ascii.eqb c ","%char)) (group_rev ds) = ds.
Proof.
  intros Hds. remember (length ds) as n eqn:Hn. revert ds Hds Hn.
  induction n as [n IH] using lt_wf_ind. intros ds Hds ->.
  destruct ds as [|a [|b [|c [|d rest]]]]; try by apply filter_no_comma.
  inversion Hds as [|? ? Ha Hds1]; inversion Hds1 as [|? ? Hb Hds2]; inversion Hds2 as [|? ? Hc Hds3]; subst.
  rewrite group_rev_cons4. cbn [List.filter]. rewrite (IH (length (d :: rest))); [|simpl; lia|done|done].
  repeat match goal with |- context [Ascii.eqb ?x ","%char] => destruct (Ascii.eqb_spec x ","%char); [congruence|] end.
  reflexivity.
Qed.

(** The commas of the reversed output sit exactly at the positions
    [3, 7, 11, ...], and it does not end with one. *)
Lemma group_rev_positions ds :
  no_comma ds ->
  (forall i c, group_rev ds !! i = Some c -> (c = ","%char <-> i mod 4 = 3)%nat) /\ last (group_rev ds) <> Some ","%char.
Proof.
  intros Hds. remember (length ds) as n eqn:Hn. revert ds Hds Hn.
  induction n as [n IH] using lt_wf_ind. intros ds Hds ->.
  assert (Hshort : (length ds <= 3)%nat -> group_rev ds = ds ->
            (forall i c, ds !! i = Some c -> (c = ","%char <-> i mod 4 = 3)%nat) /\ last ds <> Some ","%char).
  { intros Hl _. split.
    - intros i c Hi. pose proof (lookup_lt_Some _ _ _ Hi). rewrite Nat.mod_small by lia.
      unfold no_comma in Hds. rewrite Forall_lookup in Hds. specialize (Hds i c Hi). simpl in Hds. split; [done|lia].
    - destruct (last ds) as [c|] eqn:Hc; [|done]. apply last_Some_elem_of in Hc.
      unfold no_comma in Hds. rewrite Forall_forall in Hds. intros [= ->]. by apply (Hds ","%char). }
  destruct ds as [|a [|b [|c [|d rest]]]]; try (apply Hshort; [simpl; lia|reflexivity]).
  inversion Hds as [|? ? Ha Hds1]; inversion Hds1 as [|? ? Hb Hds2]; inversion Hds2 as [|? ? Hc Hds3]; subst.
  destruct (IH (length (d :: rest)) ltac:(simpl; lia) (d :: rest) Hds3 eq_refl) as [Hpos Hlast].
  rewrite group_rev_cons4. split.
  - intros [|[|[|[|i]]]] x Hi; simpl in Hi; try (injection Hi as <-; split; [done|simpl; lia]);
      [injection Hi as <-; done|].
    rewrite (Hpos i x Hi). replace (S (S (S (S i)))) with (i + 1 * 4)%nat by lia.
    by rewrite Nat.Div0.mod_add.
  - rewrite !last_cons_cons. destruct (group_rev (d :: rest)) eqn:E; [|exact Hlast].
    by destruct rest as [|? [|? [|? ?]]].
Qed.

Lemma string_of_list_of_string s : String.string_of_list_ascii (String.list_ascii_of_string s) = s.
Proof. apply String.string_of_list_ascii_of_string. Qed.

Lemma list_of_string_of_list l : String.list_ascii_of_string (String.string_of_list_ascii l) = l.
Proof. apply String.list_ascii_of_string_of_list_ascii. Qed.

Lemma string_of_list_app l1 l2 :
  String.string_of_list_ascii (l1 ++ l2) = String.string_of_list_ascii l1 +:+ String.string_of_list_ascii l2.
Proof. induction l1 as [|c l1 IH]; [done|]. simpl. by rewrite IH. Qed.

Lemma head_rev {A} (l : list A) : head (rev l) = last l.
Proof. rewrite rev_alt. apply head_reverse. Qed.

Lemma no_comma_rev ds : no_comma ds -> no_comma (rev ds).
Proof. unfold no_comma. rewrite !Forall_forall. intros H c Hc%list_elem_of_In%in_rev%list_elem_of_In. auto. Qed.

(** Grouping inserts nothing but commas. *)
Lemma strip_group_digits s :
  no_comma (String.list_ascii_of_string s) -> strip_commas (group_digits s) = s.
Proof.
  intros Hs. unfold strip_commas, group_digits. rewrite list_of_string_of_list, List.filter_rev.
  rewrite group_rev_filter by by apply no_comma_rev. by rewrite rev_involutive, string_of_list_of_string.
Qed.

Lemma pretty_sign_abs n : (if (n <? 0)%Z then "-" else "") +:+ pretty (Z.abs n) = pretty n.
Proof. by destruct n. Qed.

End ChartLabels.
