(* ===== verification/ChartWait.v ===== *)
(** * The chart wait loop of [analyze_and_save] ([src/backend/main.py], lines 73-82)

    For each chart path, [analyze_and_save] polls [os.path.exists] and
    sleeps 0.1 s while the file is missing and [waited < max_wait]
    ([max_wait = 5]), adding [0.1] to the float [waited] after each sleep.
    [waited] is a binary64 float, modelled with Rocq's primitive floats,
    which implement IEEE-754 binary64 as CPython's [float] does; the
    literal [0.1] denotes the same nearest double in both.  The file system
    is the function [present]: [present i] tells whether the file exists
    at the [i]-th check.  The loop is a [Fixpoint] with fuel; the theorem
    shows that 52 rounds of fuel suffice for every file system, after at
    most 51 sleeps: fifty additions of [0.1] give [4.999999999999998 < 5]
    ([waited_below]), so a file that never appears costs 51 sleeps. *)

From S2P Require Import Prelude.
From Stdlib Require Import Floats.
Import ListNotations.

#[local] Set Warnings "-inexact-float".

Module ChartWait.

(** [max_wait = 5]. *)
Definition max_wait : float := 5.

(** [while not os.path.exists(chart_path) and waited < max_wait:
        time.sleep(0.1); waited += 0.1]: the number of sleeps, or [None]
    when the fuel runs out first. *)
Fixpoint wait_loop (fuel : nat) (present : nat -> bool) (i : nat) (waited : float) : option nat :=
  match fuel with
  | O => None
  | S fuel =>
      if negb (present i) && (waited <? max_wait)%float
      then wait_loop fuel present (S i) (waited + 0.1)%float
      else Some i
  end.

(** The loop of one chart path, from [waited = 0]. *)
Definition WAIT_FUEL : nat := 52.

Definition chart_wait_sleeps (present : nat -> bool) : option nat := wait_loop WAIT_FUEL present 0 0.

(** [waited] after [n] sleeps. *)
Fixpoint waited_after (n : nat) : float :=
  match n with O => 0%float | S n => (waited_after n + 0.1)%float end.

(** ** Lemmas *)

(** The float comparison on the 52 values [waited] takes: below 5 for
    the first 51 of them. *)
Lemma waited_below_check :
  forallb (fun i => Bool.eqb (waited_after i <? max_wait)%float (Nat.leb i 50)) (seq 0 52) = true.
Proof. vm_compute. reflexivity. Qed.

Lemma waited_below i : (i <= 51)%nat -> (waited_after i <? max_wait)%float = Nat.leb i 50.
Proof.
  intros Hi. pose proof waited_below_check as H. rewrite forallb_forall in H.
  specialize (H i ltac:(apply in_seq; lia)). by apply Bool.eqb_prop in H.
Qed.

Lemma wait_loop_bound fuel present i :
  (i <= 51)%nat -> (52 - i <= fuel)%nat ->
  exists k, (i <= k <= 51)%nat /\ wait_loop fuel present i (waited_after i) = Some k.
Proof.
  revert i. induction fuel as [|fuel IH]; intros i Hi Hf; [lia|]. simpl.
  rewrite waited_below by done.
  destruct (present i), (Nat.leb_spec i 50); simpl; try (exists i; split; [lia|done]).
  destruct (IH (S i)) as (k & Hk & E); [lia|lia|]. exists k. split; [lia|exact E].
Qed.

(** ** Properties *)

(** C18: the wait loop terminates whatever the file system does: within
    52 rounds it stops, after at most 51 sleeps. *)
Theorem chart_wait_terminates present :
  exists k, (k <= 51)%nat /\ chart_wait_sleeps present = Some k.
Proof.
  destruct (wait_loop_bound WAIT_FUEL present 0 ltac:(lia) ltac:(unfold WAIT_FUEL; lia)) as (k & Hk & E).
  exists k. split; [lia|exact E].
Qed.

End ChartWait.
