(* ===== verification/Service.v ===== *)
(** * The HTTP service over its file store ([src/backend/main.py])

    The FastAPI endpoints share one store: the directory tree [data/] and
    [charts/].  It is modelled as a finite map from path to file (a saved
    profile or a chart image; directories are not entries).  The analysis
    endpoints ([GET /analyze/{username}], [POST /analyze], lines 137-183)
    call [analyze_and_save] (lines 59-107) and wrap its result or its
    exception; [analyze_and_save] runs [analyze_profile], writes the
    charts of [ChartGenerator.generate_all_charts] ([Charts]) under
    [charts/<username>/], each file holding the data its chart plots, and
    then the profile under [data/<username>.json]; when the chart
    generation raises, the charts written so far stay and no profile is
    saved; [get_data] (186-211),
    [get_user_data] (214-275), [get_chart] (278-295) and [clear_data]
    (298-318) read or clear the store.  The JSON encoding is the identity
    on the stored dict (its values are strings, integers, floats, lists and
    dicts), so a saved profile is stored as the record itself. *)

From S2P Require Import Prelude DateTime IsoFormat OsPath GitHub StarTimeline Activity Languages TopRepos Profile Charts.
From stdpp Require Import gmap strings pretty.
From Stdlib Require Import Ascii.
Import ListNotations.

Module Service.
Import OsPath.

(** Line 91: [f"data/{username}.json"]. *)
Definition data_file (username : string) : string := "data/" +:+ username +:+ ".json".

(** Lines 195 and 253. *)
Definition default_file : string := "data/profile.json".

(** ** The store *)

(** A saved profile: the dict of [analyze_profile] with the ["charts"]
    entry added at lines 85-88. *)
Record StoredProfile := mk_stored_profile {
  sp_profile : Profile.ProfileData;
  sp_charts : list (string * string)
}.

(** A file: a saved profile, or a chart image, known by what it plots. *)
Inductive File :=
| JsonFile (sp : StoredProfile)
| ChartImage (c : Charts.Chart).

Abbreviation Store := (gmap string File).

(** [fastapi.HTTPException(status_code, detail)]. *)
Record HTTPException := mk_http_exception {
  status_code : Z;
  detail : string
}.

(** A JSON value built by an endpoint (strings and objects suffice). *)
Inductive Json :=
| JStr (s : string)
| JObj (fields : list (string * Json)).

(** What an endpoint answers: the JSON body of a 200 response, or the
    status and detail of the [HTTPException] it raises. *)
Inductive Response :=
| Http200Json (j : Json)
| Http200Profile (sp : StoredProfile)
| Http200Analysis (message : string) (sp : StoredProfile)
| Http200File (path : string) (f : File)
| Http200Message (message : string)
| HttpError (status : Z) (detail : string).

(** ** Charts *)

(** Line 44: the module-level [ChartGenerator()]; [analyze_and_save]
    calls [set_username] on it before every generation, which resets the
    only field the generators read. *)
Definition chart_generator : Charts.ChartGenerator := Charts.init "charts" None.

(** Lines 85-88: the URL of each chart. *)
Definition chart_urls (username : string) (charts : list (string * (string * Charts.Chart))) : list (string * string) :=
  map (fun '(name, (path, _)) => (name, "/charts/" +:+ username +:+ "/" +:+ basename path)) charts.

(** [plt.savefig(output_path)] of each chart written. *)
Definition write_charts (charts : list (string * (string * Charts.Chart))) (s : Store) : Store :=
  fold_left (fun s '(_, (path, c)) => <[path := ChartImage c]> s) charts s.

(** ** Endpoints *)

(** The message of the [FileNotFoundError] raised by [open(path, 'w')]
    when the parent directory of [path] is missing. *)
Definition no_such_file (path : string) : string :=
  "[Errno 2] No such file or directory: '" +:+ path +:+ "'".

(** [analyze_and_save] (59-107): the new store, and the saved dict it
    returns ([inl]) or the [HTTPException] it raises ([inr]).  The
    [except Exception] of lines 99-107 turns an exception of
    [analyze_profile] or of [generate_all_charts] into
    [HTTPException(500, "Analysis failed: ...")]; the charts written before
    an exception of [generate_all_charts] stay on disk.  Writing
    [data/<username>.json] (lines 91-94) fails when [username] holds a
    separator: the only directories the program creates are [data],
    [charts] and [charts/<username>], so [data/<dir>/] does not exist
    ([FileNotFoundError], caught by the same [except]; the charts stay).
    Store keys are not normalised: a name whose directory part resolves
    through [".."] to an existing directory is outside the model.  The
    wait loop of
    lines 73-82 finds every chart, written synchronously, at once
    ([chart_wait_sleeps]). *)
Definition analyze_and_save `{GithubApi} `{Charts.PyEnv} (s : Store) (username : string) (now : datetime)
  : Store * (StoredProfile + HTTPException) :=
  match Profile.analyze_profile username now with
  | Profile.AnalysisFailed msg => (s, inr (mk_http_exception 500 ("Analysis failed: " +:+ msg)))
  | Profile.Analyzed p =>
      let g := Charts.set_username chart_generator username in
      let '(charts, raised) := Charts.generate_all_charts g p in
      let s1 := write_charts charts s in
      match raised with
      | Some msg => (s1, inr (mk_http_exception 500 ("Analysis failed: " +:+ msg)))
      | None =>
          if has_slash username then (s1, inr (mk_http_exception 500 ("Analysis failed: " +:+ no_such_file (data_file username))))
          else
            let sp := mk_stored_profile p (chart_urls username charts) in
            (<[data_file username := JsonFile sp]> s1, inl sp)
      end
  end.

(** [str(e)] of an [HTTPException] (Starlette's [__str__]):
    ["<status_code>: <detail>"]. *)
Definition http_exception_str (e : HTTPException) : string :=
  pretty e.(status_code) +:+ ": " +:+ e.(detail).

(** [GET /analyze/{username}] (137-159): its [except Exception] also
    catches the [HTTPException] of [analyze_and_save] and raises a new one
    whose detail is [str(e)]. *)
Definition analyze_profile_get `{GithubApi} `{Charts.PyEnv} (s : Store) (username : string) (now : datetime)
  : Store * Response :=
  let '(s', r) := analyze_and_save s username now in
  (s', match r with
       | inl sp => Http200Analysis ("Successfully analyzed profile: " +:+ username) sp
       | inr e => HttpError 500 (http_exception_str e)
       end).

(** [POST /analyze] (162-183) with body [{"username": ...}]: the same code
    on [request.username]. *)
Record AnalyzeRequest := mk_analyze_request { req_username : string }.

Definition analyze_profile_post `{GithubApi} `{Charts.PyEnv} (s : Store) (request : AnalyzeRequest) (now : datetime)
  : Store * Response :=
  analyze_profile_get s request.(req_username) now.

(** [age < timedelta(hours=24)] *)
Definition DAY_US : Z := 86400 * 1000000.

Definition is_fresh (now analyzed : datetime) : bool := (dt_sub_us now analyzed <? DAY_US)%Z.

(** [get_data] (186-211). *)
Definition get_data (s : Store) : Response :=
  match s !! default_file with
  | None => HttpError 404 "No profile data found. Please analyze a profile first."
  | Some (JsonFile sp) => Http200Profile sp
  | Some (ChartImage _) => HttpError 500 "Expecting value"
  end.

(** Lines 259-265: the fallback on [data/profile.json]. *)
Definition default_lookup (s : Store) (username : string) (force_refresh : bool) (now : datetime) : option Response :=
  if force_refresh then None else
  match s !! default_file with
  | Some (JsonFile sp) =>
      if String.eqb sp.(sp_profile).(Profile.pd_username) username then
        match fromisoformat sp.(sp_profile).(Profile.pd_analyzed_at) with
        | None => Some (HttpError 500 "Invalid isoformat string")
        | Some t => if is_fresh now t then Some (Http200Profile sp) else None
        end
      else None
  | Some (ChartImage _) => Some (HttpError 500 "Expecting value")
  | None => None
  end.

(** [get_user_data] (214-275). *)
Definition get_user_data (s : Store) (username : string) (force_refresh : bool) (now : datetime) : Response :=
  let not_found := HttpError 404 ("No data found for user: " +:+ username) in
  match (if force_refresh then None else s !! data_file username) with
  | Some (JsonFile sp) =>
      match fromisoformat sp.(sp_profile).(Profile.pd_analyzed_at) with
      | None => HttpError 500 "Invalid isoformat string"
      | Some t => if is_fresh now t then Http200Profile sp
                  else HttpError 404 ("Cached data expired for user: " +:+ username)
      end
  | Some (ChartImage _) => HttpError 500 "Expecting value"
  | None => default (not_found) (default_lookup s username force_refresh now)
  end.

(** [get_chart] (278-295). *)
Definition get_chart (s : Store) (username chart_name : string) : Response :=
  let chart_path := path_join (path_join "charts" username) chart_name in
  match s !! chart_path with
  | Some f => Http200File chart_path f
  | None => HttpError 404 "Chart not found"
  end.

(** [os.listdir("charts")] entries that are files: the paths
    [charts/<name>] with a [name] free of separators. *)
Definition direct_chart_file (k : string) : bool :=
  String.prefix "charts/" k &&
  let f := String.substring 7 (String.length k - 7) k in
  negb (String.eqb f "") && negb (has_slash f).

(** [clear_data] (298-318). *)
Definition clear_data (s : Store) : Store * Response :=
  (filter (fun kv => negb (direct_chart_file kv.1)) (delete default_file s),
   Http200Message "All data cleared successfully").

(** ** Runs of the service

    The endpoints that change the store are the analysis (with any state
    of GitHub, at any valid time) and [DELETE /data]; the readers leave it
    unchanged.  A store is reachable when a run from the empty directory
    tree leads to it. *)
Inductive step : Store -> Store -> Prop :=
| step_analyze (api : GithubApi) (env : Charts.PyEnv) s username now :
    dt_valid_b now = true -> step s (@analyze_and_save api env s username now).1
| step_clear s : step s (clear_data s).1.

Definition reachable (s : Store) : Prop := rtc step ∅ s.

(** Every saved profile sits in the file named after its user and carries
    the isoformat of a valid time. *)
Definition store_inv (s : Store) : Prop :=
  forall k sp, s !! k = Some (JsonFile sp) ->
    k = data_file sp.(sp_profile).(Profile.pd_username) /\
    exists t, dt_valid_b t = true /\ sp.(sp_profile).(Profile.pd_analyzed_at) = isoformat t.

(** Every saved profile is well formed ([Profile.profile_wf]). *)
Definition profiles_wf (s : Store) : Prop :=
  forall k sp, s !! k = Some (JsonFile sp) -> Profile.profile_wf sp.(sp_profile).

(** A user name GitHub can have: non-empty, without separators, and not
    one of the special directory names ["."] and [".."] (store keys are
    not normalised, so a path through them is outside the model). *)
Definition plain_name (u : string) : Prop := u <> "" /\ has_slash u = false /\ u <> "." /\ u <> "..".

(** Every chart URL a saved profile of a plainly named user lists points
    to a chart file under [charts/<username>/]. *)
Definition chart_inv (s : Store) : Prop :=
  forall k sp, s !! k = Some (JsonFile sp) -> plain_name sp.(sp_profile).(Profile.pd_username) ->
    forall name url, (name, url) ∈ sp.(sp_charts) ->
      exists f c, f ∈ Charts.CHART_FILES /\
        url = "/charts/" +:+ sp.(sp_profile).(Profile.pd_username) +:+ "/" +:+ f /\
        s !! path_join (path_join "charts" sp.(sp_profile).(Profile.pd_username)) f = Some (ChartImage c).

(** ** Fixtures *)

Definition noon : datetime := Activity.at_time 2025 6 1 12 0.

Definition one_pm : datetime := Activity.at_time 2025 6 1 13 0.

(** The store after analysing [username] at noon on the quiet fixture. *)
Definition saved (username : string) : Store :=
  (@analyze_and_save Profile.quiet_api Charts.with_scipy ∅ username noon).1.

(** The repositories of the spec's star example, every fetch answering
    with an empty list. *)
Definition stars_api : GithubApi :=
  fixture_api (Ok Profile.demo_user) (Ok StarTimeline.spec_example_repos) (fun _ => empty_repo_data) (fun _ => Ok []).

(** ** Lemmas *)

Lemma data_file_inj u1 u2 : data_file u1 = data_file u2 -> u1 = u2.
Proof. unfold data_file. intros H. apply (inj (String.append "data/")) in H. by apply string_app_inv_r in H. Qed.

Lemma write_charts_json charts s k sp :
  write_charts charts s !! k = Some (JsonFile sp) -> s !! k = Some (JsonFile sp).
Proof.
  revert s. induction charts as [|[n [path c]] charts IH]; intros s; [done|]. simpl.
  intros Hk%IH. destruct (decide (path = k)) as [->|]; [by rewrite lookup_insert_eq in Hk|].
  by rewrite lookup_insert_ne in Hk.
Qed.

Lemma store_inv_empty : store_inv ∅.
Proof. intros k sp. by rewrite lookup_empty. Qed.

Lemma store_inv_analyze (api : GithubApi) (env : Charts.PyEnv) s username now :
  dt_valid_b now = true -> store_inv s -> store_inv (@analyze_and_save api env s username now).1.
Proof.
  intros Hv Hs. unfold analyze_and_save.
  destruct (Profile.analyze_profile username now) as [p|msg] eqn:Ha; [|done].
  destruct (Charts.generate_all_charts _ p) as [charts [msg|]]; simpl.
  { intros k sp Hk%write_charts_json. by apply Hs. }
  destruct (has_slash username); simpl; [intros k sp Hk%write_charts_json; by apply Hs|].
  destruct (Profile.analyze_profile_stamp _ _ _ Ha) as [Hu Ht].
  intros k sp. destruct (decide (data_file username = k)) as [<-|Hne].
  - rewrite lookup_insert_eq. intros [= <-]. simpl. rewrite Hu. eauto.
  - rewrite lookup_insert_ne by done. intros Hk%write_charts_json. by apply Hs.
Qed.

Lemma store_inv_clear s : store_inv s -> store_inv (clear_data s).1.
Proof.
  intros Hs k sp. simpl. rewrite map_lookup_filter_Some. intros [Hk _].
  destruct (decide (default_file = k)) as [<-|]; [by rewrite lookup_delete_eq in Hk|].
  rewrite lookup_delete_ne in Hk by done. by apply Hs.
Qed.

(** Induction over the runs of the service: an invariant of the empty
    tree that every step preserves holds of every reachable store. *)
Lemma reachable_ind (I : Store -> Prop) :
  I ∅ -> (forall s s', step s s' -> I s -> I s') -> forall s, reachable s -> I s.
Proof.
  intros H0 Hstep s Hr. cut (forall s0, rtc step s0 s -> I s0 -> I s); [intros H; by apply (H ∅)|].
  clear Hr H0. intros s0 Hr. induction Hr as [|s1 s2 s3 Hs _ IH]; [done|]. eauto.
Qed.

Lemma step_inv s s' : step s s' -> store_inv s -> store_inv s'.
Proof. destruct 1; [by apply store_inv_analyze|apply store_inv_clear]. Qed.

Lemma reachable_inv s : reachable s -> store_inv s.
Proof. apply reachable_ind; [exact store_inv_empty|exact step_inv]. Qed.

Lemma prefix_charts (x : string) : String.prefix "charts/" ("charts/" +:+ x) = true.
Proof. destruct x; reflexivity. Qed.

Lemma substring_charts (x : string) :
  String.substring 7 (String.length ("charts/" +:+ x) - 7) ("charts/" +:+ x) = x.
Proof.
  rewrite string_length_app. change (String.length "charts/") with 7%nat.
  replace (7 + String.length x - 7)%nat with (String.length x) by lia. simpl.
  rewrite string_app_nil_l. induction x as [|c x IH]; [done|]. simpl. by rewrite IH.
Qed.

Lemma charts_slash (x : string) : "charts" +:+ "/" +:+ x = "charts/" +:+ x.
Proof. reflexivity. Qed.

Lemma charts_nonempty (x : string) : String.eqb ("charts/" +:+ x) "" = false.
Proof. reflexivity. Qed.

(** The charts of a user with a non-empty, relative name live in a
    subdirectory of [charts/]. *)
Lemma chart_path_form u n :
  u <> "" -> String.prefix "/" u = false -> String.prefix "/" n = false ->
  exists x, path_join (path_join "charts" u) n = "charts/" +:+ x /\ has_slash x = true.
Proof.
  intros Hu Hu' Hn. unfold path_join at 2. rewrite Hu'. simpl.
  rewrite charts_slash. unfold path_join. rewrite Hn, charts_nonempty. destruct u as [|c u]; [done|].
  rewrite (ends_with_slash_app "charts/"), orb_false_l by done.
  destruct (ends_with_slash (String c u)) eqn:He; rewrite string_app_assoc; eexists; split; [done| |done|].
  - rewrite has_slash_app, (ends_with_slash_has_slash _ He). done.
  - rewrite has_slash_app, string_app_cons. simpl has_slash. apply orb_true_r.
Qed.

Lemma chart_path_not_direct u n :
  u <> "" -> String.prefix "/" u = false -> String.prefix "/" n = false ->
  direct_chart_file (path_join (path_join "charts" u) n) = false.
Proof.
  intros Hu Hu' Hn. destruct (chart_path_form u n Hu Hu' Hn) as (x & -> & Hx).
  unfold direct_chart_file. rewrite prefix_charts, substring_charts, Hx. apply andb_false_r.
Qed.

Lemma write_charts_other charts s k :
  (forall n path c, (n, (path, c)) ∈ charts -> path <> k) -> write_charts charts s !! k = s !! k.
Proof.
  revert s. induction charts as [|[n [path c]] charts IH]; intros s Hk; [done|]. simpl.
  rewrite IH by (intros ???; intros; eapply Hk; by right).
  rewrite lookup_insert_ne; [done|]. eapply Hk. by left.
Qed.

Lemma write_charts_in charts s n path c :
  (n, (path, c)) ∈ charts -> exists c', write_charts charts s !! path = Some (ChartImage c').
Proof.
  revert s n path c. induction charts as [|[n' [path' c']] charts IH]; intros s n path c Hin;
    [by apply elem_of_nil in Hin|]. simpl.
  apply elem_of_cons in Hin as [[= <- <- <-]|Hin]; [|by eapply IH].
  destruct (decide (path ∈ map (fun x => x.2.1) charts)) as [Hm|Hno].
  - apply list_elem_of_fmap in Hm as ([m [p' c'']] & -> & Hm). by apply (IH _ _ _ _ Hm).
  - exists c. rewrite write_charts_other; [by rewrite lookup_insert_eq|].
    intros m p' c'' Hm ->. apply Hno, list_elem_of_fmap. by exists (m, (path, c'')).
Qed.

(** A path holds the chart written last at it, or what it held before. *)
Lemma write_charts_lookup charts s k :
  write_charts charts s !! k =
  match last (filter (fun e => e.2.1 = k) charts) with
  | Some (_, (_, c)) => Some (ChartImage c)
  | None => s !! k
  end.
Proof.
  revert s. induction charts as [|[n [path c]] charts IH]; intros s; [done|]. simpl.
  rewrite IH, filter_cons. simpl. case_decide as Hk.
  - rewrite last_cons. destruct (last _) as [[? [? ?]]|]; [done|]. subst. by rewrite lookup_insert_eq.
  - destruct (last _) as [[? [? ?]]|]; [done|]. by rewrite lookup_insert_ne.
Qed.

Lemma path_join_head x f h r :
  x = String h r -> String.prefix "/" f = false -> exists r', path_join x f = String h r'.
Proof. intros -> Hf. unfold path_join. rewrite Hf. destruct (_ || _); eexists; by rewrite string_app_cons. Qed.

(** A chart path never is a user's data file: it starts with [c] or [/],
    the data file with [d]. *)
Lemma chart_path_not_data u v f :
  f ∈ Charts.CHART_FILES -> path_join (path_join "charts" u) f <> data_file v.
Proof.
  intros Hf. assert (Hrel : String.prefix "/" f = false).
  { repeat (apply elem_of_cons in Hf as [->|Hf]; [reflexivity|]). by apply elem_of_nil in Hf. }
  assert (Hx : exists h r, path_join "charts" u = String h r /\ h <> "d"%char).
  { unfold path_join at 1. destruct u as [|c0 u']; [by do 2 eexists|].
    destruct (String.prefix "/" (String c0 u')) eqn:Hp; [|by do 2 eexists].
    destruct c0 as [[] [] [] [] [] [] [] []]; try discriminate Hp. by do 2 eexists. }
  destruct Hx as (h & r & Hx & Hh). destruct (path_join_head _ f h r Hx Hrel) as [r' ->].
  unfold data_file. rewrite string_app_cons. by intros [= ? _].
Qed.

Lemma saved_reachable u : reachable (saved u).
Proof. apply rtc_once. by apply (step_analyze Profile.quiet_api). Qed.

(** A successful [analyze_and_save] leaves the saved dict in
    [data/<username>.json], with an [analyzed_at] that parses back to the
    analysis time. *)
Lemma analyze_and_save_saved (api : GithubApi) (env : Charts.PyEnv) s u t s' sp :
  dt_valid_b t = true -> analyze_and_save s u t = (s', inl sp) ->
  s' !! data_file u = Some (JsonFile sp) /\ fromisoformat sp.(sp_profile).(Profile.pd_analyzed_at) = Some t.
Proof.
  intros Hv. unfold analyze_and_save. destruct (Profile.analyze_profile u t) as [p|] eqn:Ha; [|done].
  destruct (Charts.generate_all_charts _ p) as [charts [msg|]]; [done|].
  destruct (has_slash u); [by intros [=]|]. intros [= <- <-].
  destruct (Profile.analyze_profile_stamp _ _ _ Ha) as [_ Ht].
  rewrite lookup_insert_eq. simpl. by rewrite Ht, isoformat_parses.
Qed.

Lemma default_file_profile : default_file = data_file "profile".
Proof. reflexivity. Qed.

Lemma clear_data_lookup s k :
  direct_chart_file k = false -> k <> default_file -> (clear_data s).1 !! k = s !! k.
Proof.
  intros Hk Hd. simpl. rewrite map_lookup_filter, lookup_delete_ne by done.
  destruct (s !! k); simpl; [|done]. by rewrite Hk.
Qed.

(** *** The chart invariant *)

Lemma plain_name_rel u : plain_name u -> String.prefix "/" u = false.
Proof.
  intros (Hu & Hs & _). destruct u as [|c u]; [done|]. simpl in *. apply orb_false_iff in Hs as [Hc _].
  destruct c as [[] [] [] [] [] [] [] []]; try discriminate Hc; reflexivity.
Qed.

(** The chart path of a plainly named user, spelt out. *)
Lemma chart_path_eq u f :
  plain_name u -> String.prefix "/" f = false ->
  path_join (path_join "charts" u) f = ("charts/" +:+ u) +:+ "/" +:+ f.
Proof.
  intros Hu Hf. pose proof (plain_name_rel u Hu) as Hr. destruct Hu as (Hne & Hs & _).
  unfold path_join at 2. rewrite Hr. simpl. rewrite charts_slash.
  unfold path_join. rewrite Hf, charts_nonempty, (ends_with_slash_app "charts/") by done. simpl.
  destruct (ends_with_slash u) eqn:He; [|done]. apply ends_with_slash_has_slash in He. congruence.
Qed.

Lemma write_charts_image charts s k c :
  s !! k = Some (ChartImage c) -> exists c', write_charts charts s !! k = Some (ChartImage c').
Proof. intros Hk. rewrite write_charts_lookup. destruct (last _) as [[? [? c']]|]; eauto. Qed.

(** The URLs [analyze_and_save] stores name the files it wrote. *)
Lemma chart_urls_written `{Charts.PyEnv} u p charts name url :
  plain_name u -> (Charts.generate_all_charts (Charts.set_username chart_generator u) p).1 = charts ->
  (name, url) ∈ chart_urls u charts ->
  exists f c, f ∈ Charts.CHART_FILES /\ url = "/charts/" +:+ u +:+ "/" +:+ f /\
    (name, (path_join (path_join "charts" u) f, c)) ∈ charts.
Proof.
  intros Hu Hg Hin. unfold chart_urls in Hin. apply list_elem_of_fmap in Hin as ([n [path c]] & Hnu & Hin).
  pose proof Hin as Hin'. rewrite <- Hg in Hin'.
  destruct (Charts.generate_all_charts_paths _ _ _ _ _ Hin') as (f & Hf & Hp). simpl in Hp.
  destruct (Charts.chart_files_plain f Hf) as (Hrel & Hsl & _).
  exists f, c. simplify_eq/=. split_and!; [done| |done].
  rewrite (chart_path_eq u f Hu Hrel), basename_app by done. done.
Qed.

Lemma chart_inv_empty : chart_inv ∅.
Proof. intros k sp. by rewrite lookup_empty. Qed.

(** Writing charts keeps every saved profile and every chart file. *)
Lemma chart_inv_write charts s : chart_inv s -> chart_inv (write_charts charts s).
Proof.
  intros Hs k sp Hk%write_charts_json Hu name url Hin.
  destruct (Hs k sp Hk Hu name url Hin) as (f & c & Hf & -> & Hc).
  destruct (write_charts_image charts s _ c Hc) as [c' Hc']. eauto.
Qed.

Lemma chart_inv_analyze (api : GithubApi) (env : Charts.PyEnv) s username now :
  chart_inv s -> chart_inv (@analyze_and_save api env s username now).1.
Proof.
  intros Hs. unfold analyze_and_save.
  destruct (Profile.analyze_profile username now) as [p|msg] eqn:Ha; [|done].
  destruct (Charts.generate_all_charts _ p) as [charts [msg|]] eqn:Hg; simpl; [by apply chart_inv_write|].
  destruct (has_slash username); simpl; [by apply chart_inv_write|].
  destruct (Profile.analyze_profile_stamp _ _ _ Ha) as [Hun _].
  intros k sp. destruct (decide (data_file username = k)) as [<-|Hne].
  - rewrite lookup_insert_eq. intros [= <-] Hu name url Hin. simpl in *. rewrite Hun in Hu |- *.
    destruct (chart_urls_written username p charts name url Hu ltac:(by rewrite Hg) Hin) as (f & c & Hf & -> & Hc).
    destruct (write_charts_in charts s _ _ _ Hc) as [c' Hc']. exists f, c'. split_and!; [done|done|].
    rewrite lookup_insert_ne by (apply not_eq_sym, chart_path_not_data, Hf). exact Hc'.
  - rewrite lookup_insert_ne by done. intros Hk Hu name url Hin.
    destruct (chart_inv_write charts s Hs k sp Hk Hu name url Hin) as (f & c & Hf & -> & Hc).
    exists f, c. split_and!; [done|done|]. rewrite lookup_insert_ne by (apply not_eq_sym, chart_path_not_data, Hf).
    exact Hc.
Qed.

Lemma chart_inv_clear s : chart_inv s -> chart_inv (clear_data s).1.
Proof.
  intros Hs k sp Hk Hu name url Hin. simpl in Hk. rewrite map_lookup_filter_Some in Hk. destruct Hk as [Hk _].
  destruct (decide (default_file = k)) as [<-|]; [by rewrite lookup_delete_eq in Hk|].
  rewrite lookup_delete_ne in Hk by done.
  destruct (Hs k sp Hk Hu name url Hin) as (f & c & Hf & -> & Hc).
  destruct (Charts.chart_files_plain f Hf) as (Hrel & _ & _).
  exists f, c. split_and!; [done|done|]. rewrite clear_data_lookup; [done| |].
  - apply chart_path_not_direct; [apply Hu|by apply plain_name_rel|done].
  - rewrite default_file_profile. apply chart_path_not_data, Hf.
Qed.

Lemma reachable_chart_inv s : reachable s -> chart_inv s.
Proof.
  apply reachable_ind; [exact chart_inv_empty|].
  intros s1 s2 []; [by apply chart_inv_analyze|by apply chart_inv_clear].
Qed.

(** *** Well-formed profiles *)

(** A profile [analyze_and_save] leaves in the store was there before or
    is the one the analysis built. *)
Lemma analyze_and_save_json (api : GithubApi) (env : Charts.PyEnv) s u now k sp :
  (analyze_and_save s u now).1 !! k = Some (JsonFile sp) ->
  s !! k = Some (JsonFile sp) \/ Profile.analyze_profile u now = Profile.Analyzed sp.(sp_profile).
Proof.
  unfold analyze_and_save. destruct (Profile.analyze_profile u now) as [p|msg]; [|by left].
  destruct (Charts.generate_all_charts _ p) as [charts [msg|]]; simpl; [left; by eapply write_charts_json|].
  destruct (has_slash u); simpl; [left; by eapply write_charts_json|].
  destruct (decide (data_file u = k)) as [<-|Hne].
  - rewrite lookup_insert_eq. intros [= <-]. by right.
  - rewrite lookup_insert_ne by done. left. by eapply write_charts_json.
Qed.

(** The dict [analyze_and_save] returns is the one the analysis built. *)
Lemma analyze_and_save_inl (api : GithubApi) (env : Charts.PyEnv) s u now s' sp :
  analyze_and_save s u now = (s', inl sp) -> Profile.analyze_profile u now = Profile.Analyzed sp.(sp_profile).
Proof.
  unfold analyze_and_save. destruct (Profile.analyze_profile u now); [|done].
  destruct (Charts.generate_all_charts _ _) as [charts [msg|]]; [done|].
  destruct (has_slash u); [by intros [=]|]. by intros [= _ <-].
Qed.

Lemma clear_data_Some s k f : (clear_data s).1 !! k = Some f -> s !! k = Some f.
Proof.
  simpl. rewrite map_lookup_filter_Some. intros [Hk _].
  destruct (decide (default_file = k)) as [<-|]; [by rewrite lookup_delete_eq in Hk|].
  by rewrite lookup_delete_ne in Hk.
Qed.

Lemma reachable_profiles_wf s : reachable s -> profiles_wf s.
Proof.
  apply reachable_ind; [intros k sp; by rewrite lookup_empty|].
  intros s1 s2 Hstep Hs k sp. destruct Hstep as [api env s0 u now Hv|s0].
  - intros [Hk|Ha]%analyze_and_save_json; [by apply (Hs k)|by eapply Profile.analyze_profile_wf].
  - intros Hk%clear_data_Some. by apply (Hs k).
Qed.

(** Neither read endpoint answers with a fresh analysis. *)
Lemma get_user_data_not_analysis s u force now m sp : get_user_data s u force now <> Http200Analysis m sp.
Proof.
  unfold get_user_data, default_lookup. destruct force; simpl.
  - destruct (s !! default_file) as [[]|]; done.
  - destruct (s !! data_file u) as [[sp'|]|]; [|done|].
    + destruct (fromisoformat _); [|done]. by case_match.
    + destruct (s !! default_file) as [[sp'|]|]; try done. simpl. case_match; [|done].
      destruct (fromisoformat _); [|done]. by case_match.
Qed.

(** [GET /data] and [GET /data/{username}] serve profiles read from the store. *)
Lemma get_data_stored s sp : get_data s = Http200Profile sp -> s !! default_file = Some (JsonFile sp).
Proof. unfold get_data. destruct (s !! default_file) as [[]|]; congruence. Qed.

Lemma get_user_data_stored s u force now sp :
  get_user_data s u force now = Http200Profile sp -> exists k, s !! k = Some (JsonFile sp).
Proof.
  unfold get_user_data, default_lookup. destruct force; simpl.
  - destruct (s !! default_file) as [[sp'|]|]; [|done..]. intros [= <-].
  - destruct (s !! data_file u) as [[sp'|]|] eqn:E; [|done|].
    + destruct (fromisoformat _); [|done]. case_match; [intros [= <-]; eauto|done].
    + destruct (s !! default_file) as [[sp'|]|] eqn:Ed; try done. simpl. case_match; [|done].
      destruct (fromisoformat _); [|done]. case_match; [simpl; intros [= <-]; eauto|done].
Qed.

(** ** Properties *)



(** After analysing "alice", [GET /data] still answers 404. *)
Theorem get_data_misses_analysis :
  get_data (saved "alice") = HttpError 404 "No profile data found. Please analyze a profile first.".
Proof. vm_compute. reflexivity. Qed.

(** C11: in every reachable store, [GET /data/{username}] serves only the
    user's own file [data/<username>.json]: the fallback on
    [data/profile.json] never returns data. *)
Theorem get_user_data_own_file s u force now sp :
  reachable s -> get_user_data s u force now = Http200Profile sp -> s !! data_file u = Some (JsonFile sp).
Proof.
  intros Hr. unfold get_user_data, default_lookup. destruct force; [done|].
  destruct (s !! data_file u) as [[sp'|]|] eqn:E; [|done|].
  - destruct (fromisoformat _); [|done]. by case_match; [intros [= <-]|].
  - destruct (s !! default_file) as [[sp'|]|] eqn:Ed; try done.
    simpl. destruct (String.eqb_spec (Profile.pd_username (sp_profile sp')) u) as [Hu|]; [|done].
    destruct (fromisoformat _); [|done]. case_match; [simpl; intros [= <-]|done].
    destruct (reachable_inv s Hr _ _ Ed) as [Hk _]. rewrite Hu in Hk. rewrite Hk in Ed. congruence.
Qed.

(** Witness of C11: alice's fresh profile comes from her own file. *)
Lemma get_user_data_own_file_witness :
  reachable (saved "alice") /\
  exists sp, get_user_data (saved "alice") "alice" false one_pm = Http200Profile sp /\
             saved "alice" !! data_file "alice" = Some (JsonFile sp).
Proof.
  split; [apply saved_reachable|].
  destruct (get_user_data (saved "alice") "alice" false one_pm) as [|sp| | | |] eqn:E;
    try (vm_compute in E; discriminate E).
  exists sp. split; [done|]. exact (get_user_data_own_file _ _ _ _ sp (saved_reachable "alice") E).
Defined.

(** C10: a saved analysis is served by [GET /data/{username}] exactly while
    it is less than 24 hours old; afterwards the answer is 404 "Cached data
    expired".  This rests on the round trip of [analyzed_at] through
    [isoformat] and [fromisoformat]. *)
Theorem saved_profile_freshness (api : GithubApi) (env : Charts.PyEnv) s u t now s' sp :
  dt_valid_b t = true -> analyze_and_save s u t = (s', inl sp) ->
  get_user_data s' u false now =
    if is_fresh now t then Http200Profile sp else HttpError 404 ("Cached data expired for user: " +:+ u).
Proof.
  intros Hv Hs. destruct (analyze_and_save_saved api env s u t s' sp Hv Hs) as [Hl Ht].
  unfold get_user_data. simpl. by rewrite Hl, Ht.
Qed.

(** Witness: one hour after the noon analysis the profile is served. *)
Lemma saved_profile_freshness_witness :
  exists sp, get_user_data (saved "alice") "alice" false one_pm = Http200Profile sp.
Proof.
  destruct (@analyze_and_save Profile.quiet_api Charts.with_scipy ∅ "alice" noon) as [s' r] eqn:E.
  destruct r as [sp|]; [|vm_compute in E; congruence].
  exists sp. unfold saved. rewrite E. simpl.
  rewrite (saved_profile_freshness Profile.quiet_api Charts.with_scipy ∅ "alice" noon one_pm s' sp eq_refl E).
  reflexivity.
Defined.

(** C12: a failed analysis leaves the store untouched, and both analysis
    endpoints answer 500 with the detail ["500: Analysis failed: <msg>"]:
    the endpoint's [except Exception] catches the [HTTPException] raised by
    [analyze_and_save] and wraps its string form, status code included. *)
Theorem analyze_failure_detail (api : GithubApi) (env : Charts.PyEnv) s u now msg :
  Profile.analyze_profile u now = Profile.AnalysisFailed msg ->
  analyze_profile_get s u now = (s, HttpError 500 ("500: Analysis failed: " +:+ msg)) /\
  analyze_profile_post s (mk_analyze_request u) now = (s, HttpError 500 ("500: Analysis failed: " +:+ msg)).
Proof.
  intros Ha. unfold analyze_profile_post, analyze_profile_get, analyze_and_save. simpl.
  rewrite Ha. split; reflexivity.
Qed.

(** Witness: an analysis that fails on the topics fetch. *)
Lemma analyze_failure_detail_witness :
  @Profile.analyze_profile Profile.topics_api "alice" noon = Profile.AnalysisFailed "GitHub API error" /\
  @analyze_profile_get Profile.topics_api Charts.with_scipy ∅ "alice" noon
    = (∅, HttpError 500 "500: Analysis failed: GitHub API error").
Proof.
  assert (Ha : @Profile.analyze_profile Profile.topics_api "alice" noon = Profile.AnalysisFailed "GitHub API error")
    by (vm_compute; reflexivity).
  split; [exact Ha|exact (proj1 (analyze_failure_detail Profile.topics_api Charts.with_scipy ∅ "alice" noon _ Ha))].
Defined.



(** C13: after a successful analysis, [GET /charts/{username}/stars.png]
    serves the line chart of the saved star timeline; when that timeline
    is empty no star chart is written, and the request still serves
    whatever an earlier analysis left at that path. *)
Theorem served_star_chart (api : GithubApi) (env : Charts.PyEnv) s u t s' sp :
  analyze_and_save s u t = (s', inl sp) ->
  get_chart s' u "stars.png" =
    match sp.(sp_profile).(Profile.pd_contribution_summary).(Activity.star_timeline) with
    | [] => get_chart s u "stars.png"
    | tl => Http200File (path_join (path_join "charts" u) "stars.png")
              (ChartImage (Charts.LineChart (map StarTimeline.te_month tl) (map StarTimeline.te_stars tl)))
    end.
Proof.
  unfold analyze_and_save. destruct (Profile.analyze_profile u t) as [p|]; [|done].
  destruct (Charts.generate_all_charts _ p) as [charts [msg|]] eqn:Hg; [done|].
  destruct (has_slash u); [by intros [=]|]. intros [= <- <-]. simpl.
  pose proof (Charts.generate_all_charts_stars (Charts.set_username chart_generator u) p) as Hf.
  rewrite Hg in Hf. simpl in Hf. unfold get_chart.
  rewrite lookup_insert_ne by (apply not_eq_sym, chart_path_not_data; right; left).
  rewrite write_charts_lookup, Hf. by destruct (Activity.star_timeline _).
Qed.

(** Witness: after analysing the spec's star example, the star chart
    plots 150 stars in January 2023 and 160 in March. *)
Lemma served_star_chart_witness :
  exists s' sp, @analyze_and_save stars_api Charts.with_scipy ∅ "alice" noon = (s', inl sp) /\
    get_chart s' "alice" "stars.png" =
      Http200File "charts/alice/stars.png" (ChartImage (Charts.LineChart [(2023, 1); (2023, 3)]%Z [150; 160]%Z)).
Proof.
  destruct (@analyze_and_save stars_api Charts.with_scipy ∅ "alice" noon) as [s' [sp|e]] eqn:E;
    [|vm_compute in E; discriminate].
  exists s', sp. split; [done|].
  rewrite (served_star_chart stars_api Charts.with_scipy ∅ "alice" noon s' sp E).
  assert (Hsp := E). vm_compute in Hsp. injection Hsp as _ <-. vm_compute. reflexivity.
Defined.




(** C14: [DELETE /data] answers with its success message, removes
    [data/profile.json], so that [GET /data] answers 404 afterwards, and
    removes every file directly under [charts/]. *)
Theorem clear_data_effect s :
  (clear_data s).2 = Http200Message "All data cleared successfully" /\
  get_data (clear_data s).1 = HttpError 404 "No profile data found. Please analyze a profile first." /\
  (forall k, direct_chart_file k = true -> (clear_data s).1 !! k = None).
Proof.
  split_and!; [done| |].
  - unfold get_data. simpl. rewrite map_lookup_filter, lookup_delete_eq. done.
  - intros k Hk. simpl. rewrite map_lookup_filter.
    destruct (delete default_file s !! k); simpl; [|done]. by rewrite Hk.
Qed.

End Service.
