(* ===== verification/App.v ===== *)
(** * The FastAPI application: its route table and request dispatch ([src/backend/main.py])

    [main.py] builds one [FastAPI] app (lines 19-23), mounts the directory
    [charts/] as static files at [/charts] (line 39), then registers its
    endpoints with decorators, in file order (lines 110-298).  Starlette
    dispatches a request to the first route whose pattern matches the
    whole path and the method; a route matching the path but not the
    method is remembered and answers 405 if nothing matches fully; a mount
    matches every path strictly below its prefix, whatever the method, and
    [StaticFiles] answers 405 to a method other than GET.  FastAPI
    registers its documentation routes ([/openapi.json], [/docs],
    [/docs/oauth2-redirect], [/redoc]) when the app is created, before
    any of the file's.

    A request is its method and its path as a list of segments; the store
    is [Service]'s.  [handle] runs the endpoint a request reaches.  The
    theorems show that the route [GET /charts/{username}/{chart_name}] is
    shadowed by the mount, and that every request either leaves the store
    unchanged or is a step of [Service.step]: the invariants proved for
    reachable stores hold for every sequence of requests. *)

From S2P Require Import Prelude DateTime OsPath GitHub Profile Charts Service.
From stdpp Require Import gmap strings.
Import ListNotations.

Module App.
Import OsPath Service.

Inductive Method := GET | POST | DELETE.

#[export] Instance method_eq_dec : EqDecision Method.
Proof. solve_decision. Defined.

(** A path segment of a route pattern: a literal or a [{parameter}]. *)
Inductive Seg := Lit (s : string) | Param.

Inductive Endpoint :=
| Docs | StaticCharts | Root | Health | AnalyzeGet | AnalyzePost
| GetData | GetUserData | GetChart | ClearData.

(** A route: [Route(path, methods)] or, when [methods] is [None], a
    [Mount] of the prefix. *)
Record RouteEntry := mk_route {
  r_methods : option (list Method);
  r_pattern : list Seg;
  r_endpoint : Endpoint
}.

(** The routes in registration order. *)
Definition routes : list RouteEntry :=
  [mk_route (Some [GET]) [Lit "openapi.json"] Docs;
   mk_route (Some [GET]) [Lit "docs"] Docs;
   mk_route (Some [GET]) [Lit "docs"; Lit "oauth2-redirect"] Docs;
   mk_route (Some [GET]) [Lit "redoc"] Docs;
   mk_route None [Lit "charts"] StaticCharts;
   mk_route (Some [GET]) [] Root;
   mk_route (Some [GET]) [Lit "health"] Health;
   mk_route (Some [GET]) [Lit "analyze"; Param] AnalyzeGet;
   mk_route (Some [POST]) [Lit "analyze"] AnalyzePost;
   mk_route (Some [GET]) [Lit "data"] GetData;
   mk_route (Some [GET]) [Lit "data"; Param] GetUserData;
   mk_route (Some [GET]) [Lit "charts"; Param; Param] GetChart;
   mk_route (Some [DELETE]) [Lit "data"] ClearData].

(** The values of the parameters when the path matches the whole pattern
    (a parameter matches one non-empty segment). *)
Fixpoint match_pattern (pat : list Seg) (segs : list string) : option (list string) :=
  match pat, segs with
  | [], [] => Some []
  | Lit l :: pat, s :: segs => if String.eqb l s then match_pattern pat segs else None
  | Param :: pat, s :: segs =>
      if String.eqb s "" then None else (fun ps => s :: ps) <$> match_pattern pat segs
  | _, _ => None
  end.

(** A mount matches a path below its prefix ([Mount("/charts")] matches
    the paths that start with ["/charts/"]): the rest of the path, which
    has at least one segment, is its parameter list. *)
Fixpoint match_prefix (pat : list Seg) (segs : list string) : option (list string) :=
  match pat, segs with
  | [], [] => None
  | [], rest => Some rest
  | Lit l :: pat, s :: segs => if String.eqb l s then match_prefix pat segs else None
  | _, _ => None
  end.

Inductive Match :=
| Full (e : Endpoint) (params : list string)
| Partial
| NoMatch.

Definition match_route (m : Method) (segs : list string) (r : RouteEntry) : Match :=
  match r.(r_methods) with
  | None => match match_prefix r.(r_pattern) segs with Some ps => Full r.(r_endpoint) ps | None => NoMatch end
  | Some ms =>
      match match_pattern r.(r_pattern) segs with
      | Some ps => if bool_decide (m ∈ ms) then Full r.(r_endpoint) ps else Partial
      | None => NoMatch
      end
  end.

(** [Router.__call__]: the first full match, else 405 after a partial
    match, else 404. *)
Fixpoint dispatch_go (m : Method) (segs : list string) (partial : bool) (rs : list RouteEntry) : Match :=
  match rs with
  | [] => if partial then Partial else NoMatch
  | r :: rs =>
      match match_route m segs r with
      | Full e ps => Full e ps
      | Partial => dispatch_go m segs true rs
      | NoMatch => dispatch_go m segs partial rs
      end
  end.

Definition dispatch (m : Method) (segs : list string) : Match := dispatch_go m segs false routes.

(** [root] (110-123). *)
Definition root_body : Json :=
  JObj [("name", JStr "GitFolio AI API"); ("version", JStr "1.0.0");
        ("description", JStr "GitHub Profile Analyzer and Portfolio Generator");
        ("endpoints", JObj [("analyze", JStr "/analyze/{username}"); ("data", JStr "/data");
                            ("health", JStr "/health"); ("docs", JStr "/docs")])].

(** [health_check] (126-134): the token is the [GITHUB_TOKEN] of line 42;
    [if github_token] is false for an unset or empty variable. *)
Definition health_body (github_token : option string) : Json :=
  let token_status := match github_token with
                      | Some t => if String.eqb t "" then "not configured" else "configured"
                      | None => "not configured"
                      end in
  JObj [("status", JStr "healthy"); ("github_token", JStr token_status); ("api_version", JStr "1.0.0")].

(** Lines 42-43: [github_token = os.getenv("GITHUB_TOKEN")] and
    [analyzer = GitHubAnalyzer(github_token)], whose [__init__] reads the
    same variable again when the argument is falsy. *)
Definition analyzer (env : option string) : GithubClient := analyzer_client env env.

(** [StaticFiles(directory="charts")] (line 39): for a [GET], the file
    under [charts/] named by the rest of the path; any other method is
    answered 405. *)
Definition serve_static (s : Store) (m : Method) (rest : list string) : Response :=
  if bool_decide (m = GET) then
    let path := fold_left path_join rest "charts" in
    match s !! path with
    | Some f => Http200File path f
    | None => HttpError 404 "Not Found"
    end
  else HttpError 405 "Method Not Allowed".

(** A request: method, path segments, the [username] of a [POST /analyze]
    body and the [force_refresh] query parameter. *)
Record Request := mk_request {
  rq_method : Method;
  rq_path : list string;
  rq_body_username : option string;
  rq_force_refresh : bool
}.

(** The endpoint a request reaches, run on the store.  The documentation
    routes do not touch the store. *)
Definition handle `{GithubApi} `{Charts.PyEnv} (github_token : option string) (s : Store) (rq : Request)
  (now : datetime) : Store * Response :=
  match dispatch rq.(rq_method) rq.(rq_path) with
  | Full StaticCharts rest => (s, serve_static s rq.(rq_method) rest)
  | Full Docs _ => (s, Http200Message "docs")
  | Full Root _ => (s, Http200Json root_body)
  | Full Health _ => (s, Http200Json (health_body github_token))
  | Full AnalyzeGet [u] => analyze_profile_get s u now
  | Full AnalyzePost _ =>
      match rq.(rq_body_username) with
      | Some u => analyze_profile_post s (mk_analyze_request u) now
      | None => (s, HttpError 422 "Unprocessable Entity")
      end
  | Full GetData _ => (s, get_data s)
  | Full GetUserData [u] => (s, get_user_data s u rq.(rq_force_refresh) now)
  | Full GetChart [u; n] => (s, get_chart s u n)
  | Full ClearData _ => clear_data s
  | Full _ _ => (s, HttpError 404 "Not Found")
  | Partial => (s, HttpError 405 "Method Not Allowed")
  | NoMatch => (s, HttpError 404 "Not Found")
  end.

(** A sequence of requests, each answered with the state of GitHub and
    the time at which it arrives. *)
Fixpoint run `{Charts.PyEnv} (github_token : option string) (s : Store)
  (rqs : list (GithubApi * Request * datetime)) : Store :=
  match rqs with
  | [] => s
  | (api, rq, now) :: rqs => run github_token (@handle api _ github_token s rq now).1 rqs
  end.

(** ** Fixtures *)

Definition get_request (path : list string) : Request := mk_request GET path None false.

(** [POST /analyze] with the body [{"username": u}]. *)
Definition post_request (u : string) : Request := mk_request POST ["analyze"] (Some u) false.

(** Analyse alice, read her data, clear the data. *)
Definition session : list (GithubApi * Request * datetime) :=
  [(Profile.quiet_api, get_request ["analyze"; "alice"], noon);
   (Profile.quiet_api, get_request ["data"; "alice"], one_pm);
   (Profile.quiet_api, mk_request DELETE ["data"] None false, one_pm)].

(** ** Lemmas *)

Lemma analyze_profile_get_store `{GithubApi} `{Charts.PyEnv} s u now :
  (analyze_profile_get s u now).1 = (analyze_and_save s u now).1.
Proof. unfold analyze_profile_get. by destruct (analyze_and_save s u now) as [? []]. Qed.

(** The mount is the fifth route; the four documentation routes do not
    match a path that starts with [charts]. *)
Lemma dispatch_charts m x rest : dispatch m ("charts" :: x :: rest) = Full StaticCharts (x :: rest).
Proof. unfold dispatch, routes. simpl. destruct rest as [|y rest]; reflexivity. Qed.

Lemma dispatch_analyze_post : dispatch POST ["analyze"] = Full AnalyzePost [].
Proof. reflexivity. Qed.

(** [{username}] matches one non-empty segment. *)
Lemma dispatch_user_data u : u <> "" -> dispatch GET ["data"; u] = Full GetUserData [u].
Proof. intros Hu. unfold dispatch, routes. simpl. by destruct u. Qed.

(** Every request either leaves the store as it was or makes one step of
    the service. *)
Lemma handle_step `{GithubApi} `{Charts.PyEnv} token s rq now :
  dt_valid_b now = true -> (handle token s rq now).1 = s \/ step s (handle token s rq now).1.
Proof.
  intros Hv. unfold handle.
  destruct (dispatch _ _) as [e ps| |]; [|by left|by left].
  destruct e; try by left.
  - destruct ps as [|u [|]]; [by left| |by left]. right. rewrite analyze_profile_get_store. by constructor.
  - destruct (rq_body_username rq); [|by left]. right. unfold analyze_profile_post.
    rewrite analyze_profile_get_store. by constructor.
  - destruct ps as [|? [|]]; by left.
  - destruct ps as [|? [|? [|]]]; by left.
  - right. constructor.
Qed.

Lemma run_reachable_from `{Charts.PyEnv} token s rqs :
  reachable s -> Forall (fun x => dt_valid_b x.2 = true) rqs -> reachable (run token s rqs).
Proof.
  intros Hs Hv. revert s Hs. induction Hv as [|[[api rq] now] rqs Hnow _ IH]; intros s Hs; [done|].
  simpl in *. apply IH. destruct (@handle_step api _ token s rq now Hnow) as [->|Hstep]; [done|].
  by eapply rtc_r.
Qed.

(** ** Properties *)



(** C20: in every reachable store, each chart URL listed in a saved profile
    of a plainly named user is served: [GET] on it reaches the static
    mount and returns a chart image of that user's directory.  Neither a
    later analysis of another user nor [DELETE /data] breaks a link. *)
Theorem saved_chart_urls_served `{GithubApi} `{Charts.PyEnv} token s k sp name url now :
  reachable s -> s !! k = Some (JsonFile sp) -> plain_name sp.(sp_profile).(Profile.pd_username) ->
  (name, url) ∈ sp.(sp_charts) ->
  exists f c,
    url = "/charts/" +:+ sp.(sp_profile).(Profile.pd_username) +:+ "/" +:+ f /\
    handle token s (get_request ["charts"; sp.(sp_profile).(Profile.pd_username); f]) now =
      (s, Http200File (path_join (path_join "charts" sp.(sp_profile).(Profile.pd_username)) f) (ChartImage c)).
Proof.
  intros Hr Hk Hu Hin. destruct (reachable_chart_inv s Hr k sp Hk Hu name url Hin) as (f & c & Hf & -> & Hc).
  exists f, c. split; [done|]. unfold handle. simpl rq_method. simpl rq_path. rewrite dispatch_charts.
  unfold serve_static. simpl. by rewrite Hc.
Qed.

(** Witness: alice's saved profile links her heatmap, which is served. *)
Lemma saved_chart_urls_served_witness :
  exists sp, reachable (saved "alice") /\ saved "alice" !! data_file "alice" = Some (JsonFile sp) /\
    plain_name sp.(sp_profile).(Profile.pd_username) /\
    ("contributions", "/charts/alice/contributions.png") ∈ sp.(sp_charts) /\
    exists f c, "/charts/alice/contributions.png" = "/charts/" +:+ sp.(sp_profile).(Profile.pd_username) +:+ "/" +:+ f /\
      @handle Profile.quiet_api Charts.with_scipy None (saved "alice")
        (get_request ["charts"; sp.(sp_profile).(Profile.pd_username); f]) one_pm =
      (saved "alice", Http200File (path_join (path_join "charts" sp.(sp_profile).(Profile.pd_username)) f) (ChartImage c)).
Proof.
  destruct (saved "alice" !! data_file "alice") as [[sp|c]|] eqn:E; [|vm_compute in E; discriminate..].
  assert (Hsp := E). vm_compute in Hsp. injection Hsp as Hsp.
  assert (Hu : plain_name sp.(sp_profile).(Profile.pd_username)) by (rewrite <- Hsp; split_and!; [done|reflexivity|done|done]).
  assert (Hin : ("contributions", "/charts/alice/contributions.png") ∈ sp.(sp_charts)) by (rewrite <- Hsp; by left).
  exists sp. split_and!; [apply saved_reachable|done|exact Hu|exact Hin|].
  exact (@saved_chart_urls_served Profile.quiet_api Charts.with_scipy None _ _ _ _ _ one_pm
           (saved_reachable "alice") E Hu Hin).
Defined.

(** C21: liveness of the analysis cache.  From every reachable store, when
    GitHub lets the analysis of a plainly named user succeed and the
    charts draw, one [POST /analyze] request leads to a reachable store in
    which [GET /data/{username}] serves that analysis, at any time less
    than 24 hours later. *)
Theorem data_served_after_post `{GithubApi} `{Charts.PyEnv} token s u t now p :
  reachable s -> plain_name u -> dt_valid_b t = true -> is_fresh now t = true ->
  Profile.analyze_profile u t = Profile.Analyzed p ->
  (Charts.generate_all_charts (Charts.set_username chart_generator u) p).2 = None ->
  let s' := run token s [(_, post_request u, t)] in
  reachable s' /\ exists sp, sp.(sp_profile) = p /\
    handle token s' (get_request ["data"; u]) now = (s', Http200Profile sp).
Proof.
  intros Hr (Hu & Hsl & _) Hv Hf Ha Hc s'.
  split; [apply run_reachable_from; [done|by repeat constructor]|].
  assert (Hs : exists sp, analyze_and_save s u t = (s', inl sp) /\ sp.(sp_profile) = p).
  { subst s'. unfold run, handle. simpl rq_method. simpl rq_path. rewrite dispatch_analyze_post. simpl.
    unfold analyze_profile_post, analyze_profile_get, analyze_and_save. cbn [req_username]. rewrite Ha.
    destruct (Charts.generate_all_charts _ p) as [charts []]; simpl in Hc; [done|]. rewrite Hsl. by eexists. }
  destruct Hs as (sp & Hs & Hp). exists sp. split; [done|].
  destruct (analyze_and_save_saved _ _ s u t s' sp Hv Hs) as [Hl Ht].
  unfold handle. simpl rq_method. simpl rq_path. rewrite dispatch_user_data by done. simpl.
  unfold get_user_data. by rewrite Hl, Ht, Hf.
Qed.

(** Witness: alice analysed at noon on the empty tree, read at one. *)
Lemma data_served_after_post_witness :
  exists p, @Profile.analyze_profile Profile.quiet_api "alice" noon = Profile.Analyzed p /\
    exists sp, sp.(sp_profile) = p /\
    @handle Profile.quiet_api Charts.with_scipy None (@run Charts.with_scipy None ∅ [(Profile.quiet_api, post_request "alice", noon)])
      (get_request ["data"; "alice"]) one_pm
    = (@run Charts.with_scipy None ∅ [(Profile.quiet_api, post_request "alice", noon)], Http200Profile sp).
Proof.
  destruct (@Profile.analyze_profile Profile.quiet_api "alice" noon) as [p|m] eqn:E; [|vm_compute in E; discriminate].
  exists p. split; [done|].
  assert (Hc : (@Charts.generate_all_charts Charts.with_scipy (Charts.set_username chart_generator "alice") p).2 = None).
  { assert (Hp := E). vm_compute in Hp. injection Hp as <-. vm_compute. reflexivity. }
  assert (Hu : plain_name "alice") by (split_and!; [done|reflexivity|done|done]).
  exact (proj2 (@data_served_after_post Profile.quiet_api Charts.with_scipy None ∅ "alice" noon one_pm p
                  (rtc_refl _ _) Hu eq_refl eq_refl E Hc)).
Defined.

(** A response that is neither a profile nor an analysis. *)
Local Ltac no_answer := simpl in *; unfold serve_static, get_chart, get_data in *;
  repeat case_match; congruence.
Local Ltac no_profile := intros [?|[? ?]]; no_answer.

(** C19: composition of the analysis and the service.  In every reachable
    store, at a valid time, every profile the app answers with, read from
    the store or just analysed, is well formed: the bounds and orders each
    component of the analyzer guarantees ([Profile.profile_wf]) reach the
    HTTP response. *)
Theorem served_profiles_wf `{GithubApi} `{Charts.PyEnv} token s rq now sp :
  reachable s -> dt_valid_b now = true ->
  ((handle token s rq now).2 = Http200Profile sp \/ exists m, (handle token s rq now).2 = Http200Analysis m sp) ->
  Profile.profile_wf sp.(sp_profile).
Proof.
  intros Hr Hv Hresp. pose proof (reachable_profiles_wf s Hr) as Hwf.
  assert (Hana : forall u, (analyze_profile_get s u now).2 = Http200Profile sp \/
            (exists m, (analyze_profile_get s u now).2 = Http200Analysis m sp) -> Profile.profile_wf sp.(sp_profile)).
  { intros u. unfold analyze_profile_get. destruct (analyze_and_save s u now) as [s' [sp'|e]] eqn:E; simpl;
      [|no_profile].
    intros [|[m [= _ <-]]]; [done|]. apply (Profile.analyze_profile_wf u now); [exact Hv|]. by eapply analyze_and_save_inl. }
  revert Hresp. unfold handle.
  destruct (dispatch _ _) as [e ps| |]; [|no_profile..].
  destruct e; try (no_profile).
  - destruct ps as [|u [|]]; [no_profile|apply Hana|no_profile].
  - destruct (rq_body_username rq); [apply Hana|no_profile].
  - intros [Hg%get_data_stored|[m ?]]; [by apply (Hwf _ _ Hg)|no_answer].
  - destruct ps as [|u [|]]; try (no_profile).
    intros [(k & Hk)%get_user_data_stored|[m Hm%get_user_data_not_analysis]]; [by apply (Hwf _ _ Hk)|done].
  - destruct ps as [|? [|? [|]]]; no_profile.
Qed.

(** Witness: the profile served for alice an hour after her analysis. *)
Lemma served_profiles_wf_witness :
  exists sp, reachable (saved "alice") /\ dt_valid_b one_pm = true /\
    (@handle Profile.quiet_api Charts.with_scipy None (saved "alice") (get_request ["data"; "alice"]) one_pm).2
      = Http200Profile sp /\ Profile.profile_wf sp.(sp_profile).
Proof.
  destruct ((@handle Profile.quiet_api Charts.with_scipy None (saved "alice") (get_request ["data"; "alice"]) one_pm).2)
    as [|sp| | | |] eqn:E; try (vm_compute in E; discriminate E).
  exists sp. split_and!; [apply saved_reachable|reflexivity|done|].
  exact (@served_profiles_wf Profile.quiet_api Charts.with_scipy None (saved "alice") (get_request ["data"; "alice"]) one_pm sp (saved_reachable "alice") eq_refl (or_introl E)).
Defined.

(** C30: [GET /health] tells the truth about the analyzer: it reports the
    token "configured" exactly when the analyzer built at start-up from
    the same [GITHUB_TOKEN] is an authenticated client, and "not
    configured" for an unset or empty variable, with which the analyzer
    falls back to anonymous access. *)
Theorem health_reports_client `{GithubApi} `{Charts.PyEnv} env s now :
  handle env s (get_request ["health"]) now =
    (s, Http200Json (JObj [("status", JStr "healthy");
                           ("github_token", JStr (match analyzer env with
                                                  | Authenticated _ => "configured"
                                                  | Anonymous => "not configured" end));
                           ("api_version", JStr "1.0.0")])).
Proof.
  unfold handle. simpl rq_method. simpl rq_path.
  replace (dispatch GET ["health"]) with (Full Health []) by reflexivity.
  unfold health_body, analyzer, analyzer_client. destruct env as [t|]; [|done].
  by destruct (String.eqb t "") eqn:E; rewrite ?E.
Qed.


End App.
